(** * OAuth credential lifecycle and impersonator pipeline of the webapp

    A shallow embedding of [webapp/oauth10a.py], [webapp/oauth20pkce.py],
    [webapp/oauth10areport.py] and [webapp/models.py], with the exception
    class of [webapp/error.py], and the properties of the credential flows
    and of the mute/block/report pipeline.

    Python values are modelled as follows: [str] as [string], [bytes] as
    [list Z] (each element in 0..255), [int] as [Z], [None]-able values as
    [option], dictionaries with string keys ([request.args], the Flask
    [session], decoded provider payloads) as [gmap string _], database tables
    as lists of rows in storage order, and exceptions as the [Raise]
    alternative of a state-and-error monad. *)

From Stdlib Require Import ZArith String Ascii List Lia Bool DecimalString.
From stdpp Require Import gmap strings list.
Import ListNotations.
Open Scope string_scope.
Open Scope list_scope.
Open Scope Z_scope.

(** ** Python built-ins used by the sources *)

Module Py.

(** [str(n)] for an integer. *)
Definition str_of_Z (z : Z) : string := NilZero.string_of_int (Z.to_int z).

(** Truthiness of a [str]-or-[None] value: [None] and [''] are falsy. *)
Definition truthy (o : option string) : bool :=
  match o with
  | Some s => negb (String.eqb s "")
  | None => false
  end.

(** The string behind a truthy value, for [if v:] followed by uses of [v]. *)
Definition truthy_value (o : option string) : option string :=
  match o with
  | Some s => if String.eqb s "" then None else Some s
  | None => None
  end.

(** [a != b] for two [str]-or-[None] values. *)
Definition ne (a b : option string) : bool :=
  match a, b with
  | Some x, Some y => negb (String.eqb x y)
  | None, None => false
  | _, _ => true
  end.

(** [needle in hay] for two strings. *)
Fixpoint contains (needle hay : string) : bool :=
  String.prefix needle hay ||
  match hay with
  | EmptyString => false
  | String _ rest => contains needle rest
  end.

(** [s.split(sep)] for a one-character separator; the result is never
    empty. *)
Fixpoint split (sep : ascii) (s : string) : list string :=
  match s with
  | EmptyString => [EmptyString]
  | String c rest =>
      if Ascii.eqb c sep then EmptyString :: split sep rest
      else match split sep rest with
           | [] => [String c EmptyString]
           | h :: t => String c h :: t
           end
  end.

(** [s.rstrip(c)] for a one-character set. *)
Fixpoint rstrip (c : ascii) (s : string) : string :=
  match s with
  | EmptyString => EmptyString
  | String a rest =>
      match rstrip c rest with
      | EmptyString => if Ascii.eqb a c then EmptyString else String a EmptyString
      | r => String a r
      end
  end.

(** [s.encode()] and [b.decode()], on the ASCII range where UTF-8 is the
    identity on code points. *)
Definition encode (s : string) : list Z :=
  map (fun c => Z.of_N (N_of_ascii c)) (list_ascii_of_string s).

Definition decode (b : list Z) : string :=
  string_of_list_ascii (map (fun z => ascii_of_N (Z.to_N z)) b).

(** [''.join(parts)] for one-character parts. *)
Definition join_chars (cs : list ascii) : string := string_of_list_ascii cs.

(** Whether a [datetime] carries a time zone. [datetime.now(timezone.utc)]
    does; a timestamp read back from a [DateTime] column of the SQLite
    database does not, also for a column declared with [timezone=True]. *)
Inductive awareness := Naive | Aware.

(** [a < b] on datetimes: Python refuses to order a naive and an aware
    value. *)
Definition datetime_lt (ta : awareness) (a : Z) (tb : awareness) (b : Z) : string + bool :=
  match ta, tb with
  | Naive, Naive | Aware, Aware => inr (a <? b)
  | _, _ => inl "can't compare offset-naive and offset-aware datetimes"
  end.

End Py.

(** ** [hashlib.sha256] (FIPS 180-4), on 32-bit words carried in [Z] *)

Module Sha256.

Definition wrap32 (x : Z) : Z := x mod 2 ^ 32.
Definition add32 (x y : Z) : Z := wrap32 (x + y).
Definition rotr (n x : Z) : Z :=
  Z.lor (Z.shiftr x n) (wrap32 (Z.shiftl x (32 - n))).
Definition not32 (x : Z) : Z := Z.lxor x 0xFFFFFFFF.

Definition Ch (x y z : Z) : Z := Z.lxor (Z.land x y) (Z.land (not32 x) z).
Definition Maj (x y z : Z) : Z :=
  Z.lxor (Z.lxor (Z.land x y) (Z.land x z)) (Z.land y z).
Definition bsig0 (x : Z) : Z := Z.lxor (Z.lxor (rotr 2 x) (rotr 13 x)) (rotr 22 x).
Definition bsig1 (x : Z) : Z := Z.lxor (Z.lxor (rotr 6 x) (rotr 11 x)) (rotr 25 x).
Definition ssig0 (x : Z) : Z := Z.lxor (Z.lxor (rotr 7 x) (rotr 18 x)) (Z.shiftr x 3).
Definition ssig1 (x : Z) : Z := Z.lxor (Z.lxor (rotr 17 x) (rotr 19 x)) (Z.shiftr x 10).

(** The first sixty-four primes. *)
Definition primes : list Z :=
  [2; 3; 5; 7; 11; 13; 17; 19; 23; 29; 31; 37; 41; 43; 47; 53;
   59; 61; 67; 71; 73; 79; 83; 89; 97; 101; 103; 107; 109; 113; 127; 131;
   137; 139; 149; 151; 157; 163; 167; 173; 179; 181; 191; 193; 197; 199; 211; 223;
   227; 229; 233; 239; 241; 251; 257; 263; 269; 271; 277; 281; 283; 293; 307; 311].

(** The integer cube root below [2^36], by bisection. *)
Fixpoint cube_root_between (fuel : nat) (lo hi n : Z) : Z :=
  match fuel with
  | O => lo
  | S fuel' =>
      let mid := (lo + hi) / 2 in
      if mid * mid * mid <=? n
      then cube_root_between fuel' mid hi n
      else cube_root_between fuel' lo mid n
  end.

Definition cube_root (n : Z) : Z := cube_root_between 40 0 (2 ^ 36) n.

(** The round constants: the first 32 bits of the fractional parts of the
    cube roots of the primes. *)
Definition K : list Z :=
  Eval vm_compute in map (fun p => wrap32 (cube_root (p * 2 ^ 96))) primes.

(** The eight working variables, also the chaining value. *)
Record regs := Regs { ra : Z; rb : Z; rc : Z; rd : Z; re : Z; rf : Z; rg : Z; rh : Z }.

(** The initial hash value: the first 32 bits of the fractional parts of the
    square roots of the first eight primes. *)
Definition frac_sqrt (p : Z) : Z := wrap32 (Z.sqrt (p * 2 ^ 64)).

Definition H0 : regs :=
  Eval vm_compute in
    Regs (frac_sqrt 2) (frac_sqrt 3) (frac_sqrt 5) (frac_sqrt 7)
         (frac_sqrt 11) (frac_sqrt 13) (frac_sqrt 17) (frac_sqrt 19).

(** Padding: a [0x80] byte, zeros up to 56 mod 64, the bit length on 8 bytes. *)
Definition be_bytes (n : nat) (x : Z) : list Z :=
  map (fun i => Z.land (Z.shiftr x (8 * Z.of_nat i)) 0xFF) (rev (seq 0 n)).

Definition pad (msg : list Z) : list Z :=
  let len := Z.of_nat (length msg) in
  msg ++ [0x80] ++ repeat 0 (Z.to_nat ((55 - len) mod 64)) ++ be_bytes 8 (8 * len).

Fixpoint words (bs : list Z) : list Z :=
  match bs with
  | a :: b :: c :: d :: rest =>
      Z.lor (Z.shiftl a 24) (Z.lor (Z.shiftl b 16) (Z.lor (Z.shiftl c 8) d)) :: words rest
  | _ => []
  end.

(** Message schedule: [n] further words appended to the sixteen of the block. *)
Fixpoint schedule (n : nat) (w : list Z) : list Z :=
  match n with
  | O => w
  | S n' =>
      let t := length w in
      let at_ (k : nat) := nth (t - k) w 0 in
      schedule n' (w ++ [add32 (add32 (ssig1 (at_ 2%nat)) (at_ 7%nat))
                               (add32 (ssig0 (at_ 15%nat)) (at_ 16%nat))])
  end.

Definition round (r : regs) (kw : Z * Z) : regs :=
  let t1 := add32 (add32 (add32 (rh r) (bsig1 (re r))) (Ch (re r) (rf r) (rg r)))
                  (add32 (fst kw) (snd kw)) in
  let t2 := add32 (bsig0 (ra r)) (Maj (ra r) (rb r) (rc r)) in
  Regs (add32 t1 t2) (ra r) (rb r) (rc r) (add32 (rd r) t1) (re r) (rf r) (rg r).

Definition compress (h : regs) (block : list Z) : regs :=
  let r := fold_left round (combine K (schedule 48 (words block))) h in
  Regs (add32 (ra h) (ra r)) (add32 (rb h) (rb r)) (add32 (rc h) (rc r)) (add32 (rd h) (rd r))
       (add32 (re h) (re r)) (add32 (rf h) (rf r)) (add32 (rg h) (rg r)) (add32 (rh h) (rh r)).

(** One block of 64 bytes per unit of fuel. *)
Fixpoint blocks (fuel : nat) (h : regs) (bs : list Z) : regs :=
  match fuel with
  | O => h
  | S fuel' =>
      match bs with
      | [] => h
      | _ => blocks fuel' (compress h (firstn 64 bs)) (skipn 64 bs)
      end
  end.

Definition digest_of (r : regs) : list Z :=
  flat_map (be_bytes 4) [ra r; rb r; rc r; rd r; re r; rf r; rg r; rh r].

(** [hashlib.sha256(msg).digest()]. *)
Definition sha256 (msg : list Z) : list Z :=
  let p := pad msg in
  digest_of (blocks (length p) H0 p).

End Sha256.

(** ** [base64.urlsafe_b64encode] *)

Module Base64.

Definition table : string :=
  "ABCDEFGHIJKLMNOPQRSTUVWXYZabcdefghijklmnopqrstuvwxyz0123456789+/".

Definition sextet (i : Z) : Z :=
  match String.get (Z.to_nat i) table with
  | Some c => Z.of_N (N_of_ascii c)
  | None => 65
  end.

Definition pad_byte : Z := 61.

(** [base64.b64encode]: three bytes give four characters, the last group
    is completed with [=]. *)
Fixpoint b64encode (bs : list Z) : list Z :=
  match bs with
  | [] => []
  | [a] =>
      [sextet (Z.shiftr a 2); sextet (Z.shiftl (Z.land a 3) 4); pad_byte; pad_byte]
  | [a; b] =>
      [sextet (Z.shiftr a 2);
       sextet (Z.lor (Z.shiftl (Z.land a 3) 4) (Z.shiftr b 4));
       sextet (Z.shiftl (Z.land b 15) 2); pad_byte]
  | a :: b :: c :: rest =>
      [sextet (Z.shiftr a 2);
       sextet (Z.lor (Z.shiftl (Z.land a 3) 4) (Z.shiftr b 4));
       sextet (Z.lor (Z.shiftl (Z.land b 15) 2) (Z.shiftr c 6));
       sextet (Z.land c 63)] ++ b64encode rest
  end.

(** The translation of [+] to [-] and of [/] to [_]. *)
Definition urlsafe_translate (z : Z) : Z :=
  if z =? 43 then 45 else if z =? 47 then 95 else z.

Definition urlsafe_b64encode (bs : list Z) : list Z :=
  map urlsafe_translate (b64encode bs).

End Base64.

(** ** Decoded provider payloads *)

#[warnings="-register-all"]
Inductive json :=
| JNull
| JNum (n : Z)
| JStr (s : string)
| JArr (items : list json)
| JObj (members : gmap string json).

(** ** Exceptions *)

Inductive exn :=
| ConnectionError (msg : string)
| HTTPError (msg : string)
| JSONDecodeError (msg : string)
| KeyError (key : string)
| IndexError (msg : string)
| TypeError (msg : string)
| AttributeError (msg : string)
| ValueError (msg : string)
| FileNotFoundError (path : string)
| IntegrityError (msg : string).

(** [str(e)], as interpolated by the f-strings of the pipeline. *)
Definition str_exn (e : exn) : string :=
  match e with
  | ConnectionError m | HTTPError m | JSONDecodeError m | IndexError m
  | TypeError m | AttributeError m | ValueError m | IntegrityError m => m
  | KeyError k => "'" +:+ k +:+ "'"
  | FileNotFoundError p => "[Errno 2] No such file or directory: '" +:+ p +:+ "'"
  end.

(** ** The database models of [models.py] *)

Module OAuth10a.
(** Table [OAuth10a_3Legged]. Provider ids are carried as the text of the
    id ([id_str] as the provider issues it); timestamps are microseconds.
    [previous_twitter_account_info] stands for the attribute of that name
    that [update_existing_record] names: [models.py] declares no such
    column, no code assigns it before reading it, and a row read from the
    table does not have it, so the field is carried along and never
    changed. What Python type an id has, and whether a timestamp carries a
    time zone, depends on where the instance comes from; the functions
    whose outcome depends on it take that as an argument ([oauth10a.id_type],
    [Py.awareness]). *)
Record t := Build {
  email : option string;
  twitter_id : string;
  account_name : string;
  date_created : option Z;
  last_token_refresh_date : option Z;
  oauth_verifier : string;
  oauth_token : string;
  oauth_token_secret : string;
  previous_twitter_account_info : option string
}.
End OAuth10a.

Module OAuth20PKCE.
(** Table [OAuth20_PKCE]; [code_challenge], [code_challenge_method] and
    [access_token_expires_in] are never assigned by the flow and stay NULL. *)
Record t := Build {
  email : option string;
  twitter_id : option string;
  account_name : option string;
  date_created : option Z;
  access_token : option string;
  refresh_token : option string;
  state : option string;
  code_verifier : option string;
  last_token_refresh_date : option Z
}.
End OAuth20PKCE.

Module User.
(** Table [All_Users]. *)
Record t := Build {
  email : option string;
  twitter_id : option string;
  account_name : option string;
  password : option string;
  date_created : option Z
}.
End User.

Record tables := Tables {
  oauth10a_rows : list OAuth10a.t;
  pkce_rows : list OAuth20PKCE.t;
  user_rows : list User.t
}.

(** ** The relational store: constraints declared in [models.py] *)

Module Store.

Fixpoint has_dup (l : list string) : bool :=
  match l with
  | [] => false
  | x :: rest => existsb (String.eqb x) rest || has_dup rest
  end.

(** The values of a nullable column that are not NULL; NULLs never collide. *)
Definition non_null {A} (col : A -> option string) (rows : list A) : list string :=
  omap col rows.

Definition has_null {A} (col : A -> option string) (rows : list A) : bool :=
  existsb (fun r => match col r with None => true | Some _ => false end) rows.

(** The first violated constraint of a table, as the message of the
    [IntegrityError] that the flush raises. *)
Definition oauth10a_violation (rows : list OAuth10a.t) : option string :=
  if has_null OAuth10a.email rows
  then Some "NOT NULL constraint failed: OAuth10a_3Legged.email"
  else if has_dup (non_null OAuth10a.email rows)
  then Some "UNIQUE constraint failed: OAuth10a_3Legged.email"
  else if has_dup (map OAuth10a.twitter_id rows)
  then Some "UNIQUE constraint failed: OAuth10a_3Legged.twitter_id"
  else None.

Definition pkce_violation (rows : list OAuth20PKCE.t) : option string :=
  if has_null OAuth20PKCE.email rows
  then Some "NOT NULL constraint failed: OAuth20_PKCE.email"
  else if has_null OAuth20PKCE.code_verifier rows
  then Some "NOT NULL constraint failed: OAuth20_PKCE.code_verifier"
  else if has_dup (non_null OAuth20PKCE.email rows)
  then Some "UNIQUE constraint failed: OAuth20_PKCE.email"
  else if has_dup (non_null OAuth20PKCE.twitter_id rows)
  then Some "UNIQUE constraint failed: OAuth20_PKCE.twitter_id"
  else None.

Definition user_violation (rows : list User.t) : option string :=
  if has_null User.email rows
  then Some "NOT NULL constraint failed: All_Users.email"
  else if has_null User.account_name rows
  then Some "NOT NULL constraint failed: All_Users.account_name"
  else if has_null User.password rows
  then Some "NOT NULL constraint failed: All_Users.password"
  else if has_dup (non_null User.email rows)
  then Some "UNIQUE constraint failed: All_Users.email"
  else if has_dup (non_null User.twitter_id rows)
  then Some "UNIQUE constraint failed: All_Users.twitter_id"
  else if has_dup (non_null User.account_name rows)
  then Some "UNIQUE constraint failed: All_Users.account_name"
  else None.

Definition violation (t : tables) : option string :=
  match oauth10a_violation (oauth10a_rows t) with
  | Some m => Some m
  | None =>
      match pkce_violation (pkce_rows t) with
      | Some m => Some m
      | None => user_violation (user_rows t)
      end
  end.

(** [query.filter_by(...).first()]: the first matching row and its position. *)
Fixpoint first_from {A} (i : nat) (p : A -> bool) (rows : list A) : option (nat * A) :=
  match rows with
  | [] => None
  | r :: rest => if p r then Some (i, r) else first_from (S i) p rest
  end.

Definition first {A} (p : A -> bool) (rows : list A) : option (nat * A) :=
  first_from 0 p rows.

(** Equality of a column value with a Python value that may be [None]; a
    comparison with NULL selects no row. *)
Definition col_eq (a b : option string) : bool :=
  match a, b with
  | Some x, Some y => String.eqb x y
  | _, _ => false
  end.

End Store.

(** ** The write-only secret of [OAuth10a] *)

Module Credential.
Section Werkzeug.
(** [werkzeug.security.generate_password_hash], as a function of the salt
    it draws and of the password, and [check_password_hash]. *)
Variable generate_password_hash : string -> string -> string.
Variable check_password_hash : string -> string -> bool.

(** Reading [self.oauth_token_secret_hash]. *)
Definition oauth_token_secret_hash (self : OAuth10a.t) : exn + string :=
  inl (AttributeError "oauth_token_secret is not a readable attribute").

(** [self.oauth_token_secret_hash = oauth_token_secret]. *)
Definition set_oauth_token_secret_hash (salt : string) (self : OAuth10a.t)
           (oauth_token_secret : string) : OAuth10a.t :=
  OAuth10a.Build (OAuth10a.email self) (OAuth10a.twitter_id self) (OAuth10a.account_name self)
                 (OAuth10a.date_created self) (OAuth10a.last_token_refresh_date self)
                 (OAuth10a.oauth_verifier self) (OAuth10a.oauth_token self)
                 (generate_password_hash salt oauth_token_secret)
                 (OAuth10a.previous_twitter_account_info self).

(** [self.check_token_secret(oauth_token_secret)]. *)
Definition check_token_secret (self : OAuth10a.t) (oauth_token_secret : string) : bool :=
  check_password_hash (OAuth10a.oauth_token_secret self) oauth_token_secret.

End Werkzeug.
End Credential.

(** ** The environment of a request *)

(** How an outbound call is authenticated. *)
Inductive auth :=
| OAuth1 (client_key client_secret : string)
         (resource_owner_key resource_owner_secret verifier : option string)
| BasicAuth (credentials : string)
| BearerAuth (access_token : string).

Record http_call := HttpCall {
  method : string;
  url : string;
  authz : auth;
  form : list (string * string)
}.

Record http_reply := HttpReply {
  status_code : Z;
  reason : string;
  text : string
}.

(** The values read from [instance/config.py] and [app.config]. *)
Record config := Config {
  API_AKA_CONSUMER_KEY : string;
  API_AKA_CONSUMER_KEY_SECRET : string;
  APP_CONSUMER_KEY : string;
  APP_CONSUMER_SECRET : string;
  ACCESS_TOKEN_URL : string;
  CLIENT_ID_AKA_CONSUMER_KEY : string;
  CLIENT_ID_AKA_CONSUMER_KEY_SECRET : string;
  REDIRECT_URI : string
}.

(** Everything a request reads but does not own: the remote API (its answer
    to the n-th outbound call, a reply or a transport exception), the
    system entropy, the clock, the instance folder, the configuration and
    the library codecs. *)
Record env := Env {
  remote : nat -> http_call -> exn + http_reply;
  entropy : nat -> nat;
  clock : Z;
  read_file : string -> option string;
  instance_path : string;
  cfg : config;
  json_loads : string -> option json;
  json_dumps : json -> string;
  parse_qsl : string -> gmap string string;
  strftime : Z -> string
}.

(** What a request can change: the outbound call log, the Flask session,
    the committed tables, the unit of work of the SQLAlchemy session (the
    tables as they would be after a flush, [None] when nothing is pending),
    the flashed messages, the values yielded so far by a generator and the
    number of entropy draws. *)
Record world := World {
  http_log : list http_call;
  session : gmap string string;
  committed : tables;
  pending : option tables;
  flashes : list (string * string);
  yielded : list string;
  drawn : nat
}.

(** What a view returns. *)
Inductive response :=
| RenderTemplate (template : string) (context : list (string * json))
| Redirect (endpoint : string).

(** ** State and exceptions *)

Inductive result (A : Type) :=
| Ok (a : A)
| Raise (e : exn).
Arguments Ok {A} a.
Arguments Raise {A} e.

Definition M (A : Type) : Type := world -> result A * world.

Definition ret {A} (a : A) : M A := fun w => (Ok a, w).

Definition raise {A} (e : exn) : M A := fun w => (Raise e, w).

Definition bind {A B} (c : M A) (k : A -> M B) : M B :=
  fun w =>
    match c w with
    | (Ok a, w') => k a w'
    | (Raise e, w') => (Raise e, w')
    end.

(** [try: body except Exception as e: handler]. *)
Definition try_except {A} (body : M A) (handler : exn -> M A) : M A :=
  fun w =>
    match body w with
    | (Ok a, w') => (Ok a, w')
    | (Raise e, w') => handler e w'
    end.

Notation "'do' x <- c ; k" := (bind c (fun x => k))
  (at level 10, x name, c at level 100, k at level 200,
   format "'[v' 'do'  x  <-  c ; '/' k ']'").
Notation "'run' c ; k" := (bind c (fun _ => k))
  (at level 10, c at level 100, k at level 200,
   format "'[v' 'run'  c ; '/' k ']'").

Module Eff.
Section WithEnv.
Variable E : env.

(** One outbound HTTP call: logged, then answered by the remote side. *)
Definition http_request (c : http_call) : M http_reply :=
  fun w =>
    let w' := World (http_log w ++ [c]) (session w) (committed w) (pending w)
                    (flashes w) (yielded w) (drawn w) in
    match remote E (length (http_log w)) c with
    | inl e => (Raise e, w')
    | inr r => (Ok r, w')
    end.

(** [response.raise_for_status()] of requests: 4xx and 5xx raise. *)
Definition raise_for_status (c : http_call) (r : http_reply) : M unit :=
  if (400 <=? status_code r) && (status_code r <? 500)
  then raise (HTTPError (Py.str_of_Z (status_code r) +:+ " Client Error: "
                          +:+ reason r +:+ " for url: " +:+ url c))
  else if (500 <=? status_code r) && (status_code r <? 600)
  then raise (HTTPError (Py.str_of_Z (status_code r) +:+ " Server Error: "
                          +:+ reason r +:+ " for url: " +:+ url c))
  else ret tt.

(** [response.json()]. *)
Definition reply_json (r : http_reply) : M json :=
  match json_loads E (text r) with
  | Some j => ret j
  | None => raise (JSONDecodeError "Expecting value: line 1 column 1 (char 0)")
  end.

Definition session_get (k : string) : M (option string) :=
  fun w => (Ok (session w !! k), w).

Definition session_set (k v : string) : M unit :=
  fun w => (Ok tt, World (http_log w) (<[k := v]> (session w)) (committed w)
                         (pending w) (flashes w) (yielded w) (drawn w)).

Definition session_del (k : string) : M unit :=
  fun w => (Ok tt, World (http_log w) (delete k (session w)) (committed w)
                         (pending w) (flashes w) (yielded w) (drawn w)).

Definition flash (message category : string) : M unit :=
  fun w => (Ok tt, World (http_log w) (session w) (committed w) (pending w)
                         (flashes w ++ [(message, category)]) (yielded w) (drawn w)).

(** [yield s], for a generator driven to exhaustion. *)
Definition yield_ (s : string) : M unit :=
  fun w => (Ok tt, World (http_log w) (session w) (committed w) (pending w)
                         (flashes w) (yielded w ++ [s]) (drawn w)).

(** A uniform draw below [n] from the system entropy. *)
Definition randbelow (n : nat) : M nat :=
  fun w => (Ok (entropy E (drawn w) mod n)%nat,
            World (http_log w) (session w) (committed w) (pending w)
                  (flashes w) (yielded w) (S (drawn w))).

(** [secrets.choice(seq)]. *)
Definition choice (seq : string) : M ascii :=
  match seq with
  | EmptyString => raise (IndexError "Cannot choose from an empty sequence")
  | _ =>
      do i <- randbelow (String.length seq);
      match String.get i seq with
      | Some c => ret c
      | None => raise (IndexError "string index out of range")
      end
  end.

(** [secrets.token_hex(nbytes)]: two hexadecimal digits per random byte. *)
Fixpoint token_hex (nbytes : nat) : M string :=
  match nbytes with
  | O => ret ""
  | S n =>
      do b <- randbelow 256;
      do rest <- token_hex n;
      let digit (d : nat) :=
        match String.get d "0123456789abcdef" with
        | Some c => c
        | None => "0"%char
        end in
      ret (String (digit (b / 16)%nat) (String (digit (b mod 16)%nat) rest))
  end.

(** [db.session.rollback()]: pending changes are discarded. *)
Definition rollback : M unit :=
  fun w => (Ok tt, World (http_log w) (session w) (committed w) None
                         (flashes w) (yielded w) (drawn w)).

(** The tables a query sees. Pending changes are flushed first, and the
    flush raises when they violate a constraint. *)
Definition query : M tables :=
  fun w =>
    match pending w with
    | None => (Ok (committed w), w)
    | Some t =>
        match Store.violation t with
        | Some m => (Raise (IntegrityError m), w)
        | None => (Ok t, w)
        end
    end.

(** Changes made through the ORM ([db.session.add], attribute assignment
    on a loaded row) stay pending until the next flush. *)
Definition stage (t : tables) : M unit :=
  fun w => (Ok tt, World (http_log w) (session w) (committed w) (Some t)
                         (flashes w) (yielded w) (drawn w)).

(** [db.session.commit()]: all pending changes become durable, or none
    does and [IntegrityError] is raised. *)
Definition commit : M unit :=
  fun w =>
    match pending w with
    | None => (Ok tt, w)
    | Some t =>
        match Store.violation t with
        | Some m => (Raise (IntegrityError m), w)
        | None => (Ok tt, World (http_log w) (session w) t None
                                (flashes w) (yielded w) (drawn w))
        end
    end.

End WithEnv.
End Eff.

(** ** [oauth10areport.py]: the mute / block / report pipeline *)

Module Report.
Section WithEnv.
Variable E : env.

Definition mute_url (impersonator : string) : string :=
  "https://api.twitter.com/1.1/mutes/users/create.json?screen_name=" +:+ impersonator.
Definition block_url (impersonator : string) : string :=
  "https://api.twitter.com/1.1/blocks/create.json?screen_name=" +:+ impersonator.
Definition report_url (impersonator : string) : string :=
  "https://api.twitter.com/1.1/users/report_spam.json?screen_name=" +:+ impersonator.

(** [oauth.post(url)] on an [OAuth1Session]. *)
Definition post (oauth : auth) (u : string) : http_call := HttpCall "POST" u oauth [].

(** The rows behind the [oauth10a] relationship of a user. *)
Definition related_oauth10a (email : option string) : M (list OAuth10a.t) :=
  do t <- Eff.query;
  ret (List.filter (fun r => Store.col_eq (OAuth10a.email r) email) (oauth10a_rows t)).

(** The token pair of the first related credential, [None] without one. *)
Definition token_pair (creds : list OAuth10a.t) : option string * option string :=
  match creds with
  | oauth10a :: _ =>
      (Some (OAuth10a.oauth_token oauth10a), Some (OAuth10a.oauth_token_secret oauth10a))
  | [] => (None, None)
  end.

(** [file.read().split("=")], then [contents[1].split(",")]. *)
Definition read_impersonators (path : string) : M (list string) :=
  match read_file E path with
  | None => raise (FileNotFoundError path)
  | Some content =>
      match Py.split "=" content with
      | _ :: second :: _ => ret (Py.split "," second)
      | _ => raise (IndexError "list index out of range")
      end
  end.

(** The [for] loop of the generator [oauth10areportimpersonators]. *)
Fixpoint oauth10areportimpersonators_loop (oauth : auth) (impersonators_list : list string)
         (response_list : list json) : M (list json) :=
  match impersonators_list with
  | [] => ret response_list
  | impersonator :: rest =>
      run try_except
            (do response <- Eff.http_request E (post oauth (mute_url impersonator));
             run Eff.raise_for_status (post oauth (mute_url impersonator)) response;
             Eff.yield_ ("Muted user with screen name: " +:+ impersonator))
            (fun e => Eff.yield_ ("Error muting user " +:+ impersonator +:+ ": " +:+ str_exn e));
      run try_except
            (do response <- Eff.http_request E (post oauth (block_url impersonator));
             run Eff.raise_for_status (post oauth (block_url impersonator)) response;
             Eff.yield_ ("Blocked user with screen name: " +:+ impersonator))
            (fun e => Eff.yield_ ("Error blocking user " +:+ impersonator +:+ ": " +:+ str_exn e));
      do response <- Eff.http_request E (post oauth (report_url impersonator));
      run (if negb (status_code response =? 200)
           then Eff.yield_ ("Request returned an error: " +:+ Py.str_of_Z (status_code response)
                            +:+ " " +:+ text response)
           else Eff.yield_ ("Reported user with screen name: " +:+ impersonator));
      do json_response <- Eff.reply_json E response;
      oauth10areportimpersonators_loop oauth rest (response_list ++ [json_response])
  end.

(** [oauth10areportimpersonators(impersonated_channel, oauth_session)],
    a generator driven to exhaustion: the yielded strings accumulate in
    [yielded], the result is the value it returns. [current_user] is the
    e-mail of the logged-in user, [None] for an anonymous one. *)
Definition oauth10areportimpersonators (current_user : option string)
           (impersonated_channel : string) : M (list json) :=
  do email <- match current_user with
              | Some e => ret (Some e)
              | None => raise (AttributeError "'AnonymousUserMixin' object has no attribute 'email'")
              end;
  do t <- Eff.query;
  do user <- match Store.first (fun u => Store.col_eq (User.email u) email) (user_rows t) with
             | Some (_, u) => ret u
             | None => raise (AttributeError "'NoneType' object has no attribute 'oauth10a'")
             end;
  do creds <- related_oauth10a (User.email user);
  let oauth := OAuth1 (API_AKA_CONSUMER_KEY (cfg E)) (API_AKA_CONSUMER_KEY_SECRET (cfg E))
                      (fst (token_pair creds)) (snd (token_pair creds)) None in
  do impersonators_list <-
    read_impersonators (instance_path E +:+ "\Active-" +:+ impersonated_channel +:+ ".txt");
  oauth10areportimpersonators_loop oauth impersonators_list [].

(** The [for] loop of [impersonatingusers]: messages and decoded bodies
    are appended to the same [response_list]. *)
Fixpoint impersonatingusers_loop (oauth : auth) (impersonators_list : list string)
         (response_list : list json) : M (list json) :=
  match impersonators_list with
  | [] => ret response_list
  | impersonator :: rest =>
      do response_list <-
        try_except
          (do response <- Eff.http_request E (post oauth (mute_url impersonator));
           run Eff.raise_for_status (post oauth (mute_url impersonator)) response;
           ret (response_list ++ [JStr ("Muted user with screen name: " +:+ impersonator)])%list)
          (fun e => ret (response_list ++
               [JStr ("Error muting user " +:+ impersonator +:+ ": " +:+ str_exn e)])%list);
      do response <- Eff.http_request E (post oauth (report_url impersonator));
      let response_list :=
        if negb (status_code response =? 200)
        then (response_list ++ [JStr ("Request returned an error: "
               +:+ Py.str_of_Z (status_code response) +:+ ", " +:+ text response)])%list
        else (response_list ++ [JStr ("Reported user with screen name: " +:+ impersonator)])%list in
      do json_response <- Eff.reply_json E response;
      impersonatingusers_loop oauth rest (response_list ++ [json_response])
  end.

(** [impersonatingusers(impersonated_channel, current_user, oauth_session)]. *)
Definition impersonatingusers (impersonated_channel : string) (current_user : User.t)
  : M (list json) :=
  do creds <- related_oauth10a (User.email current_user);
  let oauth := OAuth1 (APP_CONSUMER_KEY (cfg E)) (APP_CONSUMER_SECRET (cfg E))
                      (fst (token_pair creds)) (snd (token_pair creds)) None in
  do impersonators_list <-
    read_impersonators (instance_path E +:+ "Active-" +:+ impersonated_channel +:+ ".txt");
  impersonatingusers_loop oauth impersonators_list [].

End WithEnv.
End Report.

(** ** Reading decoded payloads *)

Module Json.

(** [j[k]]. *)
Definition subscript (j : json) (k : string) : M json :=
  match j with
  | JObj members =>
      match members !! k with
      | Some v => ret v
      | None => raise (KeyError k)
      end
  | _ => raise (TypeError "string indices must be integers")
  end.

(** [j.get(k, default)]. *)
Definition get (j : json) (k : string) (default : json) : M json :=
  match j with
  | JObj members => ret (match members !! k with Some v => v | None => default end)
  | _ => raise (AttributeError "object has no attribute 'get'")
  end.

(** The provider issues tokens, ids and names as JSON strings, and the
    columns that receive them are string-typed in this model. *)
Definition as_text (j : json) : M string :=
  match j with
  | JStr s => ret s
  | _ => raise (TypeError "expected a JSON string")
  end.

Definition as_optional_text (j : json) : M (option string) :=
  match j with
  | JStr s => ret (Some s)
  | JNull => ret None
  | _ => raise (TypeError "expected a JSON string or null")
  end.

End Json.

(** ** The PKCE verifier and challenge, as computed in both flow modules *)

Module Pkce.
Section WithEnv.
Variable E : env.

Definition alphabet : string :=
  "ABCDEFGHIJKLMNOPQRSTUVWXYZabcdefghijklmnopqrstuvwxyz0123456789-._~".

(** [secrets.choice(alphabet) for _ in range(n)]. *)
Fixpoint choices (n : nat) : M (list ascii) :=
  match n with
  | O => ret []
  | S n' =>
      do c <- Eff.choice E alphabet;
      do rest <- choices n';
      ret (c :: rest)
  end.

(** [''.join(secrets.choice(...) for _ in range(128))]. *)
Definition code_verifier : M string :=
  do cs <- choices 128;
  ret (Py.join_chars cs).

(** [base64.urlsafe_b64encode(hashlib.sha256(v.encode()).digest()).decode().rstrip('=')]. *)
Definition code_challenge (verifier : string) : string :=
  Py.rstrip "=" (Py.decode (Base64.urlsafe_b64encode (Sha256.sha256 (Py.encode verifier)))).

Definition authorization_url (state challenge : string) : string :=
  "https://twitter.com/i/oauth2/authorize"
  +:+ "?response_type=code"
  +:+ "&client_id=" +:+ CLIENT_ID_AKA_CONSUMER_KEY (cfg E)
  +:+ "&redirect_uri=" +:+ REDIRECT_URI (cfg E)
  +:+ "&scope=tweet.read users.read mute.read mute.write block.read block.write offline.access"
  +:+ "&state=" +:+ state
  +:+ "&code_challenge=" +:+ challenge
  +:+ "&code_challenge_method=S256".

End WithEnv.
End Pkce.

(** ** [oauth10a.py]: the three-legged flow and its reconciliation *)

Module oauth10a.
Section WithEnv.
Variable E : env.

(** [timedelta(days=d)], in microseconds like every timestamp here. *)
Definition timedelta_days (d : Z) : Z := d * 86400 * 1000000.

Definition refresh_oauth_token (oauth_instance : OAuth10a.t) : OAuth10a.t :=
  oauth_instance.

(** The function [wrapped] built by [needs_token_refresh()]; [refresh] is
    the module-level name [refresh_oauth_token] that it calls, and
    [oauth_instance] is [kwargs.get('oauth_instance')]. [tz] says whether
    the [last_token_refresh_date] of the instance carries a time zone:
    [Py.Naive] for an instance read from the database, [Py.Aware] for one
    whose timestamp was assigned from [datetime.now(timezone.utc)] and not
    yet reloaded. [thirty_days_ago] is aware. *)
Definition wrapped {A} (refresh : OAuth10a.t -> OAuth10a.t)
           (view_func : option OAuth10a.t -> M A)
           (tz : Py.awareness) (oauth_instance : option OAuth10a.t) : M A :=
  match oauth_instance with
  | Some inst =>
      match OAuth10a.last_token_refresh_date inst with
      | Some last =>
          let thirty_days_ago := clock E - timedelta_days 30 in
          match Py.datetime_lt tz last Py.Aware thirty_days_ago with
          | inl msg => raise (TypeError msg)
          | inr true => view_func (Some (refresh inst))
          | inr false => view_func oauth_instance
          end
      | None => view_func oauth_instance
      end
  | None => view_func oauth_instance
  end.

Definition needs_token_refresh {A} (view_func : option OAuth10a.t -> M A)
  : Py.awareness -> option OAuth10a.t -> M A :=
  wrapped refresh_oauth_token view_func.

Definition render_error (error_message : string) : response :=
  RenderTemplate "error.html" [("error_message", JStr error_message)].

(** [oauth.Token(key, secret)]. *)
Definition Token (key secret : option string) : M (string * string) :=
  match key, secret with
  | Some k, Some s => ret (k, s)
  | _, _ => raise (ValueError "Key and secret must be set.")
  end.

(** [except IntegrityError as e]. *)
Definition except_integrity {A} (body : M A) (handler : string -> M A) : M A :=
  try_except body (fun e => match e with
                            | IntegrityError m => handler m
                            | _ => raise e
                            end).

Definition set_oauth10a_rows (t : tables) (rows : list OAuth10a.t) : tables :=
  Tables rows (pkce_rows t) (user_rows t).

Definition set_user_rows (t : tables) (rows : list User.t) : tables :=
  Tables (oauth10a_rows t) (pkce_rows t) rows.

(** The credential upsert of the callback, keyed by e-mail. *)
Definition upsert_oauth10a (email : option string) (user_id screen_name : string)
           (real_oauth_token real_oauth_token_secret oauth_verifier : string) : M unit :=
  do t <- Eff.query;
  match Store.first (fun r => Store.col_eq (OAuth10a.email r) email) (oauth10a_rows t) with
  | Some (i, existing_oauth_record) =>
      Eff.stage (set_oauth10a_rows t (<[i :=
        OAuth10a.Build (OAuth10a.email existing_oauth_record) user_id screen_name
          (OAuth10a.date_created existing_oauth_record)
          (OAuth10a.last_token_refresh_date existing_oauth_record)
          oauth_verifier real_oauth_token real_oauth_token_secret
          (OAuth10a.previous_twitter_account_info existing_oauth_record)]>
        (oauth10a_rows t)))
  | None =>
      Eff.stage (set_oauth10a_rows t (oauth10a_rows t ++
        [OAuth10a.Build email user_id screen_name (Some (clock E)) (Some (clock E))
           oauth_verifier real_oauth_token real_oauth_token_secret None]))
  end.

(** The user upsert of the callback. The query flushes the pending
    credential change first. *)
Definition upsert_user (email : option string) (user_id screen_name : string) : M unit :=
  do t <- Eff.query;
  match Store.first (fun u => Store.col_eq (User.email u) email) (user_rows t) with
  | None =>
      Eff.stage (set_user_rows t (user_rows t ++
        [User.Build email (Some user_id) (Some screen_name) None (Some (clock E))]))
  | Some (i, existing_user_record) =>
      Eff.stage (set_user_rows t (<[i :=
        User.Build (User.email existing_user_record) (Some user_id) (Some screen_name)
          (User.password existing_user_record) (User.date_created existing_user_record)]>
        (user_rows t)))
  end.

(** The view [oauth10acallback]. [current_user] is the e-mail of the
    logged-in user ([None] when not authenticated) and [args] is
    [request.args]. The [user] entry of every template context is left
    out. *)
Definition oauth10acallback (current_user : option string) (args : gmap string string)
  : M response :=
  let email := current_user in
  let oauth_token := args !! "oauth_token" in
  let oauth_verifier := args !! "oauth_verifier" in
  let oauth_denied := args !! "denied" in
  match Py.truthy_value oauth_denied with
  | Some denied =>
      do stored <- Eff.session_get denied;
      run match stored with
          | Some _ => Eff.session_del denied
          | None => ret tt
          end;
      ret (render_error "OAuth request was denied")
  | None =>
  match Py.truthy_value oauth_token, Py.truthy_value oauth_verifier with
  | Some oauth_token, Some oauth_verifier =>
      do stored <- Eff.session_get "oauth_token_secret";
      match Py.truthy_value stored with
      | None => ret (render_error "Missing OAuth token secret")
      | Some oauth_token_secret =>
          let consumer_key := API_AKA_CONSUMER_KEY (cfg E) in
          let consumer_secret := API_AKA_CONSUMER_KEY_SECRET (cfg E) in
          do resp <- Eff.http_request E
               (HttpCall "POST" (ACCESS_TOKEN_URL (cfg E))
                  (OAuth1 consumer_key consumer_secret (Some oauth_token)
                          (Some oauth_token_secret) (Some oauth_verifier)) []);
          if negb (status_code resp =? 200)
          then ret (render_error "Error obtaining access token")
          else
            let access_token_data := parse_qsl E (text resp) in
            do token <- Token (access_token_data !! "oauth_token")
                              (access_token_data !! "oauth_token_secret");
            let real_oauth_token := fst token in
            let real_oauth_token_secret := snd token in
            do resp <- Eff.http_request E
                 (HttpCall "GET" "https://api.twitter.com/1.1/account/verify_credentials.json"
                    (OAuth1 consumer_key consumer_secret (Some real_oauth_token)
                            (Some real_oauth_token_secret) None) []);
            if negb (status_code resp =? 200)
            then ret (render_error "Error fetching user data")
            else
              do response_data <- Eff.reply_json E resp;
              do screen_name_json <- Json.get response_data "screen_name" (JStr "Unknown");
              do screen_name <- Json.as_text screen_name_json;
              do user_id_json <- Json.get response_data "id_str" (JStr "Unknown");
              do user_id <- Json.as_text user_id_json;
              run upsert_oauth10a email user_id screen_name
                    real_oauth_token real_oauth_token_secret oauth_verifier;
              run upsert_user email user_id screen_name;
              do failure <-
                except_integrity
                  (run Eff.commit; ret None)
                  (fun _ =>
                     run Eff.rollback;
                     ret (Some (render_error "Database error")));
              match failure with
              | Some page => ret page
              | None =>
                  do code_verifier <- Pkce.code_verifier E;
                  let code_challenge := Pkce.code_challenge code_verifier in
                  do state <- Eff.token_hex E 128;
                  run Eff.session_set "code_verifier" code_verifier;
                  run Eff.session_set "state" state;
                  let authorization_url := Pkce.authorization_url E state code_challenge in
                  do name <- Json.get response_data "name" (JStr "Unknown");
                  do friends_count <- Json.get response_data "friends_count" (JStr "Unavailable");
                  do statuses_count <- Json.get response_data "statuses_count" (JStr "Unavailable");
                  do followers_count <- Json.get response_data "followers_count" (JStr "Unavailable");
                  ret (RenderTemplate "oauth10acallback.html"
                         [("screen_name", JStr screen_name); ("user_id", JStr user_id);
                          ("name", name); ("friends_count", friends_count);
                          ("statuses_count", statuses_count);
                          ("followers_count", followers_count);
                          ("email", match email with Some e => JStr e | None => JNull end);
                          ("authorization_url", JStr authorization_url)])
              end
      end
  | _, _ => ret (render_error "Callback parameters missing")
  end
  end.

(** The filter of [update_existing_entry]: same token secret and same
    token as the incoming credential. *)
Definition same_token_pair (set_to_database r : OAuth10a.t) : bool :=
  String.eqb (OAuth10a.oauth_token_secret r) (OAuth10a.oauth_token_secret set_to_database)
  && String.eqb (OAuth10a.oauth_token r) (OAuth10a.oauth_token set_to_database).

(** The row after the assignments of [update_existing_entry]. *)
Definition refreshed_entry (existing_entry set_to_database : OAuth10a.t) : OAuth10a.t :=
  OAuth10a.Build
    (OAuth10a.email existing_entry)
    (OAuth10a.twitter_id existing_entry)
    (OAuth10a.account_name set_to_database)
    (OAuth10a.date_created set_to_database)
    (Some (clock E))
    (OAuth10a.oauth_verifier set_to_database)
    (OAuth10a.oauth_token set_to_database)
    (OAuth10a.oauth_token_secret set_to_database)
    (OAuth10a.previous_twitter_account_info existing_entry).

(** [update_existing_entry(set_to_database)]: the refresh policy. *)
Definition update_existing_entry (set_to_database : OAuth10a.t) : M unit :=
  do t <- Eff.query;
  match Store.first (same_token_pair set_to_database) (oauth10a_rows t) with
  | Some (i, existing_entry) =>
      run Eff.stage (set_oauth10a_rows t
            (<[i := refreshed_entry existing_entry set_to_database]> (oauth10a_rows t)));
      Eff.commit
  | None => ret tt
  end.

(** The Python type of the provider id that the caller assigned to
    [set_to_database.twitter_id]: [IdStr] for the [str] that the callback
    reads under [id_str], [IdInt] for an [int], whose text is then its
    decimal numeral. *)
Inductive id_type := IdStr | IdInt.

Definition is_digit (c : ascii) : bool :=
  ((48 <=? nat_of_ascii c) && (nat_of_ascii c <=? 57))%nat.

(** What reading the [db.Integer] column [twitter_id] gives for a stored
    id: a decimal numeral, with or without sign, is kept by SQLite as an
    INTEGER and the row holds an [int]; text that is no numeral (the
    default ['Unknown'] of the callback) is kept as it is and the row
    holds a [str]. *)
Definition loads_as_int (twitter_id : string) : bool :=
  match list_ascii_of_string twitter_id with
  | [] => false
  | c :: rest =>
      if Ascii.eqb c "-" || Ascii.eqb c "+"
      then match rest with [] => false | _ => forallb is_digit rest end
      else forallb is_digit (c :: rest)
  end.

(** The value of the numeral. *)
Definition int_of_numeral (twitter_id : string) : Z :=
  let value := fold_left (fun acc c => 10 * acc + (Z.of_nat (nat_of_ascii c) - 48)) in
  match list_ascii_of_string twitter_id with
  | [] => 0
  | c :: rest =>
      if Ascii.eqb c "-" then - value rest 0
      else if Ascii.eqb c "+" then value rest 0
      else value (c :: rest) 0
  end.

(** [existing_record.twitter_id] as a JSON value. *)
Definition loaded_id (twitter_id : string) : json :=
  if loads_as_int twitter_id then JNum (int_of_numeral twitter_id) else JStr twitter_id.

(** [existing_record.twitter_id != set_to_database.twitter_id], the left
    side read from the table and the right side of type [ty]: an [int] and
    a [str] are never equal, whatever their digits. *)
Definition id_ne (existing : string) (ty : id_type) (assigned : string) : bool :=
  match loads_as_int existing, ty with
  | true, IdInt | false, IdStr => negb (String.eqb existing assigned)
  | true, IdStr | false, IdInt => true
  end.

(** The dictionary [previous_info] of [update_existing_record]. *)
Definition previous_info (existing_record : OAuth10a.t) : M json :=
  match OAuth10a.date_created existing_record with
  | None => raise (AttributeError "'NoneType' object has no attribute 'strftime'")
  | Some created =>
      ret (JObj (list_to_map
             [("twitter_id", loaded_id (OAuth10a.twitter_id existing_record));
              ("account_name", JStr (OAuth10a.account_name existing_record));
              ("oauth_token", JStr (OAuth10a.oauth_token existing_record));
              ("oauth_token_secret", JStr (OAuth10a.oauth_token_secret existing_record));
              ("oauth_verifier", JStr (OAuth10a.oauth_verifier existing_record));
              ("date_created", JStr (strftime E created))]))
  end.

(** The archive block of [update_existing_record]: it builds
    [previous_info] and then reads
    [existing_record.previous_twitter_account_info], an attribute that the
    model class does not have. *)
Definition archive (existing_record : OAuth10a.t) : M unit :=
  do info <- previous_info existing_record;
  raise (AttributeError "'OAuth10a' object has no attribute 'previous_twitter_account_info'").

(** The row after the assignments of [update_existing_record]. *)
Definition overwritten_record (existing_record set_to_database : OAuth10a.t) : OAuth10a.t :=
  OAuth10a.Build
    (OAuth10a.email set_to_database)
    (OAuth10a.twitter_id set_to_database)
    (OAuth10a.account_name set_to_database)
    (OAuth10a.date_created existing_record)
    (Some (clock E))
    (OAuth10a.oauth_verifier set_to_database)
    (OAuth10a.oauth_token set_to_database)
    (OAuth10a.oauth_token_secret set_to_database)
    (OAuth10a.previous_twitter_account_info existing_record).

(** [update_existing_record(set_to_database)]: the archive policy. [ty]
    is the Python type of [set_to_database.twitter_id]. *)
Definition update_existing_record (ty : id_type) (set_to_database : OAuth10a.t) : M unit :=
  do t <- Eff.query;
  match Store.first
          (fun r => String.eqb (OAuth10a.twitter_id r) (OAuth10a.twitter_id set_to_database))
          (oauth10a_rows t) with
  | Some (i, existing_record) =>
      run (if id_ne (OAuth10a.twitter_id existing_record) ty
                    (OAuth10a.twitter_id set_to_database)
           then archive existing_record
           else ret tt);
      run Eff.stage (set_oauth10a_rows t
            (<[i := overwritten_record existing_record set_to_database]>
               (oauth10a_rows t)));
      Eff.commit
  | None => ret tt
  end.

(** [handle_integrity_error(e, set_to_database)]; the result is [None]
    when the function falls through without a [return]. [set_to_database]
    is the new instance whose insert failed: the rollback takes it out of
    the session and leaves its attributes as they were assigned. [ty] is
    the Python type of [set_to_database.twitter_id]. *)
Definition handle_integrity_error (e : exn) (ty : id_type) (set_to_database : OAuth10a.t)
  : M (option response) :=
  run Eff.rollback;
  let error_message := str_exn e in
  if Py.contains "UNIQUE constraint failed: oauth10a.oauth_token_secret" error_message
  then
    run update_existing_entry set_to_database;
    ret None
  else if Py.contains "UNIQUE constraint failed: oauth10a.twitter_id" error_message
  then
    run update_existing_record ty set_to_database;
    ret None
  else ret (Some (render_error error_message)).

End WithEnv.
End oauth10a.

(** ** [oauth20pkce.py]: the authorization-code flow with PKCE *)

Module oauth20pkce.
Section WithEnv.
Variable E : env.

(** The view [oauth20pkce_index]. *)
Definition oauth20pkce_index : M response :=
  do code_verifier <- Pkce.code_verifier E;
  let code_challenge := Pkce.code_challenge code_verifier in
  do state <- Eff.token_hex E 128;
  run Eff.session_set "code_verifier" code_verifier;
  run Eff.session_set "state" state;
  let authorization_url := Pkce.authorization_url E state code_challenge in
  ret (RenderTemplate "oauth20pkceindex.html" [("authorization_url", JStr authorization_url)]).

Definition set_pkce_rows (t : tables) (rows : list OAuth20PKCE.t) : tables :=
  Tables (oauth10a_rows t) rows (user_rows t).

(** The form body of the token request; requests drops the entries whose
    value is [None]. *)
Definition token_request_form (code : option string) (code_verifier : string)
  : list (string * string) :=
  [("client_id", CLIENT_ID_AKA_CONSUMER_KEY (cfg E));
   ("client_secret", CLIENT_ID_AKA_CONSUMER_KEY_SECRET (cfg E));
   ("grant_type", "authorization_code")]
  ++ match code with Some c => [("code", c)] | None => [] end
  ++ [("redirect_uri", REDIRECT_URI (cfg E)); ("code_verifier", code_verifier)].

(** [token_data.get('refresh_token', default)]. *)
Definition get_refresh_token (token_data : json) (default : option string)
  : M (option string) :=
  match token_data with
  | JObj members =>
      match members !! "refresh_token" with
      | Some v => Json.as_optional_text v
      | None => ret default
      end
  | _ => raise (AttributeError "object has no attribute 'get'")
  end.

(** The token request: HTTP Basic credentials and a form body. *)
Definition token_call (code : option string) (code_verifier : string) : http_call :=
  let credentials :=
    Py.decode (Base64.urlsafe_b64encode (Py.encode
      (CLIENT_ID_AKA_CONSUMER_KEY (cfg E) +:+ ":"
       +:+ CLIENT_ID_AKA_CONSUMER_KEY_SECRET (cfg E)))) in
  HttpCall "POST" "https://api.twitter.com/2/oauth2/token"
           (BasicAuth credentials) (token_request_form code code_verifier).

(** The identity request, with the access token as Bearer credential. *)
Definition identity_call (access_token : string) : http_call :=
  HttpCall "GET" "https://api.twitter.com/2/users/me" (BearerAuth access_token) [].

Definition success_page (email : option string) (user_data : json) : response :=
  RenderTemplate "oauth20pkcecallback.html"
    [("user_data", user_data);
     ("email", match email with Some e => JStr e | None => JNull end)].

(** The end of [oauth20pkcecallback], from the lookup of [existing_user]
    on: the upsert keyed by e-mail. [data] is [user_data['data']]. *)
Definition reconcile (email state : option string)
           (code_verifier access_token twitter_username : string)
           (token_data data user_data : json) : M response :=
  do t <- Eff.query;
  match Store.first (fun r => Store.col_eq (OAuth20PKCE.email r) email) (pkce_rows t) with
  | Some (i, existing_user) =>
      do refresh_token <-
        get_refresh_token token_data (OAuth20PKCE.refresh_token existing_user);
      do id_json <- Json.subscript data "id";
      do twitter_id <- Json.as_text id_json;
      run Eff.stage (set_pkce_rows t (<[i :=
            OAuth20PKCE.Build
              (OAuth20PKCE.email existing_user)
              (Some twitter_id)
              (Some twitter_username)
              (OAuth20PKCE.date_created existing_user)
              (Some access_token)
              refresh_token
              state
              (Some code_verifier)
              (Some (clock E))]>
            (pkce_rows t)));
      run Eff.commit;
      run Eff.flash "Authorization successful" "success";
      ret (success_page email user_data)
  | None =>
      do refresh_token <- get_refresh_token token_data None;
      do id_json <- Json.subscript data "id";
      do twitter_id <- Json.as_text id_json;
      let oauth_record :=
        OAuth20PKCE.Build email (Some twitter_id) (Some twitter_username)
          (Some (clock E)) (Some access_token) refresh_token state
          (Some code_verifier) (Some (clock E)) in
      oauth10a.except_integrity
        (run Eff.stage (set_pkce_rows t (pkce_rows t ++ [oauth_record]));
         run Eff.commit;
         run Eff.flash "Authorization successful" "success";
         ret (success_page email user_data))
        (fun e =>
           run Eff.rollback;
           run (if Py.contains "UNIQUE constraint failed: OAuth20_PKCE.twitter_id" e
                then Eff.flash "This Twitter ID is already registered with another account." "error"
                else Eff.flash "An error occurred. Please try again." "error");
           ret (Redirect "unauth.unauthhome"))
  end.

(** The view [oauth20pkcecallback]. [current_user] is the e-mail of the
    logged-in user ([None] when not authenticated) and [args] is
    [request.args]. *)
Definition oauth20pkcecallback (current_user : option string) (args : gmap string string)
  : M response :=
  let email := current_user in
  let error := args !! "error" in
  if Py.truthy error then
    run Eff.flash "Authorization failed" "danger";
    ret (Redirect "unauth.unauthhome")
  else
    let code := args !! "code" in
    let state := args !! "state" in
    do stored_state <- Eff.session_get "state";
    if Py.ne state stored_state then
      run Eff.flash "Invalid state parameter" "danger";
      ret (Redirect "unauth.unauthabout")
    else
      do stored_verifier <- Eff.session_get "code_verifier";
      match Py.truthy_value stored_verifier with
      | None =>
          run Eff.flash "Invalid code verifier" "danger";
          ret (Redirect "unauth.unauthhome")
      | Some code_verifier =>
          do response <- Eff.http_request E (token_call code code_verifier);
          if negb (status_code response =? 200) then
            run Eff.flash ("Authorization failed: " +:+ text response) "danger";
            ret (Redirect "unauth.unauthhome")
          else
            do token_data <- Eff.reply_json E response;
            do access_token_json <- Json.subscript token_data "access_token";
            do access_token <- Json.as_text access_token_json;
            do user_response <- Eff.http_request E (identity_call access_token);
            if negb (status_code user_response =? 200) then
              run Eff.flash "Failed to retrieve user information" "danger";
              ret (Redirect "unauth.unauthhome")
            else
              do user_data <- Eff.reply_json E user_response;
              do data <- Json.subscript user_data "data";
              do username_json <- Json.subscript data "username";
              do twitter_username <- Json.as_text username_json;
              reconcile email state code_verifier access_token twitter_username
                        token_data data user_data
      end.

End WithEnv.
End oauth20pkce.

(** ** Concrete environments and inputs *)

Module Scenario.

Definition settings : config :=
  Config "consumer-key" "consumer-secret" "app-key" "app-secret"
         "https://api.twitter.com/oauth/access_token"
         "client-id" "client-secret" "https://example.org/oauth20pkcecallback".

(** A decoder that accepts every body except ["<html>"]. *)
Definition decode_body (body : string) : option json :=
  if String.eqb body "<html>" then None else Some (JObj ∅).

Definition env_with (r : nat -> http_call -> exn + http_reply) (now : Z) : env :=
  Env r (fun n => n) now (fun _ => Some "impersonators=alice,bob,carol") "/srv/instance/"
      settings decode_body (fun _ => "[]") (fun _ => ∅) (fun _ => "2024-01-01 00:00:00").

Definition ok_reply : http_reply := HttpReply 200 "OK" "{}".

(** A remote API that answers 200 to every call. *)
Definition always_ok (n : nat) (c : http_call) : exn + http_reply := inr ok_reply.

(** A remote API that refuses bob's mute with 403 and answers 200 otherwise. *)
Definition mute_forbidden (n : nat) (c : http_call) : exn + http_reply :=
  if String.eqb (url c) (Report.mute_url "bob")
  then inr (HttpReply 403 "Forbidden" "{}")
  else inr ok_reply.

(** A remote API that cannot be reached for bob's report call and answers
    200 otherwise. *)
Definition report_unreachable (n : nat) (c : http_call) : exn + http_reply :=
  if String.eqb (url c) (Report.report_url "bob")
  then inl (ConnectionError "Connection aborted.")
  else inr ok_reply.

Definition session_auth : auth := OAuth1 "consumer-key" "consumer-secret" None None None.

Definition targets : list string := ["alice"; "bob"; "carol"].

Definition no_tables : tables := Tables [] [] [].

Definition fresh (sess : gmap string string) (db : tables) : world :=
  World [] sess db None [] [] 0.

(** Two stored 1.0a credentials, and incoming data for the first owner. *)
Definition cred_u_A : OAuth10a.t :=
  OAuth10a.Build (Some "u@example.org") "1001" "old_handle" (Some 100) (Some 100)
                 "verifier-A" "token-A" "secret-A" None.

Definition cred_v_B : OAuth10a.t :=
  OAuth10a.Build (Some "v@example.org") "2002" "other_handle" (Some 200) (Some 200)
                 "verifier-V" "token-V" "secret-V" None.

(** The same owner, now authorised as the remote account 2002. *)
Definition incoming_u_B : OAuth10a.t :=
  OAuth10a.Build (Some "u@example.org") "2002" "new_handle" (Some 500) None
                 "verifier-B" "token-B" "secret-B" None.

(** The same token pair as [cred_u_A], confirmed again with a new verifier. *)
Definition incoming_u_A_again : OAuth10a.t :=
  OAuth10a.Build (Some "u@example.org") "1001" "renamed_handle" (Some 500) None
                 "verifier-A2" "token-A" "secret-A" None.

(** Callbacks of the 1.0a flow. *)
Definition denied_callback : gmap string string :=
  <["oauth_token" := "request-token"]> {["denied" := "request-token"]}.

Definition missing_verifier_callback : gmap string string :=
  {["oauth_token" := "request-token"]}.

Definition complete_callback : gmap string string :=
  <["oauth_verifier" := "verifier"]> {["oauth_token" := "request-token"]}.

Definition twitter_id_violation : exn :=
  IntegrityError "(sqlite3.IntegrityError) UNIQUE constraint failed: oauth10a.twitter_id".

Definition token_secret_violation : exn :=
  IntegrityError "(sqlite3.IntegrityError) UNIQUE constraint failed: oauth10a.oauth_token_secret".


(** A PKCE callback with a code and a state, without [error]. *)
Definition code_with_state : gmap string string :=
  <["state" := "returned-state"]> {["code" := "authorization-code"]}.

Definition stored_state : gmap string string :=
  <["code_verifier" := "stored-verifier"]> {["state" := "stored-state"]}.



(** A provider that completes the PKCE exchange for the remote account 2002. *)
Definition provider (n : nat) (c : http_call) : exn + http_reply :=
  if String.eqb (url c) "https://api.twitter.com/2/oauth2/token"
  then inr (HttpReply 200 "OK" "token-body")
  else inr (HttpReply 200 "OK" "identity-body").

Definition decode_provider (body : string) : option json :=
  if String.eqb body "token-body"
  then Some (JObj (<["refresh_token" := JStr "refresh-1"]> {["access_token" := JStr "access-1"]}))
  else if String.eqb body "identity-body"
  then Some (JObj {["data" := JObj (<["id" := JStr "2002"]> {["username" := JStr "other_handle"]})]})
  else None.

Definition provider_env : env :=
  Env provider (fun n => n) 1000 (fun _ => None) "/srv/instance/" settings decode_provider
      (fun _ => "[]") (fun _ => ∅) (fun _ => "2024-01-01 00:00:00").

(** Stored PKCE credentials: owner v holds the remote account 2002, owner u
    the remote account 1001. *)
Definition pkce_v_B : OAuth20PKCE.t :=
  OAuth20PKCE.Build (Some "v@example.org") (Some "2002") (Some "other_handle") (Some 10)
                    (Some "access-0") None None (Some "verifier-0") (Some 10).

Definition pkce_u_A : OAuth20PKCE.t :=
  OAuth20PKCE.Build (Some "u@example.org") (Some "1001") (Some "old_handle") (Some 20)
                    (Some "access-u") None None (Some "verifier-u") (Some 20).

Definition matching_state : gmap string string :=
  <["code_verifier" := "stored-verifier"]> {["state" := "returned-state"]}.

(** The logged-in user of the pipeline runs, with one stored 1.0a credential. *)
Definition user_u : User.t :=
  User.Build (Some "u@example.org") (Some "1001") (Some "old_handle")
             (Some "pbkdf2:sha256:600000$salt$hash") (Some 50).

Definition pipeline_tables : tables := Tables [cred_u_A] [] [user_u].

(** The credentials that each pipeline function puts on its calls. *)
Definition generator_auth : auth :=
  OAuth1 "consumer-key" "consumer-secret" (Some "token-A") (Some "secret-A") None.

Definition list_auth : auth :=
  OAuth1 "app-key" "app-secret" (Some "token-A") (Some "secret-A") None.

(** A provider that completes the 1.0a exchange for the remote account 1001. *)
Definition provider10a (n : nat) (c : http_call) : exn + http_reply :=
  if String.eqb (url c) "https://api.twitter.com/oauth/access_token"
  then inr (HttpReply 200 "OK" "oauth_token=real-token&oauth_token_secret=real-secret")
  else inr (HttpReply 200 "OK" "verify-body").

Definition parse_tokens (body : string) : gmap string string :=
  if String.eqb body "oauth_token=real-token&oauth_token_secret=real-secret"
  then <["oauth_token_secret" := "real-secret"]> {["oauth_token" := "real-token"]}
  else ∅.

Definition decode_verify (body : string) : option json :=
  if String.eqb body "verify-body"
  then Some (JObj (<["id_str" := JStr "1001"]> {["screen_name" := JStr "old_handle"]}))
  else None.

Definition provider10a_env : env :=
  Env provider10a (fun n => n) 1000 (fun _ => None) "/srv/instance/" settings decode_verify
      (fun _ => "[]") parse_tokens (fun _ => "2024-01-01 00:00:00").

Definition request_secret : gmap string string :=
  {["oauth_token_secret" := "request-secret"]}.

End Scenario.

(** ** Observations on a run *)

(** The history column of every stored 1.0a credential, in storage order. *)
Definition histories (w : world) : list (option string) :=
  map OAuth10a.previous_twitter_account_info (oauth10a_rows (committed w)).

(** The 1.0a credentials as committed. *)
Definition stored_oauth10a (w : world) : list OAuth10a.t := oauth10a_rows (committed w).

(** The failures of the 1.0a callback that precede the token exchange. *)
Inductive callback_failure :=
| Denied
| MissingParameters
| MissingSessionSecret.

(** The page rendered for each of them. *)
Definition failure_page (f : callback_failure) : response :=
  oauth10a.render_error
    match f with
    | Denied => "OAuth request was denied"
    | MissingParameters => "Callback parameters missing"
    | MissingSessionSecret => "Missing OAuth token secret"
    end.

(** The failure expected from the query parameters and the session: denial
    first, then an absent token or verifier, then a session without the
    request-token secret. A parameter that is present but empty counts as
    absent, as for Python's [not v]. *)
Definition expected_failure (args sess : gmap string string) : option callback_failure :=
  if Py.truthy (args !! "denied") then Some Denied
  else if negb (Py.truthy (args !! "oauth_token")) || negb (Py.truthy (args !! "oauth_verifier"))
  then Some MissingParameters
  else if negb (Py.truthy (sess !! "oauth_token_secret")) then Some MissingSessionSecret
  else None.

(** A credential is stale when its last refresh is more than thirty days
    (of 86400 seconds, in microseconds) before the clock. *)
Definition stale (now : Z) (oauth_instance : option OAuth10a.t) : bool :=
  match oauth_instance with
  | Some inst =>
      match OAuth10a.last_token_refresh_date inst with
      | Some last => 30 * 86400 * 1000000 <? now - last
      | None => false
      end
  | None => false
  end.

(** The unreserved characters of a URL: [A-Z], [a-z], [0-9], [-], [.], [_]
    and [~]. *)
Definition unreserved (c : ascii) : bool :=
  let n := nat_of_ascii c in
  (((65 <=? n) && (n <=? 90)) || ((97 <=? n) && (n <=? 122)) || ((48 <=? n) && (n <=? 57))
   || (n =? 45) || (n =? 46) || (n =? 95) || (n =? 126))%nat.

(** The base64url alphabet. *)
Definition url_table : string :=
  "ABCDEFGHIJKLMNOPQRSTUVWXYZabcdefghijklmnopqrstuvwxyz0123456789-_".

Definition url_char (i : Z) : Z :=
  match String.get (Z.to_nat i) url_table with
  | Some c => Z.of_N (N_of_ascii c)
  | None => 65
  end.

(** base64url without padding: every group of three bytes is read as one
    number of 24 bits and written as four digits in base 64; a last group
    of one byte (two bytes) is completed with zero bits to 12 (18) bits and
    written as two (three) digits; no [=] is appended. *)
Fixpoint base64url_unpadded (bs : list Z) : list Z :=
  match bs with
  | [] => []
  | [a] =>
      let n := a * 16 in
      [url_char (n / 64); url_char (n mod 64)]
  | [a; b] =>
      let n := (a * 256 + b) * 4 in
      [url_char (n / 4096); url_char (n / 64 mod 64); url_char (n mod 64)]
  | a :: b :: c :: rest =>
      let n := a * 65536 + b * 256 + c in
      [url_char (n / 262144); url_char (n / 4096 mod 64); url_char (n / 64 mod 64);
       url_char (n mod 64)] ++ base64url_unpadded rest
  end.

(** A byte value. *)
Definition is_byte (z : Z) : Prop := 0 <= z < 256.

(** The number of [=] that completes the encoding of [bs]. *)
Fixpoint padding (bs : list Z) : nat :=
  match bs with
  | [] => 0
  | [_] => 2
  | [_; _] => 1
  | _ :: _ :: _ :: rest => padding rest
  end.

(** The character of a byte of encoder output. *)
Definition char_of (z : Z) : ascii := ascii_of_N (Z.to_N z).

(** The world after [n] further entropy draws. *)
Definition after_draws (w : world) (n : nat) : world :=
  World (http_log w) (session w) (committed w) (pending w) (flashes w) (yielded w)
        (n + drawn w).

(** The world after further outbound calls. *)
Definition after_calls (w : world) (calls : list http_call) : world :=
  World (http_log w ++ calls) (session w) (committed w) (pending w)
        (flashes w) (yielded w) (drawn w).

(** A refresh token that [token_data.get('refresh_token', ...)] can read:
    absent, [null] or a string. *)
Definition readable_refresh_token (token_data : gmap string json) : Prop :=
  token_data !! "refresh_token" = None
  \/ token_data !! "refresh_token" = Some JNull
  \/ exists rt, token_data !! "refresh_token" = Some (JStr rt).

(** The provider completes the PKCE exchange started from world [w]: the
    token endpoint answers 200 with an access token, and the identity
    endpoint answers 200 with a user name and the provider id [twitter_id]. *)
Definition provider_identifies (E : env) (args : gmap string string) (w : world)
           (code_verifier twitter_id : string) : Prop :=
  exists token_reply token_data access_token identity_reply user_data data username,
    remote E (length (http_log w)) (oauth20pkce.token_call E (args !! "code") code_verifier)
      = inr token_reply
    /\ status_code token_reply = 200
    /\ json_loads E (text token_reply) = Some (JObj token_data)
    /\ token_data !! "access_token" = Some (JStr access_token)
    /\ readable_refresh_token token_data
    /\ remote E (S (length (http_log w))) (oauth20pkce.identity_call access_token)
        = inr identity_reply
    /\ status_code identity_reply = 200
    /\ json_loads E (text identity_reply) = Some (JObj user_data)
    /\ user_data !! "data" = Some (JObj data)
    /\ data !! "username" = Some (JStr username)
    /\ data !! "id" = Some (JStr twitter_id).

(** The message flashed when the insert of a PKCE credential is rejected. *)
Definition integrity_flash (current_user : option string) : string :=
  match current_user with
  | Some _ => "This Twitter ID is already registered with another account."
  | None => "An error occurred. Please try again."
  end.

(** The two ways in which [oauth20pkcecallback] surfaces an integrity
    violation on the provider id: the exception of the unguarded commit
    (refresh of an existing credential), or the redirect with an error
    flash after the rollback (first credential of the owner). *)
Definition rejected_with_integrity_error (current_user : option string) (w : world)
           (out : result response * world) : Prop :=
  fst out = Raise (IntegrityError "UNIQUE constraint failed: OAuth20_PKCE.twitter_id")
  \/ (fst out = Ok (Redirect "unauth.unauthhome")
      /\ flashes (snd out) = flashes w ++ [(integrity_flash current_user, "error")]
      /\ pending (snd out) = None).

(** The world after [db.session.rollback()]. *)
Definition rolled_back (w : world) : world :=
  World (http_log w) (session w) (committed w) None (flashes w) (yielded w) (drawn w).

(** The world after a commit that replaced row [i] of the 1.0a table. *)
Definition with_row (w : world) (i : nat) (r : OAuth10a.t) : world :=
  World (http_log w) (session w)
        (oauth10a.set_oauth10a_rows (committed w) (<[i := r]> (oauth10a_rows (committed w))))
        None (flashes w) (yielded w) (drawn w).

(** A string in which the character [c] does not occur. *)
Definition without (c : ascii) (s : string) : Prop := ~ In c (list_ascii_of_string s).

(** The access-token request of [oauth10acallback]: signed with the request
    token of the query string, its secret from the session and the
    verifier. *)
Definition exchange_call (E : env) (oauth_token oauth_token_secret oauth_verifier : string)
  : http_call :=
  HttpCall "POST" (ACCESS_TOKEN_URL (cfg E))
    (OAuth1 (API_AKA_CONSUMER_KEY (cfg E)) (API_AKA_CONSUMER_KEY_SECRET (cfg E))
            (Some oauth_token) (Some oauth_token_secret) (Some oauth_verifier)) [].

(** The verification request of [oauth10acallback]: signed with the issued
    token pair, without a verifier. *)
Definition verify_call (E : env) (real_oauth_token real_oauth_token_secret : string)
  : http_call :=
  HttpCall "GET" "https://api.twitter.com/1.1/account/verify_credentials.json"
    (OAuth1 (API_AKA_CONSUMER_KEY (cfg E)) (API_AKA_CONSUMER_KEY_SECRET (cfg E))
            (Some real_oauth_token) (Some real_oauth_token_secret) None) [].

(** The world after one more flashed message. *)
Definition flashed (w : world) (message category : string) : world :=
  World (http_log w) (session w) (committed w) (pending w)
        (flashes w ++ [(message, category)]) (yielded w) (drawn w).

(** The world after the session entry [k] is dropped. *)
Definition forgetting (w : world) (k : string) : world :=
  World (http_log w) (delete k (session w)) (committed w) (pending w)
        (flashes w) (yielded w) (drawn w).

(** A 1.0a callback that passes the three guards of the view: not denied,
    with a request token [tok] and a verifier [ver], in a session that
    holds the request-token secret [sec]. *)
Definition passes_guards (args : gmap string string) (w : world) (tok ver sec : string) : Prop :=
  Py.truthy (args !! "denied") = false
  /\ args !! "oauth_token" = Some tok /\ tok <> ""
  /\ args !! "oauth_verifier" = Some ver /\ ver <> ""
  /\ session w !! "oauth_token_secret" = Some sec /\ sec <> "".

(** The provider answers the access-token request made from world [w] with
    200 and the token pair [rt], [rs]. *)
Definition provider_issues (E : env) (w : world) (tok ver sec rt rs : string) : Prop :=
  exists r,
    remote E (length (http_log w)) (exchange_call E tok sec ver) = inr r
    /\ status_code r = 200
    /\ parse_qsl E (text r) !! "oauth_token" = Some rt
    /\ parse_qsl E (text r) !! "oauth_token_secret" = Some rs.

(** The provider answers the verification request, the second call from
    world [w], with 200 and an account of screen name [sn] and id [tid]. *)
Definition provider_verifies (E : env) (w : world) (rt rs sn tid : string) : Prop :=
  exists r members,
    remote E (S (length (http_log w))) (verify_call E rt rs) = inr r
    /\ status_code r = 200
    /\ json_loads E (text r) = Some (JObj members)
    /\ members !! "screen_name" = Some (JStr sn)
    /\ members !! "id_str" = Some (JStr tid).

(** Remote sides that refuse. *)
Module Refusals.

Definition unauthorized : http_reply := HttpReply 401 "Unauthorized" "denied".

(** A remote API that refuses every call. *)
Definition refuse_all (n : nat) (c : http_call) : exn + http_reply := inr unauthorized.

(** A remote API that answers the first call of a run like [first] and
    refuses the later ones. *)
Definition refuse_after_first (first : nat -> http_call -> exn + http_reply)
           (n : nat) (c : http_call) : exn + http_reply :=
  match n with
  | O => first n c
  | S _ => inr unauthorized
  end.

(** A remote API that cannot be reached. *)
Definition unreachable (n : nat) (c : http_call) : exn + http_reply :=
  inl (ConnectionError "Connection aborted.").

(** The environment [E] in front of another remote side. *)
Definition with_remote (E : env) (r : nat -> http_call -> exn + http_reply) : env :=
  Env r (entropy E) (clock E) (read_file E) (instance_path E) (cfg E)
      (json_loads E) (json_dumps E) (parse_qsl E) (strftime E).


(** A provider that completes the PKCE exchange without issuing a refresh
    token, and a stored credential of owner u that holds one. *)
Definition decode_without_refresh (body : string) : option json :=
  if String.eqb body "token-body"
  then Some (JObj {["access_token" := JStr "access-2"]})
  else Scenario.decode_provider body.

Definition provider_without_refresh : env :=
  Env Scenario.provider (fun n => n) 1000 (fun _ => None) "/srv/instance/" Scenario.settings
      decode_without_refresh (fun _ => "[]") (fun _ => ∅) (fun _ => "2024-01-01 00:00:00").

Definition pkce_u_offline : OAuth20PKCE.t :=
  OAuth20PKCE.Build (Some "u@example.org") (Some "1001") (Some "old_handle") (Some 20)
                    (Some "access-u") (Some "refresh-u") None (Some "verifier-u") (Some 20).

(** A provider that issues a request token to the begin operation. *)
Definition issuing (n : nat) (c : http_call) : exn + http_reply :=
  inr (HttpReply 200 "OK" "oauth_token=request-token&oauth_token_secret=request-secret").

Definition parse_request_token (body : string) : gmap string string :=
  if String.eqb body "oauth_token=request-token&oauth_token_secret=request-secret"
  then <["oauth_token_secret" := "request-secret"]> {["oauth_token" := "request-token"]}
  else ∅.

Definition issuing_env : env :=
  Env issuing (fun n => n) 1000 (fun _ => None) "/srv/instance/" Scenario.settings
      Scenario.decode_verify (fun _ => "[]") parse_request_token
      (fun _ => "2024-01-01 00:00:00").

(** The user row of owner u before any provider account is linked to it. *)
Definition user_u_unlinked : User.t :=
  User.Build (Some "u@example.org") None (Some "u_handle")
             (Some "pbkdf2:sha256:600000$salt$hash") (Some 50).

(** A user row of owner w that already names the remote account 1001. *)
Definition user_w_1001 : User.t :=
  User.Build (Some "w@example.org") (Some "1001") (Some "w_handle")
             (Some "pbkdf2:sha256:600000$salt$hash") (Some 60).

End Refusals.

(** A PKCE callback that passes the three guards of the view: no [error]
    parameter, the state of the session (both may be absent), and a stored
    verifier [cv]. *)
Definition passes_pkce_guards (args : gmap string string) (w : world) (cv : string) : Prop :=
  Py.truthy (args !! "error") = false
  /\ args !! "state" = session w !! "state"
  /\ session w !! "code_verifier" = Some cv /\ cv <> "".

(** The token endpoint answers the request made from world [w] with 200
    and a payload [token_data] that carries the access token. *)
Definition token_issued (E : env) (args : gmap string string) (w : world) (cv : string)
           (token_data : gmap string json) (access_token : string) : Prop :=
  exists r,
    remote E (length (http_log w)) (oauth20pkce.token_call E (args !! "code") cv) = inr r
    /\ status_code r = 200
    /\ json_loads E (text r) = Some (JObj token_data)
    /\ token_data !! "access_token" = Some (JStr access_token).

(** The identity endpoint answers the second call from world [w] with 200
    and the payload [user_data], whose [data] member names the account. *)
Definition identity_given (E : env) (w : world) (access_token : string)
           (user_data data : gmap string json) (username tid : string) : Prop :=
  exists r,
    remote E (S (length (http_log w))) (oauth20pkce.identity_call access_token) = inr r
    /\ status_code r = 200
    /\ json_loads E (text r) = Some (JObj user_data)
    /\ user_data !! "data" = Some (JObj data)
    /\ data !! "username" = Some (JStr username)
    /\ data !! "id" = Some (JStr tid).

(** The refresh token [new] that the upsert stores for a payload
    [token_data], where [old] is the default of [token_data.get]: the token
    of the payload, [old] when the payload has no such member, and none
    when the member is [null]. *)
Definition refresh_token_after (token_data : gmap string json) (old new : option string)
  : Prop :=
  match token_data !! "refresh_token" with
  | None => new = old
  | Some JNull => new = None
  | Some (JStr s) => new = Some s
  | Some _ => False
  end.

(** A computation that only appends to the log of outbound calls. *)
Definition appends {A} (c : M A) : Prop :=
  forall w, exists calls, http_log (snd (c w)) = http_log w ++ calls.

(** A lower-case hexadecimal digit. *)
Definition hex_digit (c : ascii) : bool :=
  existsb (Ascii.eqb c) (list_ascii_of_string "0123456789abcdef").

(** The state that a callback must return after [oauth20pkce_index] ran in
    world [w]: the one left in the session. *)
Definition returning_state (E : env) (w : world) : gmap string string :=
  match session (snd (oauth20pkce.oauth20pkce_index E w)) !! "state" with
  | Some state => <["state" := state]> {["code" := "authorization-code"]}
  | None => ∅
  end.

(** ** [error.py]: the exception raised for a refused provider call *)

Module TwitterAPIError.

(** An instance: [status_code] is [Optional[int]]. *)
Record t := Build {
  status_code : option Z;
  message : string
}.

(** The class attribute [error_messages]; the texts are carried as their
    UTF-8 bytes. *)
Definition error_messages : list (Z * string) :=
  [
   (200, "The request was successful!");
   (304, "304 - NOT MODIFIED: There was no new data to return.");
   (400, "400 - BAD REQUEST: The request was invalid or cannot be otherwise served. An "
           +:+ "accompanying error message will explain further. Requests without authentication "
           +:+ "or with invalid query parameters are considered invalid and will yield this "
           +:+ "response. Double check the format of your JSON query. For example, if your rule "
           +:+ "contains double-quote characters associated with an exact-match or other "
           +:+ "operator, you may need to escape them using a backslash to distinguish them from "
           +:+ "the structure of the JSON format. Read more.");
   (401, "401 - UNAUTHORIZED: There was a problem authenticating your request. This could "
           +:+ "be due to missing or incorrect authentication credentials. This may also be "
           +:+ "returned in other undefined circumstances. Check that you are using the correct "
           +:+ "authentication method and that your credentials are correct.");
   (403, "403 - FORBIDDEN: The request is understood, but it has been refused or access is "
           +:+ "not allowed. An accompanying error message will explain why. Check that your "
           +:+ "developer account includes access to the endpoint you’re trying to use. You may "
           +:+ "also need to get your App allow-listed (e.g. Engagement API or Ads API) or sign "
           +:+ "up for access.");
   (404, "404 - NOT FOUND: The URI requested is invalid or the resource requested does not "
           +:+ "exist. Check that you are using valid parameters and the correct URI for the "
           +:+ "endpoint you’re using.");
   (406, "406 - NOT ACCEPTABLE: Returned when an invalid format is specified in the "
           +:+ "request. Generally, this occurs where your client fails to properly include the "
           +:+ "headers to accept gzip encoding, but can occur in other circumstances as well. "
           +:+ "Check that you are correctly passing expected query parameters, including "
           +:+ "expected headers, in your request.");
   (409, "409 - CONNECTION EXCEPTION: Returned when attempting to connect to a filtered "
           +:+ "stream that has no rules. Check that you have created at least one rule on the "
           +:+ "stream you are connecting to. Filtered stream will only return Tweets that match "
           +:+ "an active rule. If there are no rules, the stream will not return any Tweets.");
   (410, "410 - GONE: This resource is gone. Used to indicate that an API endpoint has "
           +:+ "been turned off.");
   (422, "422 - UNPROCESSABLE ENTITY: Returned when the data is unable to be processed. "
           +:+ "Check that the data you are sending in your request is valid. For example, this "
           +:+ "data could be the JSON body of your request or an image.");
   (429, "429 - TOO MANY REQUESTS: Returned when a request cannot be served due to the "
           +:+ "App's rate limit or Tweet cap having been exhausted. See Rate Limiting. Check "
           +:+ "the number of requests per timeframe allowed with the endpoint you’re using. "
           +:+ "Wait for the timeframe to reset. Space out your requests to ensure you don’t hit "
           +:+ "rate limits or upgrade to the next available data plan.");
   (431, "431 - REQUEST HEADER FIELDS TOO LARGE: The server is unwilling to process the "
           +:+ "request because either an individual header field, or all the header fields "
           +:+ "collectively, are too large. Reduce the size of the request headers.");
   (451, "451 - UNAVAILABLE FOR LEGAL REASONS - The user’s account is not available "
           +:+ "because it is disconnected from Twitter by a valid legal request.");
   (460, "460 - CUSTOM ERROR - Custom error message for specific scenarios in your "
           +:+ "application.");
   (461, "461 - ANOTHER CUSTOM ERROR - Another custom error message for different "
           +:+ "scenarios in your application.");
   (500, "500 - INTERNAL SERVER ERROR: Something is broken. This is usually a temporary "
           +:+ "error, for example in a high load situation or if an endpoint is temporarily "
           +:+ "having issues. Check the Twitter API status page or the developer community "
           +:+ "forum in case others are having similar issues, or simply wait and try again "
           +:+ "later.")
  ].

(** [d.get(k)] on a dictionary with integer keys. *)
Fixpoint dict_get (k : Z) (d : list (Z * string)) : option string :=
  match d with
  | [] => None
  | (k', v) :: rest => if k =? k' then Some v else dict_get k rest
  end.

(** [f"{status_code}"]. *)
Definition format_status (status_code : option Z) : string :=
  match status_code with
  | Some n => Py.str_of_Z n
  | None => "None"
  end.

(** [self.get_error_message()]. *)
Definition get_error_message (status_code : option Z) : string :=
  match match status_code with
        | Some n => dict_get n error_messages
        | None => None
        end with
  | Some m => m
  | None => "Unknown error code " +:+ format_status status_code +:+ "."
  end.

(** [TwitterAPIError(status_code, message)]; [message] defaults to [None],
    and a falsy message is replaced by the default of the status code. *)
Definition init (status_code : option Z) (message : option string) : t :=
  Build status_code
        match Py.truthy_value message with
        | Some m => m
        | None => get_error_message status_code
        end.

(** [str(error)]. *)
Definition str (self : t) : string :=
  format_status (status_code self) +:+ ": " +:+ message self.

End TwitterAPIError.

(** ** [oauth10a.py]: the begin operation of the three-legged flow *)

Module oauth10a_index.
Section WithEnv.
Variable E : env.

(** [REQUEST_TOKEN_URL] and [AUTHORIZE_URL] of [instance/config.py], and
    the external URL that [url_for] builds for the callback. *)
Variables REQUEST_TOKEN_URL AUTHORIZE_URL app_callback_url : string.

(** [werkzeug.security.generate_password_hash], which draws its salt
    itself. *)
Variable generate_password_hash : string -> M string.

(** The request for a request token: signed with the consumer pair only,
    with the callback URL as the one form field. *)
Definition request_token_call : http_call :=
  HttpCall "POST" REQUEST_TOKEN_URL
    (OAuth1 (API_AKA_CONSUMER_KEY (cfg E)) (API_AKA_CONSUMER_KEY_SECRET (cfg E))
            None None None)
    [("oauth10a.oauth10acallback", app_callback_url)].

(** How the view ends when no built-in exception leaves it: with a page,
    or by raising [TwitterAPIError]. *)
Inductive outcome :=
| Page (r : response)
| ApiError (e : TwitterAPIError.t).

(** [request_token[k]]; in the source the two keys are the byte strings
    [b'oauth_token'] and [b'oauth_token_secret']. *)
Definition member (request_token : gmap string string) (k : string) : M string :=
  match request_token !! k with
  | Some v => ret v
  | None => raise (KeyError k)
  end.

(** The view [oauth10aindex]. [oauth_store] is the module-level
    dictionary; the view returns it as it leaves it. The handler of
    [UnicodeDecodeError] has no counterpart here: decoding with
    [errors='ignore'] does not raise, and the [KeyError] of a missing
    member is not caught by it. *)
Definition oauth10aindex (oauth_store : gmap string string)
  : M (outcome * gmap string string) :=
  do resp <- Eff.http_request E request_token_call;
  if negb (status_code resp =? 200)
  then ret (ApiError (TwitterAPIError.init (Some (status_code resp)) None), oauth_store)
  else
    let request_token := parse_qsl E (text resp) in
    do oauth_token <- member request_token "oauth_token";
    do oauth_token_secret <- member request_token "oauth_token_secret";
    do oauth_secret_hash <- generate_password_hash oauth_token_secret;
    let oauth_store := <[oauth_token := oauth_secret_hash]> oauth_store in
    run Eff.session_set "oauth_token_secret" oauth_token_secret;
    ret (Page (RenderTemplate "oauth10aindex.html"
                 [("authorize_url", JStr AUTHORIZE_URL);
                  ("oauth_token", JStr oauth_token);
                  ("request_token_url", JStr REQUEST_TOKEN_URL);
                  ("app_callback_uri", JStr app_callback_url)]),
         oauth_store).

(** The blueprint's handler of [TwitterAPIError]: the error page, and the
    status code of the error as HTTP status. *)
Definition handle_twitter_api_error (error : TwitterAPIError.t) : response * option Z :=
  (oauth10a.render_error (TwitterAPIError.str error), TwitterAPIError.status_code error).

(** What the route serves: the page of the view with status 200, or the
    answer of the error handler. *)
Definition served (o : outcome) : response * option Z :=
  match o with
  | Page r => (r, Some 200)
  | ApiError e => handle_twitter_api_error e
  end.

End WithEnv.
End oauth10a_index.

(** A stand-in for the password hash: sixteen draws for the salt. *)
Definition stub_password_hash (password : string) : M string :=
  fun w => (Ok ("pbkdf2:sha256$" +:+ password), after_draws w 16).

(** The member [k] of a decoded payload, or [default]:
    [response_data.get(k, default)]. *)
Definition member_or (members : gmap string json) (k : string) (default : json) : json :=
  match members !! k with
  | Some v => v
  | None => default
  end.

(** * Properties *)

(** ** The codecs *)

Module CodecFacts.

(** The digest of ["abc"] (FIPS 180-4, one-block example). *)
Example sha256_abc :
  Sha256.sha256 (Py.encode "abc") =
  [0xba; 0x78; 0x16; 0xbf; 0x8f; 0x01; 0xcf; 0xea; 0x41; 0x41; 0x40; 0xde; 0x5d; 0xae; 0x22; 0x23;
   0xb0; 0x03; 0x61; 0xa3; 0x96; 0x17; 0x7a; 0x9c; 0xb4; 0x10; 0xff; 0x61; 0xf2; 0x00; 0x15; 0xad].
Proof. vm_compute. reflexivity. Qed.

(** The verifier and challenge of RFC 7636, appendix B. *)
Example rfc7636_appendix_b :
  Pkce.code_challenge "dBjftJeZ4CVP-mB92K27uhbUJU1p1r_wW1gFWFOEjXk"
  = "E9Melhoa2OwvFrEMTJguCHaoeK1t8URWbuGJSstw-cM".
Proof. vm_compute. reflexivity. Qed.

(** A message of 128 bytes, the length of a verifier: three blocks. *)
Example sha256_three_blocks :
  Py.rstrip "=" (Py.decode (Base64.urlsafe_b64encode (Sha256.sha256 (repeat 65 128))))
  = "tqw8wQOGMxx2XwTwQcFH0PJ48q7Y6qAh4tAFf8b2_54".
Proof. vm_compute. reflexivity. Qed.

Example urlsafe_b64encode_small :
  Py.decode (Base64.urlsafe_b64encode [0xfb; 0xff; 0xfe]) = "-__-"
  /\ Py.decode (Base64.urlsafe_b64encode [97]) = "YQ=="
  /\ Py.decode (Base64.urlsafe_b64encode [97; 98]) = "YWI=".
Proof. vm_compute. auto. Qed.

(** Lists by groups of three elements. *)
Lemma list_ind3 {A} (P : list A -> Prop) :
  P [] -> (forall a, P [a]) -> (forall a b, P [a; b]) ->
  (forall a b c rest, P rest -> P (a :: b :: c :: rest)) ->
  forall l, P l.
Proof.
  intros H0 H1 H2 H3.
  assert (H : forall l, P l /\ (forall a, P (a :: l)) /\ (forall a b, P (a :: b :: l))).
  { induction l as [| x l [IH0 [IH1 IH2]]].
    - auto.
    - split; [apply IH1 |]. split; [intros a; apply IH2 |]. intros a b. apply H3. exact IH0. }
  intros l. apply H.
Qed.

(** ** Digits in base 64 *)

Lemma lor_shiftl_add x y m :
  0 <= m -> 0 <= y < 2 ^ m -> Z.lor (Z.shiftl x m) y = x * 2 ^ m + y.
Proof.
  intros Hm Hy.
  assert (Hland : Z.land (Z.shiftl x m) y = 0).
  { apply Z.bits_inj'. intros n Hn. rewrite Z.land_spec, Z.bits_0.
    destruct (Z.lt_ge_cases n m) as [Hlt | Hge].
    - rewrite Z.shiftl_spec_low by exact Hlt. reflexivity.
    - replace y with (y mod 2 ^ m) by (apply Z.mod_small; exact Hy).
      rewrite Z.mod_pow2_bits_high by lia. apply Bool.andb_false_r. }
  rewrite <- Z.lxor_lor by exact Hland.
  rewrite <- Z.add_nocarry_lxor by exact Hland.
  rewrite Z.shiftl_mul_pow2 by exact Hm. reflexivity.
Qed.

Lemma land_low x k : 0 <= k -> Z.land x (2 ^ k - 1) = x mod 2 ^ k.
Proof.
  intros Hk. rewrite <- Z.land_ones by exact Hk. f_equal.
  rewrite Z.ones_equiv. lia.
Qed.

(** The four digits of a full group, as the encoder computes them. *)
Lemma group_digits a b c :
  is_byte a -> is_byte b -> is_byte c ->
  let n := a * 65536 + b * 256 + c in
  Z.shiftr a 2 = n / 262144
  /\ Z.lor (Z.shiftl (Z.land a 3) 4) (Z.shiftr b 4) = n / 4096 mod 64
  /\ Z.lor (Z.shiftl (Z.land b 15) 2) (Z.shiftr c 6) = n / 64 mod 64
  /\ Z.land c 63 = n mod 64.
Proof.
  intros Ha Hb Hc. unfold is_byte in *. cbv zeta.
  rewrite !Z.shiftr_div_pow2 by lia.
  change 3 with (2 ^ 2 - 1). change 15 with (2 ^ 4 - 1). change 63 with (2 ^ 6 - 1).
  rewrite !land_low by lia.
  change (2 ^ 2) with 4. change (2 ^ 4) with 16. change (2 ^ 6) with 64.
  assert (Hb4 : 0 <= b / 16 < 2 ^ 4).
  { change (2 ^ 4) with 16. split; [apply Z.div_pos; lia | apply Z.div_lt_upper_bound; lia]. }
  assert (Hc6 : 0 <= c / 64 < 2 ^ 2).
  { change (2 ^ 2) with 4. split; [apply Z.div_pos; lia | apply Z.div_lt_upper_bound; lia]. }
  rewrite (lor_shiftl_add (a mod 4) (b / 16) 4) by (lia || exact Hb4).
  rewrite (lor_shiftl_add (b mod 16) (c / 64) 2) by (lia || exact Hc6).
  change (2 ^ 4) with 16. change (2 ^ 2) with 4.
  repeat split; Z.div_mod_to_equations; lia.
Qed.

(** The translated standard digit is the base64url digit. *)
Lemma translate_sextet i : Base64.urlsafe_translate (Base64.sextet i) = url_char i.
Proof.
  unfold Base64.sextet, url_char. generalize (Z.to_nat i) as n. intros n.
  do 64 (destruct n as [| n]; [reflexivity |]). reflexivity.
Qed.

Lemma get_In n s c : String.get n s = Some c -> In c (list_ascii_of_string s).
Proof.
  revert n. induction s as [| a s IH]; intros n H; simpl in H; [discriminate |].
  destruct n as [| n].
  - inversion H; subst. left. reflexivity.
  - right. apply (IH n H).
Qed.

(** No base64url digit is the padding character. *)
Lemma url_char_not_pad i : char_of (url_char i) <> "="%char.
Proof.
  unfold url_char, char_of.
  destruct (String.get (Z.to_nat i) url_table) as [c |] eqn:Hget.
  - rewrite N2Z.id, ascii_N_embedding.
    apply get_In in Hget.
    assert (Hall : Forall (fun c => c <> "="%char) (list_ascii_of_string url_table)).
    { repeat constructor; discriminate. }
    rewrite Forall_forall in Hall. apply Hall. apply list_elem_of_In. exact Hget.
  - discriminate.
Qed.

Lemma unpadded_not_pad bs :
  Forall (fun z => char_of z <> "="%char) (base64url_unpadded bs).
Proof.
  induction bs as [| a | a b | a b c rest IH] using list_ind3; cbn [base64url_unpadded app];
    repeat constructor; try apply url_char_not_pad. exact IH.
Qed.

(** The encoder of the code computes the unpadded encoding followed by the
    padding. *)
Lemma urlsafe_b64encode_unpadded bs :
  Forall is_byte bs ->
  Base64.urlsafe_b64encode bs = base64url_unpadded bs ++ repeat Base64.pad_byte (padding bs).
Proof.
  unfold Base64.urlsafe_b64encode.
  induction bs as [| a | a b | a b c rest IH] using list_ind3; intros Hbytes.
  - reflexivity.
  - inversion Hbytes as [| ? ? Ha _]; subst.
    cbn [Base64.b64encode base64url_unpadded padding repeat map app].
    rewrite !translate_sextet.
    assert (H1 : Z.shiftr a 2 = a * 16 / 64).
    { rewrite Z.shiftr_div_pow2 by lia. change (2 ^ 2) with 4.
      unfold is_byte in Ha. Z.div_mod_to_equations. lia. }
    assert (H2 : Z.shiftl (Z.land a 3) 4 = a * 16 mod 64).
    { rewrite Z.shiftl_mul_pow2 by lia. change 3 with (2 ^ 2 - 1).
      rewrite land_low by lia. change (2 ^ 2) with 4. change (2 ^ 4) with 16.
      unfold is_byte in Ha. Z.div_mod_to_equations. lia. }
    rewrite H1, H2. reflexivity.
  - inversion Hbytes as [| ? ? Ha Hrest]; subst.
    inversion Hrest as [| ? ? Hb _]; subst.
    cbn [Base64.b64encode base64url_unpadded padding repeat map app].
    rewrite !translate_sextet.
    destruct (group_digits a b 0) as [_ [H3 _]]; try assumption; try (unfold is_byte; lia).
    cbv zeta in H3.
    assert (H1 : Z.shiftr a 2 = (a * 256 + b) * 4 / 4096).
    { rewrite Z.shiftr_div_pow2 by lia. change (2 ^ 2) with 4.
      unfold is_byte in *. Z.div_mod_to_equations. lia. }
    assert (H2 : Z.lor (Z.shiftl (Z.land a 3) 4) (Z.shiftr b 4) = (a * 256 + b) * 4 / 64 mod 64).
    { rewrite H3. unfold is_byte in *. Z.div_mod_to_equations. lia. }
    assert (H4 : Z.shiftl (Z.land b 15) 2 = (a * 256 + b) * 4 mod 64).
    { rewrite Z.shiftl_mul_pow2 by lia. change 15 with (2 ^ 4 - 1).
      rewrite land_low by lia. change (2 ^ 2) with 4. change (2 ^ 4) with 16.
      unfold is_byte in *. Z.div_mod_to_equations. lia. }
    rewrite H1, H2, H4. reflexivity.
  - inversion Hbytes as [| ? ? Ha H1]; subst.
    inversion H1 as [| ? ? Hb H2]; subst.
    inversion H2 as [| ? ? Hc Hrest]; subst.
    cbn [Base64.b64encode base64url_unpadded padding].
    rewrite map_app. cbn [map]. rewrite !translate_sextet.
    destruct (group_digits a b c Ha Hb Hc) as [E1 [E2 [E3 E4]]]. cbv zeta in *.
    rewrite E1, E2, E3, E4, (IH Hrest). cbn [app]. reflexivity.
Qed.

(** Stripping the padding of an encoding leaves the unpadded encoding. *)
Lemma rstrip_padding (l : list ascii) k :
  Forall (fun c => c <> "="%char) l ->
  Py.rstrip "=" (string_of_list_ascii (l ++ repeat "="%char k)) = string_of_list_ascii l.
Proof.
  intros Hl. induction Hl as [| a l Ha Hl IH].
  - induction k as [| k IHk]; [reflexivity |].
    cbn [app repeat string_of_list_ascii Py.rstrip] in *. rewrite IHk. reflexivity.
  - cbn [app string_of_list_ascii Py.rstrip]. rewrite IH.
    destruct l as [| b l]; cbn [string_of_list_ascii]; [| reflexivity].
    destruct (Ascii.eqb a "=") eqn:Heq; [| reflexivity].
    apply Ascii.eqb_eq in Heq. contradiction.
Qed.

Lemma decode_app x y : map char_of (x ++ y) = map char_of x ++ map char_of y.
Proof. apply map_app. Qed.

(** The code's encode-then-strip is the unpadded encoding, on bytes. *)
Lemma strip_is_unpadded bs :
  Forall is_byte bs ->
  Py.rstrip "=" (Py.decode (Base64.urlsafe_b64encode bs)) = Py.decode (base64url_unpadded bs).
Proof.
  intros Hbytes. rewrite (urlsafe_b64encode_unpadded bs Hbytes).
  unfold Py.decode. change (fun z => ascii_of_N (Z.to_N z)) with char_of.
  rewrite map_app, map_repeat. change (char_of Base64.pad_byte) with "="%char.
  apply rstrip_padding. apply Forall_map. apply unpadded_not_pad.
Qed.

(** The digest has thirty-two bytes. *)
Lemma digest_bytes r : Forall is_byte (Sha256.digest_of r) /\ length (Sha256.digest_of r) = 32%nat.
Proof.
  split; [| reflexivity].
  unfold Sha256.digest_of, Sha256.be_bytes. cbn [flat_map map rev seq app].
  repeat constructor;
    (change 255 with (2 ^ 8 - 1); rewrite land_low by lia;
     unfold is_byte; apply Z.mod_pos_bound; lia).
Qed.

Lemma sha256_bytes msg :
  Forall is_byte (Sha256.sha256 msg) /\ length (Sha256.sha256 msg) = 32%nat.
Proof. unfold Sha256.sha256. apply digest_bytes. Qed.

End CodecFacts.

(** ** The pipeline *)

Module ReportFacts.
Import Report Scenario.

(** C1. The report call is made outside any [try]: with the targets alice,
    bob and carol read from the instance file, when the remote side cannot
    be reached for bob's report, both pipeline functions stop with
    the transport exception. No failed outcome is recorded for that
    report, and carol is never processed. *)
Theorem report_transport_error_aborts_run :
  let E := env_with report_unreachable 0 in
  let gen := oauth10areportimpersonators E (Some "u@example.org") "channel"
               (fresh ∅ pipeline_tables) in
  let lst := impersonatingusers E "channel" user_u (fresh ∅ pipeline_tables) in
  fst gen = Raise (ConnectionError "Connection aborted.")
  /\ yielded (snd gen) =
       ["Muted user with screen name: alice";
        "Blocked user with screen name: alice";
        "Reported user with screen name: alice";
        "Muted user with screen name: bob";
        "Blocked user with screen name: bob"]
  /\ http_log (snd gen) =
       map (post generator_auth)
           [mute_url "alice"; block_url "alice"; report_url "alice";
            mute_url "bob"; block_url "bob"; report_url "bob"]
  /\ fst lst = Raise (ConnectionError "Connection aborted.")
  /\ http_log (snd lst) =
       map (post list_auth)
           [mute_url "alice"; report_url "alice"; mute_url "bob"; report_url "bob"].
Proof. vm_compute. repeat split; reflexivity. Qed.

(** A guarded call (mute or block in the generator) always completes: it
    logs the call and yields exactly one message, whatever the remote side
    answers. *)
Lemma guarded_call_yields E c ok (err : exn -> string) w :
  exists s,
    try_except
      (do response <- Eff.http_request E c;
       run Eff.raise_for_status c response;
       Eff.yield_ ok)
      (fun e => Eff.yield_ (err e)) w
    = (Ok tt, World (http_log w ++ [c]) (session w) (committed w) (pending w)
                    (flashes w) (yielded w ++ [s]) (drawn w))
    /\ (s = ok \/ exists e, s = err e).
Proof.
  unfold try_except, bind, Eff.http_request, Eff.raise_for_status.
  destruct (remote E (length (http_log w)) c) as [e | r]; simpl.
  - eexists; split; [reflexivity | right; eauto].
  - destruct ((400 <=? status_code r) && (status_code r <? 500)); simpl.
    + eexists; split; [reflexivity | right; eauto].
    + destruct ((500 <=? status_code r) && (status_code r <? 600)); simpl.
      * eexists; split; [reflexivity | right; eauto].
      * eexists; split; [reflexivity | left; reflexivity].
Qed.

(** The calls that [impersonatingusers] adds to the log are mute and report
    calls for its targets. *)
Lemma impersonatingusers_loop_calls E oauth tl :
  forall acc w c,
    In c (http_log (snd (impersonatingusers_loop E oauth tl acc w))) ->
    In c (http_log w) \/
    exists t, In t tl /\ (c = post oauth (mute_url t) \/ c = post oauth (report_url t)).
Proof.
  induction tl as [| t rest IH]; intros acc w c Hc.
  - left. exact Hc.
  - revert Hc. cbn [impersonatingusers_loop].
    unfold bind at 1. unfold try_except, bind at 1, Eff.http_request at 1.
    set (c1 := post oauth (mute_url t)).
    set (w1 := World (http_log w ++ [c1]) (session w) (committed w) (pending w)
                     (flashes w) (yielded w) (drawn w)).
    assert (Hstep : forall acc1 c,
      In c (http_log (snd ((do response <- Eff.http_request E (post oauth (report_url t));
          let response_list :=
            if negb (status_code response =? 200)
            then (acc1 ++ [JStr ("Request returned an error: "
                   +:+ Py.str_of_Z (status_code response) +:+ ", " +:+ text response)])%list
            else (acc1 ++ [JStr ("Reported user with screen name: " +:+ t)])%list in
          do json_response <- Eff.reply_json E response;
          impersonatingusers_loop E oauth rest (response_list ++ [json_response])) w1))) ->
      In c (http_log w) \/
      exists t0, In t0 (t :: rest) /\
        (c = post oauth (mute_url t0) \/ c = post oauth (report_url t0))).
    { intros acc1 c0. unfold bind at 1, Eff.http_request at 1.
      set (c2 := post oauth (report_url t)).
      set (w2 := World (http_log w1 ++ [c2]) (session w1) (committed w1) (pending w1)
                       (flashes w1) (yielded w1) (drawn w1)).
      assert (Hw2 : forall x, In x (http_log w2) ->
                In x (http_log w) \/ x = c1 \/ x = c2).
      { intros x Hx. subst w2 w1. simpl in Hx.
        rewrite !in_app_iff in Hx. simpl in Hx. intuition auto. }
      assert (Hbase : forall x, In x (http_log w2) ->
                In x (http_log w) \/
                exists t0, In t0 (t :: rest) /\
                  (x = post oauth (mute_url t0) \/ x = post oauth (report_url t0))).
      { intros x Hx. destruct (Hw2 x Hx) as [H | [H | H]].
        - left; exact H.
        - right; exists t; split; [left; reflexivity | left; exact H].
        - right; exists t; split; [left; reflexivity | right; exact H]. }
      destruct (remote E (length (http_log w1)) c2) as [e | r].
      - simpl. apply Hbase.
      - unfold bind, Eff.reply_json.
        destruct (json_loads E (text r)) as [j |].
        + unfold ret at 1. intros Hin.
          apply IH in Hin. destruct Hin as [Hin | [t0 [Ht0 Hc0]]].
          * apply Hbase. exact Hin.
          * right. exists t0. split; [right; exact Ht0 | exact Hc0].
        + unfold raise. simpl. apply Hbase. }
    destruct (remote E (length (http_log w)) c1) as [e | r].
    + unfold ret. apply Hstep.
    + unfold Eff.raise_for_status.
      destruct ((400 <=? status_code r) && (status_code r <? 500)).
      * unfold raise, ret. apply Hstep.
      * destruct ((500 <=? status_code r) && (status_code r <? 600)).
        -- unfold raise, ret. apply Hstep.
        -- unfold ret. apply Hstep.
Qed.

(** The three calls made for one target by the generator. *)
Lemma generator_complete_log E oauth tl :
  (forall n t, exists r,
      remote E n (post oauth (report_url t)) = inr r /\ json_loads E (text r) <> None) ->
  forall acc w, exists js ys,
    oauth10areportimpersonators_loop E oauth tl acc w
    = (Ok (acc ++ js)%list,
       World (http_log w ++ flat_map (fun t => [post oauth (mute_url t);
                                                post oauth (block_url t);
                                                post oauth (report_url t)]) tl)
             (session w) (committed w) (pending w) (flashes w)
             (yielded w ++ ys) (drawn w))
    /\ length js = length tl /\ length ys = (3 * length tl)%nat.
Proof.
  intros Hreport. induction tl as [| t rest IH]; intros acc w.
  - exists [], []. cbn. rewrite !app_nil_r. destruct w; auto.
  - cbn [oauth10areportimpersonators_loop].
    unfold bind at 1.
    destruct (guarded_call_yields E (post oauth (mute_url t))
                ("Muted user with screen name: " +:+ t)
                (fun e => "Error muting user " +:+ t +:+ ": " +:+ str_exn e) w)
      as [s1 [-> _]].
    unfold bind at 1.
    match goal with
    | |- context [try_except _ _ ?w1] =>
        destruct (guarded_call_yields E (post oauth (block_url t))
                    ("Blocked user with screen name: " +:+ t)
                    (fun e => "Error blocking user " +:+ t +:+ ": " +:+ str_exn e) w1)
          as [s2 [-> _]]
    end.
    cbn [http_log session committed pending flashes yielded drawn].
    unfold bind at 1, Eff.http_request at 1.
    cbn [http_log session committed pending flashes yielded drawn].
    destruct (Hreport (length ((http_log w ++ [post oauth (mute_url t)])
                               ++ [post oauth (block_url t)])) t) as [r [-> Hjson]].
    unfold bind at 1.
    assert (Hyield : exists s3,
      (if negb (status_code r =? 200)
       then Eff.yield_ ("Request returned an error: " +:+ Py.str_of_Z (status_code r)
                        +:+ " " +:+ text r)
       else Eff.yield_ ("Reported user with screen name: " +:+ t))
      = Eff.yield_ s3).
    { destruct (negb (status_code r =? 200)); eauto. }
    destruct Hyield as [s3 ->].
    unfold Eff.yield_ at 1.
    cbn [http_log session committed pending flashes yielded drawn].
    unfold bind at 1, Eff.reply_json at 1.
    destruct (json_loads E (text r)) as [j |]; [| congruence].
    unfold ret at 1.
    destruct (IH (acc ++ [j])%list
                 (World (((http_log w ++ [post oauth (mute_url t)])
                          ++ [post oauth (block_url t)]) ++ [post oauth (report_url t)])
                        (session w) (committed w) (pending w) (flashes w)
                        (((yielded w ++ [s1]) ++ [s2]) ++ [s3]) (drawn w)))
      as [js [ys [-> [Hjs Hys]]]].
    exists (j :: js), (s1 :: s2 :: s3 :: ys).
    cbn [http_log session committed pending flashes yielded drawn flat_map length].
    repeat split.
    + repeat rewrite <- app_assoc. reflexivity.
    + rewrite Hjs. reflexivity.
    + rewrite Hys. lia.
Qed.

(** Mute, block and report URLs never coincide. *)
Lemma block_url_distinct t t' :
  block_url t <> mute_url t' /\ block_url t <> report_url t'.
Proof. split; intros H; discriminate H. Qed.

(** C2. [impersonatingusers] never issues a block call: each call it adds
    to the log is the mute or the report call of a target. With three
    targets and a remote side that always answers 200 it makes six calls,
    and the nine entries of its result are, per target, the mute message,
    the report message and the decoded body of the report reply. *)
Theorem impersonatingusers_never_blocks :
  (forall E oauth tl acc w t,
      In (post oauth (block_url t))
         (http_log (snd (impersonatingusers_loop E oauth tl acc w))) ->
      In (post oauth (block_url t)) (http_log w))
  /\ (let run3 := impersonatingusers (env_with always_ok 0) "channel" user_u
                                     (fresh ∅ pipeline_tables) in
      http_log (snd run3) =
        map (post list_auth)
            [mute_url "alice"; report_url "alice"; mute_url "bob"; report_url "bob";
             mute_url "carol"; report_url "carol"]
      /\ fst run3 =
        Ok [JStr "Muted user with screen name: alice";
            JStr "Reported user with screen name: alice"; JObj ∅;
            JStr "Muted user with screen name: bob";
            JStr "Reported user with screen name: bob"; JObj ∅;
            JStr "Muted user with screen name: carol";
            JStr "Reported user with screen name: carol"; JObj ∅]).
Proof.
  split.
  - intros E oauth tl acc w t Hin.
    apply impersonatingusers_loop_calls in Hin.
    destruct Hin as [Hin | [t0 [_ [Heq | Heq]]]]; [exact Hin | |].
    + exfalso. apply (proj1 (block_url_distinct t t0)). unfold post in Heq. congruence.
    + exfalso. apply (proj2 (block_url_distinct t t0)). unfold post in Heq. congruence.
  - vm_compute. split; reflexivity.
Qed.

(** On the input of the partial-failure scenario (three targets, 403 on
    the second mute) the generator [oauth10areportimpersonators] yields
    nine messages and only the second target's mute is an error. *)
Example generator_partial_failure :
  yielded (snd (oauth10areportimpersonators_loop (env_with mute_forbidden 0) session_auth
                  targets [] (fresh ∅ no_tables))) =
    ["Muted user with screen name: alice";
     "Blocked user with screen name: alice";
     "Reported user with screen name: alice";
     "Error muting user bob: 403 Client Error: Forbidden for url: https://api.twitter.com/1.1/mutes/users/create.json?screen_name=bob";
     "Blocked user with screen name: bob";
     "Reported user with screen name: bob";
     "Muted user with screen name: carol";
     "Blocked user with screen name: carol";
     "Reported user with screen name: carol"].
Proof. vm_compute. reflexivity. Qed.

End ReportFacts.

(** ** The relational store *)

Module StoreFacts.
Import Store.

Lemma first_from_Some {A} (p : A -> bool) rows :
  forall base i r,
    first_from base p rows = Some (i, r) ->
    exists k, i = (base + k)%nat /\ rows !! k = Some r /\ p r = true
              /\ forall j x, (j < k)%nat -> rows !! j = Some x -> p x = false.
Proof.
  induction rows as [| a rest IH]; intros base i r H; simpl in H; [discriminate |].
  destruct (p a) eqn:Hp.
  - inversion H; subst. exists 0%nat.
    split; [lia |]. split; [reflexivity |]. split; [exact Hp |].
    intros j x Hj. lia.
  - apply IH in H. destruct H as [k [-> [Hk [Hr Hbefore]]]].
    exists (S k).
    split; [lia |]. split; [exact Hk |]. split; [exact Hr |].
    intros [| j] x Hj Hx; simpl in Hx.
    + inversion Hx; subst; exact Hp.
    + apply (Hbefore j x); [lia | exact Hx].
Qed.

Lemma first_Some {A} (p : A -> bool) rows i r :
  first p rows = Some (i, r) ->
  rows !! i = Some r /\ p r = true
  /\ forall j x, (j < i)%nat -> rows !! j = Some x -> p x = false.
Proof.
  intros H. apply first_from_Some in H. destruct H as [k [-> H]]. exact H.
Qed.

(** Replacing the first match by another match keeps it the first match. *)
Lemma first_from_insert {A} (p : A -> bool) rows :
  forall base k r r',
    first_from base p rows = Some ((base + k)%nat, r) ->
    p r' = true ->
    first_from base p (<[k := r']> rows) = Some ((base + k)%nat, r').
Proof.
  induction rows as [| a rest IH]; intros base k r r' H Hp; simpl in H; [discriminate |].
  destruct (p a) eqn:Ha.
  - inversion H as [[Hi Hr]]. assert (k = 0%nat) by lia. subst k. simpl.
    rewrite Hp. do 2 f_equal. lia.
  - destruct k as [| k].
    + apply first_from_Some in H. destruct H as [k' [Hk' _]]. lia.
    + simpl. rewrite Ha.
      replace (base + S k)%nat with (S base + k)%nat in * by lia.
      apply (IH (S base) k r r' H Hp).
Qed.

Lemma first_insert {A} (p : A -> bool) rows i r r' :
  first p rows = Some (i, r) -> p r' = true ->
  first p (<[i := r']> rows) = Some (i, r').
Proof. intros H Hp. apply (first_from_insert p rows 0 i r r' H Hp). Qed.

(** A column is unchanged by a row update that keeps its value. *)
Lemma map_insert_same {A B} (f : A -> B) rows i r r' :
  rows !! i = Some r -> f r' = f r -> map f (<[i := r']> rows) = map f rows.
Proof.
  revert i. induction rows as [| a rest IH]; intros [| i] H Hf; simpl in *;
    try discriminate.
  - inversion H; subst. rewrite Hf. reflexivity.
  - f_equal. apply IH; assumption.
Qed.

Lemma has_null_map {A} (col : A -> option string) rows :
  has_null col rows
  = existsb (fun o => match o with None => true | Some _ => false end) (map col rows).
Proof. unfold has_null. induction rows; simpl; congruence. Qed.

Lemma non_null_map {A} (col : A -> option string) rows :
  non_null col rows = omap id (map col rows).
Proof.
  unfold non_null. induction rows as [| a rest IH]; [reflexivity |].
  cbn [map]. change (omap col (a :: rest))
    with (match col a with Some y => y :: omap col rest | None => omap col rest end).
  rewrite IH. destruct (col a); reflexivity.
Qed.

(** The constraints of the 1.0a table only read the key columns. *)
Lemma oauth10a_violation_keys rows rows' :
  map OAuth10a.email rows' = map OAuth10a.email rows ->
  map OAuth10a.twitter_id rows' = map OAuth10a.twitter_id rows ->
  oauth10a_violation rows' = oauth10a_violation rows.
Proof.
  intros He Ht. unfold oauth10a_violation.
  rewrite !has_null_map, !non_null_map, He, Ht. reflexivity.
Qed.

Lemma first_from_None {A} (p : A -> bool) rows :
  forall base, first_from base p rows = None -> forall r, In r rows -> p r = false.
Proof.
  induction rows as [| a rest IH]; intros base H r Hr; simpl in *; [contradiction |].
  destruct (p a) eqn:Ha; [discriminate |].
  destruct Hr as [<- | Hr]; [exact Ha | exact (IH _ H r Hr)].
Qed.

Lemma first_None {A} (p : A -> bool) rows :
  first p rows = None -> forall r, In r rows -> p r = false.
Proof. apply first_from_None. Qed.

Lemma eqb_sym (x y : string) : String.eqb x y = String.eqb y x.
Proof.
  destruct (String.eqb x y) eqn:H.
  - apply String.eqb_eq in H. subst. symmetry. apply String.eqb_refl.
  - symmetry. apply String.eqb_neq. apply String.eqb_neq in H. congruence.
Qed.

Lemma existsb_eqb_In (x : string) l : existsb (String.eqb x) l = true <-> In x l.
Proof.
  rewrite existsb_exists. split.
  - intros [y [Hy Heq]]. apply String.eqb_eq in Heq. subst. exact Hy.
  - intros H. exists x. split; [exact H | apply String.eqb_refl].
Qed.

(** Appending a value to a column. *)
Lemma has_dup_snoc l x : has_dup (l ++ [x]) = has_dup l || existsb (String.eqb x) l.
Proof.
  induction l as [| a rest IH]; simpl; [reflexivity |].
  rewrite existsb_app, IH. simpl. rewrite (eqb_sym x a).
  destruct (existsb (String.eqb a) rest), (String.eqb a x), (has_dup rest),
    (existsb (String.eqb x) rest); reflexivity.
Qed.

(** A value that occurs on both sides of a position is a duplicate. *)
Lemma has_dup_middle l1 l2 x :
  In x l1 \/ In x l2 -> has_dup (l1 ++ x :: l2) = true.
Proof.
  induction l1 as [| a rest IH]; simpl; intros [H | H]; try contradiction.
  - apply existsb_eqb_In in H. rewrite H. reflexivity.
  - destruct H as [-> | H].
    + assert (Hin : In x (rest ++ x :: l2)) by (apply in_or_app; right; left; reflexivity).
      apply existsb_eqb_In in Hin. rewrite Hin. reflexivity.
    + rewrite IH by (left; exact H). apply Bool.orb_true_r.
  - rewrite IH by (right; exact H). apply Bool.orb_true_r.
Qed.

Lemma non_null_app {A} (col : A -> option string) l1 l2 :
  non_null col (l1 ++ l2) = non_null col l1 ++ non_null col l2.
Proof. unfold non_null. apply omap_app. Qed.

Lemma non_null_In {A} (col : A -> option string) rows r x :
  In r rows -> col r = Some x -> In x (non_null col rows).
Proof.
  intros Hr Hx. unfold non_null. apply list_elem_of_In.
  apply list_elem_of_omap. exists r. split; [apply list_elem_of_In; exact Hr | exact Hx].
Qed.

Lemma In_non_null {A} (col : A -> option string) rows x :
  In x (non_null col rows) -> exists r, In r rows /\ col r = Some x.
Proof.
  unfold non_null. intros H. apply list_elem_of_In, list_elem_of_omap in H.
  destruct H as [r [Hr Hx]]. exists r. split; [apply list_elem_of_In; exact Hr | exact Hx].
Qed.

Lemma has_null_app {A} (col : A -> option string) l1 l2 :
  has_null col (l1 ++ l2) = has_null col l1 || has_null col l2.
Proof. unfold has_null. apply existsb_app. Qed.

Lemma has_null_false {A} (col : A -> option string) rows :
  has_null col rows = false <-> forall r, In r rows -> col r <> None.
Proof.
  unfold has_null. split.
  - intros H r Hr Hc.
    assert (Ht : existsb (fun r => match col r with None => true | Some _ => false end) rows = true).
    { apply existsb_exists. exists r. rewrite Hc. auto. }
    congruence.
  - intros H. apply Bool.not_true_is_false. intros Ht.
    apply existsb_exists in Ht. destruct Ht as [r [Hr Hc]].
    specialize (H r Hr). destruct (col r); [discriminate | congruence].
Qed.

(** The three tables are checked in turn. *)
Lemma violation_None t :
  violation t = None ->
  oauth10a_violation (oauth10a_rows t) = None
  /\ pkce_violation (pkce_rows t) = None
  /\ user_violation (user_rows t) = None.
Proof.
  unfold violation. destruct (oauth10a_violation _); [discriminate |].
  destruct (pkce_violation _); [discriminate |]. auto.
Qed.

Lemma pkce_violation_None rows :
  pkce_violation rows = None ->
  has_null OAuth20PKCE.email rows = false
  /\ has_null OAuth20PKCE.code_verifier rows = false
  /\ has_dup (non_null OAuth20PKCE.email rows) = false
  /\ has_dup (non_null OAuth20PKCE.twitter_id rows) = false.
Proof.
  unfold pkce_violation.
  destruct (has_null OAuth20PKCE.email rows); [discriminate |].
  destruct (has_null OAuth20PKCE.code_verifier rows); [discriminate |].
  destruct (has_dup (non_null OAuth20PKCE.email rows)); [discriminate |].
  destruct (has_dup (non_null OAuth20PKCE.twitter_id rows)); [discriminate |]. auto.
Qed.

End StoreFacts.

(** ** Reconciliation of 1.0a credentials *)

Module ReconcileFacts.
Import oauth10a Scenario StoreFacts.

Lemma violation_key_update t i r r' :
  oauth10a_rows t !! i = Some r ->
  OAuth10a.email r' = OAuth10a.email r ->
  OAuth10a.twitter_id r' = OAuth10a.twitter_id r ->
  Store.violation (set_oauth10a_rows t (<[i := r']> (oauth10a_rows t))) = Store.violation t.
Proof.
  intros Hi He Ht. unfold Store.violation, set_oauth10a_rows; simpl.
  rewrite (oauth10a_violation_keys (oauth10a_rows t)); [reflexivity | |].
  - apply (map_insert_same OAuth10a.email _ i r r' Hi He).
  - apply (map_insert_same OAuth10a.twitter_id _ i r r' Hi Ht).
Qed.

(** On a clean session over consistent tables, [update_existing_entry]
    refreshes the first row with the incoming token pair, or does nothing
    when there is none. *)
Lemma update_existing_entry_run E s w :
  pending w = None ->
  Store.violation (committed w) = None ->
  update_existing_entry E s w =
    match Store.first (same_token_pair s) (stored_oauth10a w) with
    | Some (i, r) => (Ok tt, with_row w i (refreshed_entry E r s))
    | None => (Ok tt, w)
    end.
Proof.
  intros Hclean Hvalid. unfold update_existing_entry, stored_oauth10a.
  unfold bind at 1, Eff.query. rewrite Hclean.
  destruct (Store.first (same_token_pair s) (oauth10a_rows (committed w)))
    as [[i r] |] eqn:Hfirst; [| reflexivity].
  apply first_Some in Hfirst. destruct Hfirst as [Hi _].
  unfold bind, Eff.stage, Eff.commit; simpl.
  rewrite (violation_key_update (committed w) i r _ Hi); [| reflexivity | reflexivity].
  rewrite Hvalid. reflexivity.
Qed.

Lemma stored_with_row w i r :
  stored_oauth10a (with_row w i r) = <[i := r]> (stored_oauth10a w).
Proof. reflexivity. Qed.

(** The refresh policy of the resolver: on the token-secret violation the
    first row with the incoming token pair is refreshed in place. *)
Lemma handle_refresh E e ty s w :
  Py.contains "UNIQUE constraint failed: oauth10a.oauth_token_secret" (str_exn e) = true ->
  Store.violation (committed w) = None ->
  handle_integrity_error E e ty s w =
    match Store.first (same_token_pair s) (stored_oauth10a w) with
    | Some (i, r) => (Ok None, with_row w i (refreshed_entry E r s))
    | None => (Ok None, rolled_back w)
    end.
Proof.
  intros Hmsg Hvalid. unfold handle_integrity_error.
  unfold bind at 1, Eff.rollback. rewrite Hmsg.
  unfold bind at 1.
  rewrite (update_existing_entry_run E s); [| reflexivity | exact Hvalid].
  unfold stored_oauth10a; simpl.
  destruct (Store.first (same_token_pair s) (oauth10a_rows (committed w))) as [[i r] |];
    reflexivity.
Qed.

(** A run of the archive block: it raises, and changes nothing. *)
Lemma archive_raises E r w :
  archive E r w
  = (Raise (AttributeError
              match OAuth10a.date_created r with
              | Some _ => "'OAuth10a' object has no attribute 'previous_twitter_account_info'"
              | None => "'NoneType' object has no attribute 'strftime'"
              end), w).
Proof.
  unfold archive, bind, previous_info.
  destruct (OAuth10a.date_created r); reflexivity.
Qed.

(** The provider-id branch when the comparison sends it into the archive
    block: the exception of the block leaves the resolver after the
    rollback. *)
Lemma handle_archive E e ty s w i r :
  Py.contains "UNIQUE constraint failed: oauth10a.oauth_token_secret" (str_exn e) = false ->
  Py.contains "UNIQUE constraint failed: oauth10a.twitter_id" (str_exn e) = true ->
  Store.first (fun x => String.eqb (OAuth10a.twitter_id x) (OAuth10a.twitter_id s))
              (stored_oauth10a w) = Some (i, r) ->
  id_ne (OAuth10a.twitter_id r) ty (OAuth10a.twitter_id s) = true ->
  handle_integrity_error E e ty s w
  = (Raise (AttributeError
              match OAuth10a.date_created r with
              | Some _ => "'OAuth10a' object has no attribute 'previous_twitter_account_info'"
              | None => "'NoneType' object has no attribute 'strftime'"
              end), rolled_back w).
Proof.
  intros Hm1 Hm2 Hfirst Hne.
  unfold handle_integrity_error. unfold bind at 1, Eff.rollback. rewrite Hm1, Hm2.
  unfold bind at 1, update_existing_record, bind at 1, Eff.query. cbn [pending committed].
  unfold stored_oauth10a in Hfirst. rewrite Hfirst, Hne.
  unfold bind at 1. rewrite archive_raises. reflexivity.
Qed.

(** No path of the resolver changes a stored history: the archive block
    of [update_existing_record] raises before it assigns one, and the
    assignments after it keep what the row had. *)
Lemma handle_keeps_histories E e ty s w :
  histories (snd (handle_integrity_error E e ty s w)) = histories w.
Proof.
  unfold handle_integrity_error, histories.
  unfold bind at 1, Eff.rollback.
  destruct (Py.contains "UNIQUE constraint failed: oauth10a.oauth_token_secret" (str_exn e)).
  - unfold bind at 1, update_existing_entry, bind at 1, Eff.query; simpl.
    destruct (Store.first (same_token_pair s) (oauth10a_rows (committed w)))
      as [[i r] |] eqn:Hfirst; [| reflexivity].
    apply first_Some in Hfirst. destruct Hfirst as [Hi _].
    unfold bind, Eff.stage, Eff.commit; simpl.
    destruct (Store.violation _); simpl; [reflexivity |].
    apply (map_insert_same _ _ i r); [exact Hi | reflexivity].
  - destruct (Py.contains "UNIQUE constraint failed: oauth10a.twitter_id" (str_exn e));
      [| reflexivity].
    unfold bind at 1, update_existing_record, bind at 1, Eff.query; cbn [pending committed].
    destruct (Store.first _ (oauth10a_rows (committed w))) as [[i r] |] eqn:Hfirst;
      [| reflexivity].
    apply first_Some in Hfirst. destruct Hfirst as [Hi _].
    destruct (id_ne (OAuth10a.twitter_id r) ty (OAuth10a.twitter_id s)).
    + unfold bind at 1. rewrite archive_raises. reflexivity.
    + unfold bind, ret, Eff.stage, Eff.commit; simpl.
      destruct (Store.violation _); simpl; [reflexivity |].
      apply (map_insert_same _ _ i r); [exact Hi | reflexivity].
Qed.

(** C3. Reconciling a credential stored with provider id 1001 against
    incoming data with provider id 2002 archives nothing, and nothing the
    resolver does ever changes a history. Whenever the comparison of the
    row's id with the incoming id sends [update_existing_record] into the
    archive block, the block raises [AttributeError] and the resolver ends
    there, after its rollback and before any assignment. At the input:
    when no row holds 2002 the resolver returns without any write; when
    another owner's row holds 2002 and the incoming id is the [str] of the
    callback, the loaded [int] differs from it, the archive block is
    entered and raises; when the incoming id is an [int], the block is
    skipped, that row is given the incoming owner and the flush of the
    commit raises on the e-mail key. In every case the tables stay as they
    were: the active record of the owner still carries 1001 and its
    history is empty. *)
Theorem archive_block_never_completes :
  (forall E e ty s w, histories (snd (handle_integrity_error E e ty s w)) = histories w)
  /\ (forall E e ty s w i r,
        Py.contains "UNIQUE constraint failed: oauth10a.oauth_token_secret" (str_exn e) = false ->
        Py.contains "UNIQUE constraint failed: oauth10a.twitter_id" (str_exn e) = true ->
        Store.first (fun x => String.eqb (OAuth10a.twitter_id x) (OAuth10a.twitter_id s))
                    (stored_oauth10a w) = Some (i, r) ->
        id_ne (OAuth10a.twitter_id r) ty (OAuth10a.twitter_id s) = true ->
        exists m, handle_integrity_error E e ty s w = (Raise (AttributeError m), rolled_back w))
  /\ (forall ty,
        let out := handle_integrity_error (env_with always_ok 1000) twitter_id_violation
                     ty incoming_u_B (fresh ∅ (Tables [cred_u_A] [] [])) in
        fst out = Ok None /\ stored_oauth10a (snd out) = [cred_u_A])
  /\ (let out := handle_integrity_error (env_with always_ok 1000) twitter_id_violation
                    IdStr incoming_u_B (fresh ∅ (Tables [cred_u_A; cred_v_B] [] [])) in
      fst out
      = Raise (AttributeError "'OAuth10a' object has no attribute 'previous_twitter_account_info'")
      /\ stored_oauth10a (snd out) = [cred_u_A; cred_v_B]
      /\ pending (snd out) = None)
  /\ (let out := handle_integrity_error (env_with always_ok 1000) twitter_id_violation
                    IdInt incoming_u_B (fresh ∅ (Tables [cred_u_A; cred_v_B] [] [])) in
      fst out = Raise (IntegrityError "UNIQUE constraint failed: OAuth10a_3Legged.email")
      /\ stored_oauth10a (snd out) = [cred_u_A; cred_v_B]).
Proof.
  split; [exact handle_keeps_histories |].
  split.
  { intros E e ty s w i r Hm1 Hm2 Hfirst Hne.
    eexists. apply (handle_archive E e ty s w i r Hm1 Hm2 Hfirst Hne). }
  split; [intros []; vm_compute; split; reflexivity |].
  split; vm_compute; repeat split; reflexivity.
Qed.

Lemma with_row_valid w i r r' :
  stored_oauth10a w !! i = Some r ->
  OAuth10a.email r' = OAuth10a.email r ->
  OAuth10a.twitter_id r' = OAuth10a.twitter_id r ->
  Store.violation (committed (with_row w i r')) = Store.violation (committed w).
Proof. intros Hi He Ht. apply (violation_key_update (committed w) i r r' Hi He Ht). Qed.

(** C4. Once a credential with the token pair is stored (row [i]), a
    reconciliation that hits the token-secret violation refreshes that row
    in place, and so does a second one with the same token pair. After
    both, the table has as many rows as before, every history is as
    before, row [i] carries the verifier, display name, token, token
    secret of the last incoming data and the time of the last refresh
    (the code also overwrites its creation date), its owner and provider
    id are unchanged, every other row is unchanged, and the tables are
    those that a single reconciliation with the last data produces. *)
Theorem same_token_pair_refreshes_in_place E1 E2 e1 e2 ty1 ty2 s1 s2 w i r :
  Py.contains "UNIQUE constraint failed: oauth10a.oauth_token_secret" (str_exn e1) = true ->
  Py.contains "UNIQUE constraint failed: oauth10a.oauth_token_secret" (str_exn e2) = true ->
  Store.violation (committed w) = None ->
  OAuth10a.oauth_token s2 = OAuth10a.oauth_token s1 ->
  OAuth10a.oauth_token_secret s2 = OAuth10a.oauth_token_secret s1 ->
  Store.first (same_token_pair s1) (stored_oauth10a w) = Some (i, r) ->
  let once := handle_integrity_error E1 e1 ty1 s1 w in
  let twice := handle_integrity_error E2 e2 ty2 s2 (snd once) in
  fst once = Ok None /\ fst twice = Ok None
  /\ length (stored_oauth10a (snd twice)) = length (stored_oauth10a w)
  /\ histories (snd twice) = histories w
  /\ (exists r2, stored_oauth10a (snd twice) !! i = Some r2
        /\ OAuth10a.oauth_verifier r2 = OAuth10a.oauth_verifier s2
        /\ OAuth10a.account_name r2 = OAuth10a.account_name s2
        /\ OAuth10a.oauth_token r2 = OAuth10a.oauth_token s2
        /\ OAuth10a.oauth_token_secret r2 = OAuth10a.oauth_token_secret s2
        /\ OAuth10a.last_token_refresh_date r2 = Some (clock E2)
        /\ OAuth10a.email r2 = OAuth10a.email r
        /\ OAuth10a.twitter_id r2 = OAuth10a.twitter_id r)
  /\ (forall j, j <> i -> stored_oauth10a (snd twice) !! j = stored_oauth10a w !! j)
  /\ committed (snd twice) = committed (snd (handle_integrity_error E2 e2 ty2 s2 w)).
Proof.
  intros Hm1 Hm2 Hvalid Htok Hsec Hfirst once twice.
  assert (Hpred : same_token_pair s2 = same_token_pair s1).
  { unfold same_token_pair. rewrite Htok, Hsec. reflexivity. }
  destruct (first_Some _ _ _ _ Hfirst) as [Hi [Hp _]].
  assert (Honce : once = (Ok None, with_row w i (refreshed_entry E1 r s1))).
  { unfold once. rewrite (handle_refresh E1 e1 ty1 s1 w Hm1 Hvalid), Hfirst. reflexivity. }
  assert (Hvalid1 : Store.violation (committed (with_row w i (refreshed_entry E1 r s1))) = None).
  { rewrite (with_row_valid w i r _ Hi); [exact Hvalid | reflexivity | reflexivity]. }
  assert (Hfirst1 : Store.first (same_token_pair s2)
                      (stored_oauth10a (with_row w i (refreshed_entry E1 r s1)))
                    = Some (i, refreshed_entry E1 r s1)).
  { rewrite stored_with_row, Hpred. apply (first_insert _ _ i r); [exact Hfirst |].
    unfold same_token_pair, refreshed_entry; simpl. rewrite !String.eqb_refl. reflexivity. }
  assert (Htwice : twice = (Ok None, with_row (with_row w i (refreshed_entry E1 r s1)) i
                                       (refreshed_entry E2 (refreshed_entry E1 r s1) s2))).
  { unfold twice. rewrite Honce. cbn [snd].
    rewrite (handle_refresh E2 e2 ty2 s2 _ Hm2 Hvalid1), Hfirst1. reflexivity. }
  assert (Hlt : (i < length (stored_oauth10a w))%nat).
  { apply lookup_lt_Some in Hi. exact Hi. }
  assert (Hrows : stored_oauth10a (snd twice)
                  = <[i := refreshed_entry E2 r s2]> (stored_oauth10a w)).
  { rewrite Htwice. cbn [snd]. rewrite !stored_with_row.
    rewrite list_insert_insert_eq. reflexivity. }
  split; [rewrite Honce; reflexivity |].
  split; [rewrite Htwice; reflexivity |].
  split; [rewrite Hrows; apply length_insert |].
  split.
  { unfold histories. fold (stored_oauth10a (snd twice)). rewrite Hrows.
    apply (map_insert_same _ _ i r); [exact Hi | reflexivity]. }
  split.
  { exists (refreshed_entry E2 r s2). rewrite Hrows.
    split; [apply list_lookup_insert_eq; exact Hlt |].
    repeat split; reflexivity. }
  split.
  { intros j Hj. rewrite Hrows. apply list_lookup_insert_ne. congruence. }
  rewrite (handle_refresh E2 e2 ty2 s2 w Hm2 Hvalid), Hpred, Hfirst. cbn [snd].
  rewrite Htwice. cbn [snd]. unfold with_row at 1. cbn [committed].
  unfold with_row at 2. cbn [committed http_log session flashes yielded drawn].
  unfold with_row. cbn [committed oauth10a_rows pkce_rows user_rows set_oauth10a_rows].
  unfold set_oauth10a_rows. cbn [oauth10a_rows pkce_rows user_rows].
  rewrite list_insert_insert_eq. reflexivity.
Qed.

(** The refresh at a concrete input: the stored credential of one owner
    is confirmed twice with the same token pair. *)
Lemma same_token_pair_refreshes_in_place_witness :
  let w := fresh ∅ (Tables [cred_v_B; cred_u_A] [] []) in
  let once := handle_integrity_error (env_with always_ok 1000) token_secret_violation
                IdStr incoming_u_A_again w in
  let twice := handle_integrity_error (env_with always_ok 2000) token_secret_violation
                 IdStr incoming_u_A_again (snd once) in
  fst once = Ok None /\ fst twice = Ok None
  /\ length (stored_oauth10a (snd twice)) = length (stored_oauth10a w)
  /\ histories (snd twice) = histories w
  /\ (exists r2, stored_oauth10a (snd twice) !! 1%nat = Some r2
        /\ OAuth10a.oauth_verifier r2 = "verifier-A2"
        /\ OAuth10a.account_name r2 = "renamed_handle"
        /\ OAuth10a.oauth_token r2 = "token-A"
        /\ OAuth10a.oauth_token_secret r2 = "secret-A"
        /\ OAuth10a.last_token_refresh_date r2 = Some 2000
        /\ OAuth10a.email r2 = Some "u@example.org"
        /\ OAuth10a.twitter_id r2 = "1001")
  /\ (forall j, j <> 1%nat -> stored_oauth10a (snd twice) !! j = stored_oauth10a w !! j)
  /\ committed (snd twice)
     = committed (snd (handle_integrity_error (env_with always_ok 2000)
                         token_secret_violation IdStr incoming_u_A_again w)).
Proof.
  apply (same_token_pair_refreshes_in_place
           (env_with always_ok 1000) (env_with always_ok 2000)
           token_secret_violation token_secret_violation IdStr IdStr
           incoming_u_A_again incoming_u_A_again
           (fresh ∅ (Tables [cred_v_B; cred_u_A] [] [])) 1%nat cred_u_A);
    reflexivity.
Defined.

End ReconcileFacts.

(** ** The PKCE flow *)

Module PkceFacts.
Import oauth20pkce Scenario StoreFacts.

Lemma ne_true_iff (a b : option string) : Py.ne a b = true <-> a <> b.
Proof.
  destruct a as [x |], b as [y |]; simpl; try (split; [discriminate | reflexivity]).
  - rewrite Bool.negb_true_iff. split.
    + intros H Heq. inversion Heq; subst. rewrite String.eqb_refl in H. discriminate.
    + intros H. apply String.eqb_neq. congruence.
  - split; [discriminate | congruence].
Qed.

Lemma ne_refl a : Py.ne a a = false.
Proof. destruct a as [x |]; simpl; [rewrite String.eqb_refl |]; reflexivity. Qed.

(** Up to the upsert: with a matching state, a stored verifier and a
    provider that completes the exchange, the view makes its two calls and
    then reconciles. *)
Lemma callback_reaches_reconcile E current_user args w cv tid :
  Py.truthy (args !! "error") = false ->
  args !! "state" = session w !! "state" ->
  Py.truthy_value (session w !! "code_verifier") = Some cv ->
  provider_identifies E args w cv tid ->
  exists access_token username token_data data user_data,
    oauth20pkcecallback E current_user args w
    = reconcile E current_user (args !! "state") cv access_token username
                (JObj token_data) (JObj data) (JObj user_data)
                (after_calls w [token_call E (args !! "code") cv; identity_call access_token])
    /\ readable_refresh_token token_data
    /\ data !! "id" = Some (JStr tid).
Proof.
  intros Herr Hstate Hcv
    (token_reply & token_data & access_token & identity_reply & user_data & data & username
     & Hr1 & Hs1 & Hj1 & Hat & Hrt & Hr2 & Hs2 & Hj2 & Hdata & Hname & Hid).
  exists access_token, username, token_data, data, user_data.
  split; [| split; assumption].
  unfold oauth20pkcecallback. rewrite Herr.
  unfold bind at 1, Eff.session_get at 1. cbv beta iota.
  rewrite <- Hstate, ne_refl.
  unfold bind at 1, Eff.session_get at 1. cbv beta iota.
  rewrite Hcv.
  unfold bind at 1, Eff.http_request at 1. cbv beta iota zeta.
  rewrite Hr1, Hs1. cbn [Z.eqb Pos.eqb negb].
  unfold bind at 1, Eff.reply_json at 1. rewrite Hj1. unfold ret at 1.
  unfold bind at 1, Json.subscript at 1. rewrite Hat. unfold ret at 1.
  unfold bind at 1, Json.as_text at 1, ret at 1.
  unfold bind at 1, Eff.http_request at 1. cbv beta iota zeta.
  cbn [http_log session committed pending flashes yielded drawn].
  rewrite length_app. cbn [length]. rewrite Nat.add_1_r.
  rewrite Hr2, Hs2. cbn [Z.eqb Pos.eqb negb].
  unfold bind at 1, Eff.reply_json at 1. rewrite Hj2. unfold ret at 1.
  unfold bind at 1, Json.subscript at 1. rewrite Hdata. unfold ret at 1.
  unfold bind at 1, Json.subscript at 1. rewrite Hname. unfold ret at 1.
  unfold bind at 1, Json.as_text at 1, ret at 1.
  unfold after_calls. rewrite <- app_assoc. reflexivity.
Qed.

Lemma get_refresh_token_readable token_data default w :
  readable_refresh_token token_data ->
  exists rt, get_refresh_token (JObj token_data) default w = (Ok rt, w).
Proof.
  unfold get_refresh_token. intros [H | [H | [rt H]]]; rewrite H; eexists; reflexivity.
Qed.

Lemma col_eq_true a b : Store.col_eq a b = true -> a = b /\ a <> None.
Proof.
  destruct a as [x |], b as [y |]; simpl; try discriminate.
  intros H. apply String.eqb_eq in H. subst. split; [reflexivity | discriminate].
Qed.

Lemma col_eq_false a x : Store.col_eq a (Some x) = false -> a <> Some x.
Proof.
  destruct a as [y |]; simpl; [| discriminate].
  intros H Heq. inversion Heq; subst. rewrite String.eqb_refl in H. discriminate.
Qed.

(** Giving an existing row a provider id that another row holds violates
    the uniqueness of [twitter_id], and no constraint checked before it. *)
Lemma refresh_conflict_violation t i existing other r' tid :
  Store.violation t = None ->
  pkce_rows t !! i = Some existing ->
  In other (pkce_rows t) ->
  OAuth20PKCE.twitter_id other = Some tid ->
  OAuth20PKCE.email other <> OAuth20PKCE.email existing ->
  OAuth20PKCE.email r' = OAuth20PKCE.email existing ->
  OAuth20PKCE.twitter_id r' = Some tid ->
  OAuth20PKCE.code_verifier r' <> None ->
  Store.violation (set_pkce_rows t (<[i := r']> (pkce_rows t)))
  = Some "UNIQUE constraint failed: OAuth20_PKCE.twitter_id".
Proof.
  intros Hvalid Hi Hother Htid Hne Hemail Hid Hcv.
  destruct (violation_None _ Hvalid) as [H10a [Hpkce _]].
  destruct (pkce_violation_None _ Hpkce) as [Hn1 [Hn2 [Hd1 _]]].
  unfold Store.violation, set_pkce_rows. cbn [oauth10a_rows pkce_rows user_rows].
  rewrite H10a. unfold Store.pkce_violation.
  assert (Hlt : (i < length (pkce_rows t))%nat) by (apply lookup_lt_Some in Hi; exact Hi).
  assert (Hmap : map OAuth20PKCE.email (<[i := r']> (pkce_rows t))
                 = map OAuth20PKCE.email (pkce_rows t)).
  { apply (map_insert_same _ _ i existing r' Hi Hemail). }
  rewrite (has_null_map OAuth20PKCE.email), Hmap, <- has_null_map, Hn1.
  rewrite (non_null_map OAuth20PKCE.email), Hmap, <- non_null_map, Hd1.
  rewrite insert_take_drop by exact Hlt.
  assert (Hsplit : pkce_rows t = take i (pkce_rows t) ++ existing :: drop (S i) (pkce_rows t)).
  { symmetry. apply take_drop_middle. exact Hi. }
  assert (Hnull : Store.has_null OAuth20PKCE.code_verifier
                    (take i (pkce_rows t) ++ r' :: drop (S i) (pkce_rows t)) = false).
  { apply has_null_false. intros r Hr.
    apply in_app_or in Hr. destruct Hr as [Hr | [<- | Hr]]; [| exact Hcv |].
    - apply (proj1 (has_null_false _ _) Hn2). rewrite Hsplit.
      apply in_or_app. left. exact Hr.
    - apply (proj1 (has_null_false _ _) Hn2). rewrite Hsplit.
      apply in_or_app. right. right. exact Hr. }
  rewrite Hnull.
  assert (Hdup : Store.has_dup (Store.non_null OAuth20PKCE.twitter_id
                    (take i (pkce_rows t) ++ r' :: drop (S i) (pkce_rows t))) = true).
  { rewrite non_null_app.
    change (Store.non_null OAuth20PKCE.twitter_id (r' :: drop (S i) (pkce_rows t)))
      with (match OAuth20PKCE.twitter_id r' with
            | Some y => y :: Store.non_null OAuth20PKCE.twitter_id (drop (S i) (pkce_rows t))
            | None => Store.non_null OAuth20PKCE.twitter_id (drop (S i) (pkce_rows t))
            end).
    rewrite Hid. apply has_dup_middle.
    rewrite Hsplit in Hother. apply in_app_or in Hother.
    destruct Hother as [Hin | [Heq | Hin]].
    - left. apply (non_null_In _ _ other); assumption.
    - exfalso. apply Hne. rewrite Heq. reflexivity.
    - right. apply (non_null_In _ _ other); assumption. }
  rewrite Hdup. reflexivity.
Qed.

(** Inserting a first credential for owner [e] with a provider id that
    another row holds violates the uniqueness of [twitter_id]. *)
Lemma insert_conflict_violation t other r' e tid :
  Store.violation t = None ->
  Store.first (fun r => Store.col_eq (OAuth20PKCE.email r) (Some e)) (pkce_rows t) = None ->
  In other (pkce_rows t) ->
  OAuth20PKCE.twitter_id other = Some tid ->
  OAuth20PKCE.email r' = Some e ->
  OAuth20PKCE.twitter_id r' = Some tid ->
  OAuth20PKCE.code_verifier r' <> None ->
  Store.violation (set_pkce_rows t (pkce_rows t ++ [r']))
  = Some "UNIQUE constraint failed: OAuth20_PKCE.twitter_id".
Proof.
  intros Hvalid Hfirst Hother Htid Hemail Hid Hcv.
  destruct (violation_None _ Hvalid) as [H10a [Hpkce _]].
  destruct (pkce_violation_None _ Hpkce) as [Hn1 [Hn2 [Hd1 _]]].
  unfold Store.violation, set_pkce_rows. cbn [oauth10a_rows pkce_rows user_rows].
  rewrite H10a. unfold Store.pkce_violation.
  rewrite !has_null_app, Hn1, Hn2. unfold Store.has_null at 1 2. cbn [existsb].
  rewrite Hemail. destruct (OAuth20PKCE.code_verifier r') eqn:Hv; [| congruence].
  cbn [orb].
  rewrite !non_null_app.
  change (Store.non_null OAuth20PKCE.email [r'])
    with (match OAuth20PKCE.email r' with Some y => [y] | None => [] end).
  change (Store.non_null OAuth20PKCE.twitter_id [r'])
    with (match OAuth20PKCE.twitter_id r' with Some y => [y] | None => [] end).
  rewrite Hemail, Hid, !has_dup_snoc, Hd1.
  assert (Hfresh : existsb (String.eqb e) (Store.non_null OAuth20PKCE.email (pkce_rows t)) = false).
  { apply Bool.not_true_is_false. intros Hin. apply existsb_eqb_In, In_non_null in Hin.
    destruct Hin as [r [Hr He]].
    pose proof (first_None _ _ Hfirst r Hr) as Hp. cbv beta in Hp.
    apply col_eq_false in Hp. contradiction. }
  rewrite Hfresh. cbn [orb].
  assert (Hheld : existsb (String.eqb tid) (Store.non_null OAuth20PKCE.twitter_id (pkce_rows t)) = true).
  { apply existsb_eqb_In. apply (non_null_In _ _ other); assumption. }
  rewrite Hheld, Bool.orb_true_r. reflexivity.
Qed.

(** Without a logged-in user the inserted row has no e-mail. *)
Lemma anonymous_insert_violation t r' :
  Store.violation t = None ->
  OAuth20PKCE.email r' = None ->
  Store.violation (set_pkce_rows t (pkce_rows t ++ [r']))
  = Some "NOT NULL constraint failed: OAuth20_PKCE.email".
Proof.
  intros Hvalid Hemail.
  destruct (violation_None _ Hvalid) as [H10a _].
  unfold Store.violation, set_pkce_rows. cbn [oauth10a_rows pkce_rows user_rows].
  rewrite H10a. unfold Store.pkce_violation.
  rewrite has_null_app. unfold Store.has_null at 2. cbn [existsb]. rewrite Hemail.
  rewrite Bool.orb_true_r. reflexivity.
Qed.

(** The upsert itself, on a provider id held by another owner. *)
Lemma reconcile_conflict E current_user state cv access_token username
      token_data data user_data w tid other :
  readable_refresh_token token_data ->
  data !! "id" = Some (JStr tid) ->
  pending w = None ->
  Store.violation (committed w) = None ->
  In other (pkce_rows (committed w)) ->
  OAuth20PKCE.twitter_id other = Some tid ->
  OAuth20PKCE.email other <> current_user ->
  let out := reconcile E current_user state cv access_token username
                       (JObj token_data) (JObj data) (JObj user_data) w in
  rejected_with_integrity_error current_user w out
  /\ committed (snd out) = committed w
  /\ http_log (snd out) = http_log w.
Proof.
  intros Hrt Hid Hclean Hvalid Hother Htid Hne out.
  enough (Hout : exists r w', out = (r, w')
                   /\ rejected_with_integrity_error current_user w (r, w')
                   /\ committed w' = committed w /\ http_log w' = http_log w).
  { destruct Hout as (r & w' & -> & H1 & H2 & H3). auto. }
  subst out.
  unfold reconcile. unfold bind at 1, Eff.query at 1. rewrite Hclean. cbv beta iota.
  destruct (Store.first _ (pkce_rows (committed w))) as [[i existing] |] eqn:Hfirst.
  - destruct (first_Some _ _ _ _ Hfirst) as [Hi [Hp _]]. cbv beta in Hp.
    apply col_eq_true in Hp. destruct Hp as [Hemail _].
    unfold bind at 1.
    destruct (get_refresh_token_readable token_data (OAuth20PKCE.refresh_token existing) w Hrt)
      as [rt ->].
    unfold bind at 1, Json.subscript at 1. rewrite Hid. unfold ret at 1.
    unfold bind at 1, Json.as_text at 1, ret at 1.
    unfold bind at 1, Eff.stage at 1. cbv beta iota.
    unfold bind at 1, Eff.commit at 1. cbv beta iota.
    cbn [pending committed].
    rewrite (refresh_conflict_violation (committed w) i existing other _ tid
               Hvalid Hi Hother Htid);
      [| congruence | reflexivity | reflexivity | discriminate].
    eexists. eexists. split; [reflexivity |].
    split; [left; reflexivity | split; reflexivity].
  - unfold bind at 1.
    destruct (get_refresh_token_readable token_data None w Hrt) as [rt ->].
    unfold bind at 1, Json.subscript at 1. rewrite Hid. unfold ret at 1.
    unfold bind at 1, Json.as_text at 1, ret at 1.
    unfold oauth10a.except_integrity, try_except.
    unfold bind at 1, Eff.stage at 1. cbv beta iota.
    unfold bind at 1, Eff.commit at 1. cbv beta iota.
    cbn [pending committed].
    destruct current_user as [e |].
    + rewrite (insert_conflict_violation (committed w) other _ e tid
                 Hvalid Hfirst Hother Htid); [| reflexivity | reflexivity | discriminate].
      unfold bind, Eff.rollback, Eff.flash, ret.
      change (Py.contains "UNIQUE constraint failed: OAuth20_PKCE.twitter_id"
                          "UNIQUE constraint failed: OAuth20_PKCE.twitter_id")
        with true.
      cbv beta iota.
      eexists. eexists. split; [reflexivity |].
      split; [right; repeat split; reflexivity | split; reflexivity].
    + rewrite (anonymous_insert_violation (committed w) _ Hvalid); [| reflexivity].
      unfold bind, Eff.rollback, Eff.flash, ret.
      change (Py.contains "UNIQUE constraint failed: OAuth20_PKCE.twitter_id"
                          "NOT NULL constraint failed: OAuth20_PKCE.email")
        with false.
      cbv beta iota.
      eexists. eexists. split; [reflexivity |].
      split; [right; repeat split; reflexivity | split; reflexivity].
Qed.

(** C7. A PKCE callback that reaches the upsert with a provider id held by
    a different owner is rejected with an integrity error: the commit of
    the refreshed row raises [IntegrityError], or the insert is rolled back
    and answered by a redirect with an error flash. The committed tables
    are exactly those before the call, and the two provider calls of the
    exchange are the only outbound calls: nothing is archived or retried. *)
Theorem conflicting_provider_id_rejected E current_user args w cv tid other :
  Py.truthy (args !! "error") = false ->
  args !! "state" = session w !! "state" ->
  Py.truthy_value (session w !! "code_verifier") = Some cv ->
  provider_identifies E args w cv tid ->
  pending w = None ->
  Store.violation (committed w) = None ->
  In other (pkce_rows (committed w)) ->
  OAuth20PKCE.twitter_id other = Some tid ->
  OAuth20PKCE.email other <> current_user ->
  let out := oauth20pkcecallback E current_user args w in
  rejected_with_integrity_error current_user w out
  /\ committed (snd out) = committed w
  /\ length (http_log (snd out)) = (2 + length (http_log w))%nat.
Proof.
  intros Herr Hstate Hcv Hprovider Hclean Hvalid Hother Htid Hne out. subst out.
  destruct (callback_reaches_reconcile E current_user args w cv tid Herr Hstate Hcv Hprovider)
    as (access_token & username & token_data & data & user_data & -> & Hrt & Hid).
  destruct (reconcile_conflict E current_user (args !! "state") cv access_token username
              token_data data user_data
              (after_calls w [token_call E (args !! "code") cv; identity_call access_token])
              tid other Hrt Hid Hclean Hvalid Hother Htid Hne)
    as [Hrej [Hdb Hlog]].
  split; [exact Hrej | split; [exact Hdb |]].
  rewrite Hlog. unfold after_calls. cbn [http_log]. rewrite length_app. cbn [length]. lia.
Qed.

(** The rejection at concrete inputs: owner u authorises as the remote
    account 2002, which owner v holds; first with no stored credential of
    u, then with one. *)
Lemma conflicting_provider_id_rejected_witness :
  (let w := fresh matching_state (Tables [] [pkce_v_B] []) in
   let out := oauth20pkcecallback provider_env (Some "u@example.org") code_with_state w in
   rejected_with_integrity_error (Some "u@example.org") w out
   /\ committed (snd out) = committed w
   /\ length (http_log (snd out)) = (2 + length (http_log w))%nat)
  /\ (let w := fresh matching_state (Tables [] [pkce_u_A; pkce_v_B] []) in
      let out := oauth20pkcecallback provider_env (Some "u@example.org") code_with_state w in
      rejected_with_integrity_error (Some "u@example.org") w out
      /\ committed (snd out) = committed w
      /\ length (http_log (snd out)) = (2 + length (http_log w))%nat).
Proof.
  assert (Hprovider : forall db,
            provider_identifies provider_env code_with_state (fresh matching_state db)
                                "stored-verifier" "2002").
  { intros db. unfold provider_identifies.
    exists (HttpReply 200 "OK" "token-body"),
           (<["refresh_token" := JStr "refresh-1"]> {["access_token" := JStr "access-1"]}),
           "access-1",
           (HttpReply 200 "OK" "identity-body"),
           {["data" := JObj (<["id" := JStr "2002"]> {["username" := JStr "other_handle"]})]},
           (<["id" := JStr "2002"]> {["username" := JStr "other_handle"]}),
           "other_handle".
    repeat split; try reflexivity.
    right. right. exists "refresh-1". reflexivity. }
  split.
  - apply (conflicting_provider_id_rejected provider_env (Some "u@example.org")
             code_with_state (fresh matching_state (Tables [] [pkce_v_B] []))
             "stored-verifier" "2002" pkce_v_B);
      try reflexivity; [apply Hprovider | left; reflexivity | discriminate].
  - apply (conflicting_provider_id_rejected provider_env (Some "u@example.org")
             code_with_state (fresh matching_state (Tables [] [pkce_u_A; pkce_v_B] []))
             "stored-verifier" "2002" pkce_v_B);
      try reflexivity; [apply Hprovider | right; left; reflexivity | discriminate].
Defined.

(** *** The begin operation *)

(** Every position of the alphabet of the code holds an unreserved
    character, and there are sixty-six of them. *)
Lemma alphabet_unreserved i :
  (i < 66)%nat -> exists c, String.get i Pkce.alphabet = Some c /\ unreserved c = true.
Proof.
  intros Hi.
  do 66 (destruct i as [| i]; [eexists; split; reflexivity |]). lia.
Qed.

Lemma choice_alphabet E w :
  exists c, Eff.choice E Pkce.alphabet w = (Ok c, after_draws w 1) /\ unreserved c = true.
Proof.
  unfold Eff.choice, Pkce.alphabet. cbv iota.
  fold Pkce.alphabet. unfold bind, Eff.randbelow.
  change (String.length Pkce.alphabet) with 66%nat.
  destruct (alphabet_unreserved (entropy E (drawn w) mod 66)%nat) as [c [Hget Hc]].
  { apply Nat.mod_upper_bound. discriminate. }
  rewrite Hget. exists c. split; [reflexivity | exact Hc].
Qed.

Lemma after_draws_add w n m : after_draws (after_draws w n) m = after_draws w (m + n).
Proof. unfold after_draws; cbn. f_equal. lia. Qed.

Lemma choices_unreserved E n :
  forall w, exists cs,
    Pkce.choices E n w = (Ok cs, after_draws w n)
    /\ length cs = n /\ Forall (fun c => unreserved c = true) cs.
Proof.
  induction n as [| n IH]; intros w.
  - exists []. cbn. destruct w; auto.
  - cbn [Pkce.choices]. unfold bind at 1.
    destruct (choice_alphabet E w) as [c [-> Hc]].
    unfold bind at 1.
    destruct (IH (after_draws w 1)) as [cs [-> [Hlen Hall]]].
    exists (c :: cs). unfold ret. rewrite after_draws_add.
    replace (n + 1)%nat with (S n) by lia.
    repeat split; [cbn; congruence | constructor; assumption].
Qed.

Lemma length_string_of_list cs : String.length (string_of_list_ascii cs) = length cs.
Proof. induction cs as [| c cs IH]; cbn; congruence. Qed.

Lemma token_hex_runs E n :
  forall w, exists s, Eff.token_hex E n w = (Ok s, after_draws w n).
Proof.
  induction n as [| n IH]; intros w.
  - exists "". cbn. destruct w; reflexivity.
  - cbn [Eff.token_hex]. unfold bind at 1, Eff.randbelow at 1. cbv beta iota.
    change (World (http_log w) (session w) (committed w) (pending w) (flashes w)
                  (yielded w) (S (drawn w))) with (after_draws w 1).
    unfold bind at 1.
    destruct (IH (after_draws w 1)) as [s ->].
    eexists. unfold ret. rewrite after_draws_add.
    replace (n + 1)%nat with (S n) by lia. reflexivity.
Qed.

(** The challenge of any verifier is the unpadded base64url encoding of its
    SHA-256 digest: forty-three characters, completed by a single [=] in
    the padded encoding. *)
Lemma code_challenge_unpadded verifier :
  Pkce.code_challenge verifier
    = Py.decode (base64url_unpadded (Sha256.sha256 (Py.encode verifier)))
  /\ Py.decode (Base64.urlsafe_b64encode (Sha256.sha256 (Py.encode verifier)))
     = Pkce.code_challenge verifier +:+ "="
  /\ String.length (Pkce.code_challenge verifier) = 43%nat.
Proof.
  unfold Pkce.code_challenge.
  generalize (Py.encode verifier) as msg. intros msg.
  destruct (CodecFacts.sha256_bytes msg) as [Hbytes Hlen].
  rewrite (CodecFacts.strip_is_unpadded _ Hbytes).
  rewrite (CodecFacts.urlsafe_b64encode_unpadded _ Hbytes).
  revert Hlen. generalize (Sha256.sha256 msg) as d. intros d Hlen.
  do 32 (destruct d as [| ? d]; [discriminate Hlen |]).
  destruct d; [| discriminate Hlen].
  split; [reflexivity |]. split.
  - cbn [base64url_unpadded padding repeat app]. unfold Py.decode.
    cbn [map string_of_list_ascii String.append]. reflexivity.
  - unfold Py.decode. rewrite length_string_of_list, length_map. reflexivity.
Qed.

(** C6. Every run of [oauth20pkce_index] draws a verifier of exactly 128
    characters, all of them unreserved; stores it and the state in the
    session; and puts into the authorization URL the challenge of that
    verifier, which is the base64url encoding without padding of the
    SHA-256 digest of the verifier. *)
Theorem begin_generates_verifier_and_challenge E w :
  exists verifier state,
    oauth20pkce_index E w
    = (Ok (RenderTemplate "oauth20pkceindex.html"
             [("authorization_url",
               JStr (Pkce.authorization_url E state (Pkce.code_challenge verifier)))]),
       World (http_log w)
             (<["state" := state]> (<["code_verifier" := verifier]> (session w)))
             (committed w) (pending w) (flashes w) (yielded w) (256 + drawn w))
    /\ String.length verifier = 128%nat
    /\ Forall (fun c => unreserved c = true) (list_ascii_of_string verifier)
    /\ Pkce.code_challenge verifier
       = Py.decode (base64url_unpadded (Sha256.sha256 (Py.encode verifier)))
    /\ Py.decode (Base64.urlsafe_b64encode (Sha256.sha256 (Py.encode verifier)))
       = Pkce.code_challenge verifier +:+ "="
    /\ String.length (Pkce.code_challenge verifier) = 43%nat.
Proof.
  destruct (choices_unreserved E 128 w) as [cs [Hrun [Hlen Hall]]].
  destruct (token_hex_runs E 128 (after_draws w 128)) as [state Hstate].
  exists (Py.join_chars cs), state.
  split.
  - unfold oauth20pkce_index, Pkce.code_verifier.
    unfold bind at 1. unfold bind at 1. rewrite Hrun. unfold ret at 1.
    unfold bind at 1. rewrite Hstate.
    unfold bind, Eff.session_set, ret, after_draws. cbn [http_log session committed pending flashes yielded drawn].
    reflexivity.
  - split; [unfold Py.join_chars; rewrite length_string_of_list; exact Hlen |].
    split; [unfold Py.join_chars; rewrite list_ascii_of_string_of_list_ascii; exact Hall |].
    apply code_challenge_unpadded.
Qed.

(** A complete round trip against the stub provider: the credential is
    stored with the access token that the provider issued. *)
Example callback_stores_issued_token :
  let out := oauth20pkcecallback provider_env (Some "u@example.org") code_with_state
               (fresh matching_state no_tables) in
  fst out = Ok (success_page (Some "u@example.org")
                  (JObj {["data" := JObj (<["id" := JStr "2002"]>
                                            {["username" := JStr "other_handle"]})]}))
  /\ pkce_rows (committed (snd out)) =
       [OAuth20PKCE.Build (Some "u@example.org") (Some "2002") (Some "other_handle")
          (Some 1000) (Some "access-1") (Some "refresh-1") (Some "returned-state")
          (Some "stored-verifier") (Some 1000)]
  /\ flashes (snd out) = [("Authorization successful", "success")]
  /\ map url (http_log (snd out)) =
       ["https://api.twitter.com/2/oauth2/token"; "https://api.twitter.com/2/users/me"].
Proof. vm_compute. repeat split; reflexivity. Qed.

End PkceFacts.

(** ** The 1.0a flow *)

Module OAuth10aFacts.
Import oauth10a Scenario.

Lemma truthy_value_None o : Py.truthy o = false -> Py.truthy_value o = None.
Proof.
  destruct o as [s |]; simpl; [| reflexivity].
  destruct (String.eqb s ""); [reflexivity | discriminate].
Qed.

Lemma truthy_value_Some o : Py.truthy o = true -> exists s, Py.truthy_value o = Some s.
Proof.
  destruct o as [s |]; simpl; [| discriminate].
  destruct (String.eqb s ""); [discriminate | eauto].
Qed.

(** C8. When the callback parameters or the session call for one of the
    three early failures, the view renders the page of that failure, makes
    no outbound call (so no access-token exchange), and neither writes nor
    stages any row. *)
Theorem early_failures_precede_exchange E current_user args w f :
  expected_failure args (session w) = Some f ->
  let out := oauth10acallback E current_user args w in
  fst out = Ok (failure_page f)
  /\ http_log (snd out) = http_log w
  /\ committed (snd out) = committed w
  /\ pending (snd out) = pending w.
Proof.
  intros Hf out.
enough (Hout : exists sess,
          out = (Ok (failure_page f),
                 World (http_log w) sess (committed w) (pending w)
                       (flashes w) (yielded w) (drawn w))).
{ destruct Hout as [sess ->]. repeat split; reflexivity. }
subst out. revert Hf. unfold expected_failure, oauth10acallback.
destruct (Py.truthy (args !! "denied")) eqn:Hdenied.
- intros Hf. inversion Hf; subst f.
  destruct (truthy_value_Some _ Hdenied) as [d ->].
  unfold bind, Eff.session_get. cbv beta iota.
  destruct (session w !! d); cbv beta iota; unfold Eff.session_del, ret.
  + eexists. reflexivity.
  + exists (session w). destruct w; reflexivity.
- rewrite (truthy_value_None _ Hdenied).
  destruct (Py.truthy (args !! "oauth_token")) eqn:Htoken; cbn [negb orb].
  + destruct (truthy_value_Some _ Htoken) as [t ->].
    destruct (Py.truthy (args !! "oauth_verifier")) eqn:Hverifier; cbn [negb orb].
    * destruct (truthy_value_Some _ Hverifier) as [v ->].
      destruct (Py.truthy (session w !! "oauth_token_secret")) eqn:Hsecret;
        cbn [negb]; [discriminate |].
      intros Hf. inversion Hf; subst f.
      unfold bind at 1, Eff.session_get at 1. cbv beta iota.
      rewrite (truthy_value_None _ Hsecret). unfold ret.
      exists (session w). destruct w; reflexivity.
    * intros Hf. inversion Hf; subst f.
      rewrite (truthy_value_None _ Hverifier). unfold ret.
      exists (session w). destruct w; reflexivity.
  + intros Hf. inversion Hf; subst f.
    rewrite (truthy_value_None _ Htoken). unfold ret.
    exists (session w). destruct w; reflexivity.
Qed.

Lemma early_failures_precede_exchange_witness :
  (let out := oauth10acallback (env_with always_ok 0) (Some "u@example.org")
                denied_callback (fresh ∅ no_tables) in
   fst out = Ok (failure_page Denied) /\ http_log (snd out) = []
   /\ committed (snd out) = no_tables /\ pending (snd out) = None)
  /\ (let out := oauth10acallback (env_with always_ok 0) (Some "u@example.org")
                   missing_verifier_callback (fresh ∅ no_tables) in
      fst out = Ok (failure_page MissingParameters) /\ http_log (snd out) = []
      /\ committed (snd out) = no_tables /\ pending (snd out) = None)
  /\ (let out := oauth10acallback (env_with always_ok 0) (Some "u@example.org")
                   complete_callback (fresh ∅ no_tables) in
      fst out = Ok (failure_page MissingSessionSecret) /\ http_log (snd out) = []
      /\ committed (snd out) = no_tables /\ pending (snd out) = None).
Proof.
  split; [| split].
  - apply (early_failures_precede_exchange (env_with always_ok 0) (Some "u@example.org")
             denied_callback (fresh ∅ no_tables) Denied). reflexivity.
  - apply (early_failures_precede_exchange (env_with always_ok 0) (Some "u@example.org")
             missing_verifier_callback (fresh ∅ no_tables) MissingParameters). reflexivity.
  - apply (early_failures_precede_exchange (env_with always_ok 0) (Some "u@example.org")
             complete_callback (fresh ∅ no_tables) MissingSessionSecret). reflexivity.
Defined.

(** C9. [refresh_oauth_token] returns its argument, and the wrapper
    compares the last refresh of the credential with an aware timestamp,
    thirty days before the clock. On a credential whose timestamp carries
    a time zone it calls the refresh function exactly when the credential
    is stale, that is when its last refresh lies more than thirty days
    before the clock, and the view runs on the credential that was passed
    in. On a credential read from the database, whose timestamp is naive,
    the comparison raises [TypeError] whatever the timestamp is, and
    neither the refresh function nor the view is called; the view is
    reached only without a credential or without a timestamp. *)
Theorem stored_credential_stops_refresh_check :
  (forall c, refresh_oauth_token c = c)
  /\ (forall A E refresh (view_func : option OAuth10a.t -> M A) oauth_instance,
        wrapped E refresh view_func Py.Aware oauth_instance
        = view_func (if stale (clock E) oauth_instance
                     then option_map refresh oauth_instance
                     else oauth_instance))
  /\ (forall now oauth_instance,
        stale now oauth_instance = true <->
        exists c last, oauth_instance = Some c
                       /\ OAuth10a.last_token_refresh_date c = Some last
                       /\ now - last > 30 * 86400 * 1000000)
  /\ (forall A E (view_func : option OAuth10a.t -> M A) oauth_instance,
        needs_token_refresh E view_func Py.Aware oauth_instance = view_func oauth_instance)
  /\ (forall A E refresh (view_func : option OAuth10a.t -> M A) oauth_instance w,
        wrapped E refresh view_func Py.Naive oauth_instance w
        = match oauth_instance with
          | Some c =>
              match OAuth10a.last_token_refresh_date c with
              | Some _ =>
                  (Raise (TypeError "can't compare offset-naive and offset-aware datetimes"), w)
              | None => view_func oauth_instance w
              end
          | None => view_func oauth_instance w
          end)
  /\ (let w := fresh ∅ (Tables [cred_u_A] [] []) in
      stale 1000 (Some cred_u_A) = false
      /\ stale (100 + 31 * 86400 * 1000000) (Some cred_u_A) = true
      /\ needs_token_refresh (env_with always_ok 1000) ret Py.Naive (Some cred_u_A) w
         = (Raise (TypeError "can't compare offset-naive and offset-aware datetimes"), w)
      /\ needs_token_refresh (env_with always_ok (100 + 31 * 86400 * 1000000)) ret
                             Py.Naive (Some cred_u_A) w
         = (Raise (TypeError "can't compare offset-naive and offset-aware datetimes"), w)
      /\ needs_token_refresh (env_with always_ok 1000) ret Py.Aware (Some cred_u_A) w
         = (Ok (Some cred_u_A), w)).
Proof.
  assert (Hwrapped : forall A E refresh (view_func : option OAuth10a.t -> M A) oauth_instance,
             wrapped E refresh view_func Py.Aware oauth_instance
             = view_func (if stale (clock E) oauth_instance
                          then option_map refresh oauth_instance
                          else oauth_instance)).
  { intros A E refresh view_func [inst |]; simpl; [| reflexivity].
    destruct (OAuth10a.last_token_refresh_date inst) as [last |]; [| reflexivity].
    unfold timedelta_days.
    destruct (last <? clock E - 30 * 86400 * 1000000) eqn:H1;
      destruct (30 * 86400 * 1000000 <? clock E - last) eqn:H2; try reflexivity;
      exfalso; rewrite ?Z.ltb_lt, ?Z.ltb_ge in *; lia. }
  split; [reflexivity |].
  split; [exact Hwrapped |].
  split.
  { intros now [inst |]; simpl.
    + destruct (OAuth10a.last_token_refresh_date inst) as [last |] eqn:Hlast.
      * rewrite Z.ltb_lt. split.
        -- intros H. exists inst, last. repeat split; [exact Hlast | lia].
        -- intros [c [l [Hc [Hl H]]]]. inversion Hc; subst c.
           rewrite Hlast in Hl. inversion Hl; subst l. lia.
      * split; [discriminate |].
        intros [c [l [Hc [Hl _]]]]. inversion Hc; subst c. congruence.
    + split; [discriminate |]. intros [c [l [Hc _]]]. discriminate. }
  split.
  { intros A E view_func oauth_instance. unfold needs_token_refresh.
    rewrite Hwrapped. unfold refresh_oauth_token.
    destruct (stale (clock E) oauth_instance); [| reflexivity].
    destruct oauth_instance; reflexivity. }
  split.
  { intros A E refresh view_func [c |] w; cbn [wrapped]; [| reflexivity].
    unfold wrapped. destruct (OAuth10a.last_token_refresh_date c); reflexivity. }
  vm_compute. repeat split; reflexivity.
Qed.

(** A complete 1.0a callback against a stub provider: past the three
    guards the view makes the exchange and the verification call, and
    stores the credential of the logged-in user. *)
Example callback_stores_credential :
  let out := oauth10acallback provider10a_env (Some "u@example.org") complete_callback
               (fresh request_secret (Tables [] [] [user_u])) in
  expected_failure complete_callback request_secret = None
  /\ match fst out with
     | Ok (RenderTemplate template _) => template = "oauth10acallback.html"
     | _ => False
     end
  /\ stored_oauth10a (snd out) =
       [OAuth10a.Build (Some "u@example.org") "1001" "old_handle" (Some 1000) (Some 1000)
          "verifier" "real-token" "real-secret" None]
  /\ map url (http_log (snd out)) =
       ["https://api.twitter.com/oauth/access_token";
        "https://api.twitter.com/1.1/account/verify_credentials.json"].
Proof. vm_compute. repeat split; reflexivity. Qed.

End OAuth10aFacts.

(** ** The write-only secret *)

Module CredentialFacts.
Import Credential.

(** Reading the property raises [AttributeError] for every credential. *)
Lemma secret_is_not_readable (self : OAuth10a.t) :
  exists msg, oauth_token_secret_hash self = inl (AttributeError msg).
Proof. eexists. reflexivity. Qed.

(** Assigning a secret stores its hash, and checking a candidate secret
    afterwards is the library's check of the candidate against that hash.
    Whether the check accepts only the assigned secret is a property of
    the library's hash, not of this code. *)
Lemma check_after_assignment generate_password_hash check_password_hash salt self secret s :
  let self' := set_oauth_token_secret_hash generate_password_hash salt self secret in
  OAuth10a.oauth_token_secret self' = generate_password_hash salt secret
  /\ check_token_secret check_password_hash self' s
     = check_password_hash (generate_password_hash salt secret) s.
Proof. split; reflexivity. Qed.

End CredentialFacts.

(** ** The pipeline: edge behaviour *)

Module PipelineEdges.
Import Report Scenario.

(** The generator on a remote side that answers every call with 200. *)
Lemma generator_complete_log_witness :
  exists js ys,
    oauth10areportimpersonators_loop (env_with always_ok 0) session_auth targets []
                                     (fresh ∅ no_tables)
    = (Ok ([] ++ js),
       World (http_log (fresh ∅ no_tables)
                ++ flat_map (fun t => [post session_auth (mute_url t);
                                       post session_auth (block_url t);
                                       post session_auth (report_url t)]) targets)
             ∅ no_tables None [] ([] ++ ys) 0)
    /\ length js = length targets /\ length ys = (3 * length targets)%nat.
Proof.
  apply (ReportFacts.generator_complete_log (env_with always_ok 0) session_auth targets).
  intros n t. exists ok_reply. split; [reflexivity | discriminate].
Defined.

(** What a guarded call (the mute and the block step of the generator)
    yields: the error message on a transport exception and on a 4xx or 5xx
    reply, the success message on every other reply, whatever its status. *)
Theorem guarded_call_outcome E c ok (err : exn -> string) w :
  exists s,
    try_except
      (do response <- Eff.http_request E c;
       run Eff.raise_for_status c response;
       Eff.yield_ ok)
      (fun e => Eff.yield_ (err e)) w
    = (Ok tt, World (http_log w ++ [c]) (session w) (committed w) (pending w)
                    (flashes w) (yielded w ++ [s]) (drawn w))
    /\ match remote E (length (http_log w)) c with
       | inl e => s = err e
       | inr r =>
           if (400 <=? status_code r) && (status_code r <? 600)
           then exists m, s = err (HTTPError m)
           else s = ok
       end.
Proof.
  unfold try_except, bind, Eff.http_request, Eff.raise_for_status.
  destruct (remote E (length (http_log w)) c) as [e | r]; cbv beta iota zeta.
  - eexists. split; reflexivity.
  - destruct (400 <=? status_code r) eqn:H400; destruct (status_code r <? 500) eqn:H500;
      destruct (500 <=? status_code r) eqn:H5; destruct (status_code r <? 600) eqn:H600;
      cbn [andb]; unfold raise, ret, Eff.yield_; cbv beta iota;
      try (eexists; split; [reflexivity | eauto; fail]);
      exfalso; rewrite ?Z.leb_le, ?Z.ltb_lt, ?Z.leb_gt, ?Z.ltb_ge in *; lia.
Qed.

(** The mute step of [impersonatingusers] always appends one message. *)
Lemma guarded_append E c acc ok (err : exn -> string) w :
  exists s,
    try_except
      (do response <- Eff.http_request E c;
       run Eff.raise_for_status c response;
       ret (acc ++ [JStr ok]))
      (fun e => ret (acc ++ [JStr (err e)])) w
    = (Ok (acc ++ [JStr s]), after_calls w [c]).
Proof.
  unfold try_except, bind, Eff.http_request, Eff.raise_for_status, after_calls.
  destruct (remote E (length (http_log w)) c) as [e | r]; cbv beta iota zeta.
  - eexists. reflexivity.
  - destruct ((400 <=? status_code r) && (status_code r <? 500)).
    + eexists. reflexivity.
    + destruct ((500 <=? status_code r) && (status_code r <? 600)); eexists; reflexivity.
Qed.

(** When every report call is answered with a decodable body,
    [impersonatingusers] makes the mute and the report call of every target
    in list order, whatever the mute calls answer, and returns three entries
    per target. *)
Theorem list_pipeline_complete_log E oauth tl :
  (forall n t, exists r,
      remote E n (post oauth (report_url t)) = inr r /\ json_loads E (text r) <> None) ->
  forall acc w, exists entries,
    impersonatingusers_loop E oauth tl acc w
    = (Ok (acc ++ entries),
       after_calls w (flat_map (fun t => [post oauth (mute_url t);
                                          post oauth (report_url t)]) tl))
    /\ length entries = (3 * length tl)%nat.
Proof.
  intros Hreport. induction tl as [| t rest IH]; intros acc w.
  - exists []. cbn. unfold after_calls. rewrite !app_nil_r. destruct w; auto.
  - cbn [impersonatingusers_loop].
    unfold bind at 1.
    destruct (guarded_append E (post oauth (mute_url t)) acc
                ("Muted user with screen name: " +:+ t)
                (fun e => "Error muting user " +:+ t +:+ ": " +:+ str_exn e) w)
      as [s1 ->].
    unfold bind at 1, Eff.http_request at 1.
    cbn [after_calls http_log session committed pending flashes yielded drawn].
    destruct (Hreport (length (http_log w ++ [post oauth (mute_url t)])) t) as [r [-> Hjson]].
    cbv zeta.
    unfold bind at 1, Eff.reply_json at 1.
    destruct (json_loads E (text r)) as [j |]; [| congruence].
    unfold ret at 1.
    match goal with
    | |- context [impersonatingusers_loop E oauth rest ?acc1 ?w1] =>
        destruct (IH acc1 w1) as [entries [-> Hlen]]
    end.
    destruct (negb (status_code r =? 200)).
    + eexists (_ :: _ :: j :: entries). split.
      * unfold after_calls. cbn [http_log session committed pending flashes yielded drawn flat_map].
        repeat rewrite <- app_assoc. reflexivity.
      * cbn [length]. lia.
    + eexists (_ :: _ :: j :: entries). split.
      * unfold after_calls. cbn [http_log session committed pending flashes yielded drawn flat_map].
        repeat rewrite <- app_assoc. reflexivity.
      * cbn [length]. lia.
Qed.

Lemma list_pipeline_complete_log_witness :
  exists entries,
    impersonatingusers_loop (env_with mute_forbidden 0) session_auth targets []
                            (fresh ∅ no_tables)
    = (Ok ([] ++ entries),
       after_calls (fresh ∅ no_tables)
         (flat_map (fun t => [post session_auth (mute_url t);
                              post session_auth (report_url t)]) targets))
    /\ length entries = (3 * length targets)%nat.
Proof.
  apply (list_pipeline_complete_log (env_with mute_forbidden 0) session_auth targets).
  intros n t. exists ok_reply. split; [| discriminate].
  unfold env_with, mute_forbidden, post, remote, url.
  destruct (String.eqb (report_url t) (mute_url "bob")) eqn:Heq; [| reflexivity].
  apply String.eqb_eq in Heq. discriminate Heq.
Defined.

(** A report call answered with a body that is not JSON stops the
    generator with [JSONDecodeError], after the three calls and the three
    messages of that target, even when the status is 200; the remaining
    targets are not processed. The third message is the success message
    exactly when the status is 200. *)
Theorem undecodable_report_body_aborts E oauth t rest acc w r :
  remote E (S (S (length (http_log w)))) (post oauth (report_url t)) = inr r ->
  json_loads E (text r) = None ->
  exists s1 s2 e,
    oauth10areportimpersonators_loop E oauth (t :: rest) acc w
    = (Raise (JSONDecodeError e),
       World (http_log w ++ [post oauth (mute_url t); post oauth (block_url t);
                             post oauth (report_url t)])
             (session w) (committed w) (pending w) (flashes w)
             (yielded w ++ [s1; s2;
                if status_code r =? 200
                then "Reported user with screen name: " +:+ t
                else "Request returned an error: " +:+ Py.str_of_Z (status_code r)
                     +:+ " " +:+ text r])
             (drawn w)).
Proof.
  intros Hremote Hjson.
  cbn [oauth10areportimpersonators_loop].
  unfold bind at 1.
  destruct (ReportFacts.guarded_call_yields E (post oauth (mute_url t))
              ("Muted user with screen name: " +:+ t)
              (fun e => "Error muting user " +:+ t +:+ ": " +:+ str_exn e) w)
    as [s1 [-> _]].
  unfold bind at 1.
  match goal with
  | |- context [try_except _ _ ?w1] =>
      destruct (ReportFacts.guarded_call_yields E (post oauth (block_url t))
                  ("Blocked user with screen name: " +:+ t)
                  (fun e => "Error blocking user " +:+ t +:+ ": " +:+ str_exn e) w1)
        as [s2 [-> _]]
  end.
  cbn [http_log session committed pending flashes yielded drawn].
  unfold bind at 1, Eff.http_request at 1.
  cbn [http_log session committed pending flashes yielded drawn].
  rewrite !length_app. cbn [length]. rewrite !Nat.add_1_r.
  rewrite Hremote. cbv zeta.
  unfold bind at 1.
  exists s1, s2. eexists.
  destruct (status_code r =? 200); cbn [negb]; unfold Eff.yield_ at 1;
    cbn [http_log session committed pending flashes yielded drawn];
    unfold bind at 1, Eff.reply_json at 1; rewrite Hjson; unfold raise;
    repeat rewrite <- app_assoc; reflexivity.
Qed.

Lemma undecodable_report_body_aborts_witness :
  exists s1 s2 e,
    oauth10areportimpersonators_loop
      (env_with (fun _ _ => inr (HttpReply 200 "OK" "<html>")) 0) session_auth
      ("alice" :: ["bob"]) [] (fresh ∅ no_tables)
    = (Raise (JSONDecodeError e),
       World ([] ++ [post session_auth (mute_url "alice"); post session_auth (block_url "alice");
                     post session_auth (report_url "alice")])
             ∅ no_tables None []
             ([] ++ [s1; s2; "Reported user with screen name: alice"]) 0).
Proof.
  apply (undecodable_report_body_aborts
           (env_with (fun _ _ => inr (HttpReply 200 "OK" "<html>")) 0) session_auth
           "alice" ["bob"] [] (fresh ∅ no_tables) (HttpReply 200 "OK" "<html>"));
    reflexivity.
Defined.

(** *** Reading the target list *)

Lemma without_cons c a s : without c (String a s) <-> a <> c /\ without c s.
Proof. unfold without. cbn. intuition congruence. Qed.

Lemma split_without c s : without c s -> Py.split c s = [s].
Proof.
  induction s as [| a s IH]; intros H; [reflexivity |].
  apply without_cons in H. destruct H as [Ha Hs].
  cbn [Py.split]. rewrite (IH Hs).
  destruct (Ascii.eqb a c) eqn:Heq; [| reflexivity].
  apply Ascii.eqb_eq in Heq. contradiction.
Qed.

Lemma split_field c k rest :
  without c k -> Py.split c (k +:+ String c rest) = k :: Py.split c rest.
Proof.
  induction k as [| a k IH]; intros H.
  - change ("" +:+ String c rest) with (String c rest).
    cbn [Py.split]. rewrite Ascii.eqb_refl. reflexivity.
  - apply without_cons in H. destruct H as [Ha Hk].
    change (String a k +:+ String c rest) with (String a (k +:+ String c rest)).
    cbn [Py.split]. rewrite (IH Hk).
    destruct (Ascii.eqb a c) eqn:Heq; [| reflexivity].
    apply Ascii.eqb_eq in Heq. contradiction.
Qed.

Lemma split_nonempty c s : Py.split c s <> [].
Proof.
  destruct s as [| a s]; cbn [Py.split]; [discriminate |].
  destruct (Ascii.eqb a c); [discriminate |].
  destruct (Py.split c s); discriminate.
Qed.

(** The targets are the comma-separated items of the text between the
    first and the second [=] of the file (or the end of the file): what
    precedes the first [=] and what follows a second one is ignored, and
    the list is never empty. *)
Theorem targets_are_second_field E path k v tail w :
  read_file E path = Some (k +:+ "=" +:+ v +:+ tail) ->
  without "=" k -> without "=" v ->
  tail = "" \/ (exists t, tail = "=" +:+ t) ->
  read_impersonators E path w = (Ok (Py.split "," v), w)
  /\ Py.split "," v <> [].
Proof.
  intros Hfile Hk Hv Htail. split; [| apply split_nonempty].
  unfold read_impersonators. rewrite Hfile.
  change (k +:+ "=" +:+ v +:+ tail) with (k +:+ String "=" (v +:+ tail)).
  rewrite (split_field "=" k _ Hk).
  destruct Htail as [-> | [t ->]].
  - replace (v +:+ "") with v.
    + rewrite (split_without "=" v Hv). reflexivity.
    + clear. induction v as [| a v IH]; [reflexivity |].
      change (String a v +:+ "") with (String a (v +:+ "")). congruence.
  - change (v +:+ "=" +:+ t) with (v +:+ String "=" t).
    rewrite (split_field "=" v _ Hv). reflexivity.
Qed.

Lemma targets_are_second_field_witness :
  read_impersonators
    (Env always_ok (fun n => n) 0 (fun _ => Some "Active=alice,bob=ignored") "/srv/instance/"
         settings decode_body (fun _ => "[]") (fun _ => ∅) (fun _ => "")) "Active-channel.txt"
    (fresh ∅ no_tables)
  = (Ok (Py.split "," "alice,bob"), fresh ∅ no_tables)
  /\ Py.split "," "alice,bob" <> [].
Proof.
  apply (targets_are_second_field
           (Env always_ok (fun n => n) 0 (fun _ => Some "Active=alice,bob=ignored")
                "/srv/instance/" settings decode_body (fun _ => "[]") (fun _ => ∅)
                (fun _ => ""))
           "Active-channel.txt" "Active" "alice,bob" "=ignored" (fresh ∅ no_tables)).
  - reflexivity.
  - unfold without. cbn. intuition discriminate.
  - unfold without. cbn. intuition discriminate.
  - right. exists "ignored". reflexivity.
Defined.

(** A file without any [=] has no second field: the read raises
    [IndexError] and no call is made. *)
Theorem file_without_separator_raises E path content w :
  read_file E path = Some content ->
  without "=" content ->
  exists m, read_impersonators E path w = (Raise (IndexError m), w).
Proof.
  intros Hfile Hc. unfold read_impersonators. rewrite Hfile.
  rewrite (split_without "=" content Hc). eexists. reflexivity.
Qed.

Lemma file_without_separator_raises_witness :
  exists m,
    read_impersonators
      (Env always_ok (fun n => n) 0 (fun _ => Some "alice,bob") "/srv/instance/"
           settings decode_body (fun _ => "[]") (fun _ => ∅) (fun _ => "")) "Active-channel.txt"
      (fresh ∅ no_tables)
    = (Raise (IndexError m), fresh ∅ no_tables).
Proof.
  apply (file_without_separator_raises
           (Env always_ok (fun n => n) 0 (fun _ => Some "alice,bob") "/srv/instance/"
                settings decode_body (fun _ => "[]") (fun _ => ∅) (fun _ => ""))
           "Active-channel.txt" "alice,bob" (fresh ∅ no_tables)).
  - reflexivity.
  - unfold without. cbn. intuition discriminate.
Defined.

End PipelineEdges.

(** ** Reconciliation of 1.0a credentials: what the resolver does and never does *)

Module ResolverFacts.
Import oauth10a Scenario StoreFacts.

(** The worlds that one run of the resolver can produce: the session is
    rolled back, or one row of the 1.0a table was replaced and committed,
    or a replacement is left pending after a failed commit. *)
Lemma resolver_shape E e ty s w :
  exists r w',
    handle_integrity_error E e ty s w = (r, w')
    /\ http_log w' = http_log w /\ session w' = session w /\ flashes w' = flashes w
    /\ (committed w' = committed w
        \/ exists i x, committed w'
                       = set_oauth10a_rows (committed w) (<[i := x]> (oauth10a_rows (committed w)))).
Proof.
  unfold handle_integrity_error.
  unfold bind at 1, Eff.rollback.
  destruct (Py.contains "UNIQUE constraint failed: oauth10a.oauth_token_secret" (str_exn e)).
  - unfold bind at 1, update_existing_entry, bind at 1, Eff.query; cbn [pending committed].
    destruct (Store.first (same_token_pair s) (oauth10a_rows (committed w))) as [[i r] |].
    + unfold bind, Eff.stage, Eff.commit; cbn [pending committed].
      destruct (Store.violation _); cbv beta iota; do 2 eexists;
        (split; [reflexivity |]); cbn; repeat split; eauto.
    + unfold ret. do 2 eexists. split; [reflexivity |]. cbn. repeat split; eauto.
  - destruct (Py.contains "UNIQUE constraint failed: oauth10a.twitter_id" (str_exn e)).
    + unfold bind at 1, update_existing_record, bind at 1, Eff.query; cbn [pending committed].
      destruct (Store.first _ (oauth10a_rows (committed w))) as [[i r] |] eqn:Hfirst.
      * destruct (id_ne (OAuth10a.twitter_id r) ty (OAuth10a.twitter_id s)).
        -- unfold bind at 1. rewrite ReconcileFacts.archive_raises.
           do 2 eexists. split; [reflexivity |]. cbn. repeat split; eauto.
        -- unfold bind, ret, Eff.stage, Eff.commit; cbn [pending committed].
           destruct (Store.violation _); cbv beta iota; do 2 eexists;
             (split; [reflexivity |]); cbn; repeat split; eauto.
      * unfold ret. do 2 eexists. split; [reflexivity |]. cbn. repeat split; eauto.
    + unfold ret. do 2 eexists. split; [reflexivity |]. cbn. repeat split; eauto.
Qed.

(** The resolver never inserts or deletes a credential and never touches
    another table, the Flask session or the remote API: whatever the
    violation and the incoming data, the 1.0a table keeps its number of
    rows, and the PKCE table, the user table, the session and the call log
    are as before. *)
Theorem resolver_never_inserts E e ty s w :
  let out := handle_integrity_error E e ty s w in
  length (stored_oauth10a (snd out)) = length (stored_oauth10a w)
  /\ pkce_rows (committed (snd out)) = pkce_rows (committed w)
  /\ user_rows (committed (snd out)) = user_rows (committed w)
  /\ session (snd out) = session w
  /\ http_log (snd out) = http_log w.
Proof.
  intros out. subst out.
  destruct (resolver_shape E e ty s w) as (r & w' & -> & Hlog & Hsess & _ & Hdb).
  cbn [snd]. unfold stored_oauth10a.
  destruct Hdb as [-> | (i & x & ->)].
  - auto.
  - unfold set_oauth10a_rows. cbn [oauth10a_rows pkce_rows user_rows].
    rewrite length_insert. auto.
Qed.

(** A violation that is neither of the two handled ones is answered by the
    error page that carries its message; the pending changes are discarded
    and nothing is written. *)
Theorem other_violation_is_reported E e ty s w :
  Py.contains "UNIQUE constraint failed: oauth10a.oauth_token_secret" (str_exn e) = false ->
  Py.contains "UNIQUE constraint failed: oauth10a.twitter_id" (str_exn e) = false ->
  handle_integrity_error E e ty s w = (Ok (Some (render_error (str_exn e))), rolled_back w).
Proof.
  intros H1 H2. unfold handle_integrity_error.
  unfold bind at 1, Eff.rollback. rewrite H1, H2. reflexivity.
Qed.

Lemma other_violation_is_reported_witness :
  handle_integrity_error (env_with always_ok 0)
    (IntegrityError "NOT NULL constraint failed: OAuth10a_3Legged.email") IdStr incoming_u_B
    (World [] ∅ (Tables [cred_u_A] [] []) (Some (Tables [cred_u_A; incoming_u_B] [] [])) [] [] 0)
  = (Ok (Some (render_error "NOT NULL constraint failed: OAuth10a_3Legged.email")),
     World [] ∅ (Tables [cred_u_A] [] []) None [] [] 0).
Proof.
  apply (other_violation_is_reported (env_with always_ok 0)
           (IntegrityError "NOT NULL constraint failed: OAuth10a_3Legged.email") IdStr
           incoming_u_B
           (World [] ∅ (Tables [cred_u_A] [] [])
                  (Some (Tables [cred_u_A; incoming_u_B] [] [])) [] [] 0));
    reflexivity.
Defined.

(** Replacing one value of a duplicate-free column by a value that occurs
    nowhere else keeps the column duplicate-free. *)
Lemma has_dup_replace l1 l2 x y :
  Store.has_dup (l1 ++ y :: l2) = false ->
  ~ In x l1 -> ~ In x l2 ->
  Store.has_dup (l1 ++ x :: l2) = false.
Proof.
  induction l1 as [| a l1 IH]; cbn [app Store.has_dup]; intros H Hx1 Hx2.
  - apply Bool.orb_false_iff in H. destruct H as [_ H]. rewrite H.
    rewrite Bool.orb_false_r. apply Bool.not_true_is_false.
    intros Hin. apply existsb_eqb_In in Hin. contradiction.
  - apply Bool.orb_false_iff in H. destruct H as [Ha H].
    rewrite (IH H) by (intros Hin; apply Hx1; right; exact Hin) || exact Hx2.
    rewrite Bool.orb_false_r.
    rewrite existsb_app in *. cbn [existsb] in *.
    apply Bool.orb_false_iff in Ha. destruct Ha as [Ha1 Ha2].
    apply Bool.orb_false_iff in Ha2. destruct Ha2 as [_ Ha2].
    rewrite Ha1, Ha2, Bool.orb_false_r. cbn [orb].
    apply String.eqb_neq. intros ->. apply Hx1. left. reflexivity.
Qed.

(** Re-assigning a row to an owner that holds no other row keeps the 1.0a
    table consistent, as long as the provider id of the row is kept. *)
Lemma reassign_keeps_valid t i r r' e :
  Store.violation t = None ->
  oauth10a_rows t !! i = Some r ->
  OAuth10a.email r' = Some e ->
  OAuth10a.twitter_id r' = OAuth10a.twitter_id r ->
  (forall j x, j <> i -> oauth10a_rows t !! j = Some x -> OAuth10a.email x <> Some e) ->
  Store.violation (set_oauth10a_rows t (<[i := r']> (oauth10a_rows t))) = None.
Proof.
  intros Hvalid Hi He Hid Hother.
  pose proof Hvalid as Hv. unfold Store.violation in Hv.
  destruct (Store.oauth10a_violation (oauth10a_rows t)) eqn:H10a; [discriminate |].
  unfold Store.violation, set_oauth10a_rows. cbn [oauth10a_rows pkce_rows user_rows].
  enough (Hnew : Store.oauth10a_violation (<[i := r']> (oauth10a_rows t)) = None)
    by (rewrite Hnew; exact Hv).
  unfold Store.oauth10a_violation in *.
  destruct (Store.has_null OAuth10a.email (oauth10a_rows t)) eqn:Hn; [discriminate |].
  destruct (Store.has_dup (Store.non_null OAuth10a.email (oauth10a_rows t))) eqn:Hd;
    [discriminate |].
  destruct (Store.has_dup (map OAuth10a.twitter_id (oauth10a_rows t))) eqn:Hd2; [discriminate |].
  assert (Hlt : (i < length (oauth10a_rows t))%nat) by (apply lookup_lt_Some in Hi; exact Hi).
  assert (Hsplit : oauth10a_rows t
                   = take i (oauth10a_rows t) ++ r :: drop (S i) (oauth10a_rows t)).
  { symmetry. apply take_drop_middle. exact Hi. }
  rewrite (map_insert_same OAuth10a.twitter_id _ i r r' Hi Hid), Hd2.
  rewrite insert_take_drop by exact Hlt.
  assert (Hnull : Store.has_null OAuth10a.email
                    (take i (oauth10a_rows t) ++ r' :: drop (S i) (oauth10a_rows t)) = false).
  { apply has_null_false. intros x Hx.
    apply in_app_or in Hx. destruct Hx as [Hx | [<- | Hx]]; [| congruence |].
    - apply (proj1 (has_null_false _ _) Hn). rewrite Hsplit. apply in_or_app. left. exact Hx.
    - apply (proj1 (has_null_false _ _) Hn). rewrite Hsplit.
      apply in_or_app. right. right. exact Hx. }
  rewrite Hnull.
  assert (Hr : exists er, OAuth10a.email r = Some er).
  { destruct (OAuth10a.email r) as [er |] eqn:Her; [eauto |].
    exfalso. apply (proj1 (has_null_false _ _) Hn r); [| exact Her].
    rewrite Hsplit. apply in_or_app. right. left. reflexivity. }
  destruct Hr as [er Her].
  assert (Hdup : Store.has_dup (Store.non_null OAuth10a.email
                   (take i (oauth10a_rows t) ++ r' :: drop (S i) (oauth10a_rows t))) = false).
  { rewrite non_null_app.
    change (Store.non_null OAuth10a.email (r' :: drop (S i) (oauth10a_rows t)))
      with (match OAuth10a.email r' with
            | Some y => y :: Store.non_null OAuth10a.email (drop (S i) (oauth10a_rows t))
            | None => Store.non_null OAuth10a.email (drop (S i) (oauth10a_rows t))
            end).
    rewrite He.
    apply (has_dup_replace _ _ e er).
    - rewrite Hsplit in Hd. rewrite non_null_app in Hd.
      change (Store.non_null OAuth10a.email (r :: drop (S i) (oauth10a_rows t)))
        with (match OAuth10a.email r with
              | Some y => y :: Store.non_null OAuth10a.email (drop (S i) (oauth10a_rows t))
              | None => Store.non_null OAuth10a.email (drop (S i) (oauth10a_rows t))
              end) in Hd.
      rewrite Her in Hd. exact Hd.
    - intros Hin. apply In_non_null in Hin. destruct Hin as [x [Hx Hex]].
      apply list_elem_of_In, list_elem_of_lookup in Hx. destruct Hx as [j Hj].
      apply lookup_take_Some in Hj. destruct Hj as [Hj Hji].
      apply (Hother j x); [lia | exact Hj | exact Hex].
    - intros Hin. apply In_non_null in Hin. destruct Hin as [x [Hx Hex]].
      apply list_elem_of_In, list_elem_of_lookup in Hx. destruct Hx as [j Hj].
      rewrite lookup_drop in Hj.
      apply (Hother (S i + j)%nat x); [lia | exact Hj | exact Hex]. }
  rewrite Hdup. reflexivity.
Qed.

(** On the provider-id violation, when a row holds the incoming provider
    id and that id is a numeral, the outcome depends on the Python type of
    the incoming id. With the [str] that the callback assigns, the [int]
    read from the row differs from it, the archive block is entered and
    raises [AttributeError] after the rollback: nothing is written and
    every credential stays with its owner. With an [int] the block is
    skipped and the row is overwritten with the incoming data, its owner
    included: when the incoming owner holds no other row, the credential
    changes hands and the former owner is left without one. *)
Theorem provider_id_row_by_id_type E e s w i r owner :
  Py.contains "UNIQUE constraint failed: oauth10a.oauth_token_secret" (str_exn e) = false ->
  Py.contains "UNIQUE constraint failed: oauth10a.twitter_id" (str_exn e) = true ->
  Store.violation (committed w) = None ->
  Store.first (fun x => String.eqb (OAuth10a.twitter_id x) (OAuth10a.twitter_id s))
              (stored_oauth10a w) = Some (i, r) ->
  loads_as_int (OAuth10a.twitter_id s) = true ->
  OAuth10a.email s = Some owner ->
  (forall j x, j <> i -> stored_oauth10a w !! j = Some x -> OAuth10a.email x <> Some owner) ->
  handle_integrity_error E e IdStr s w
  = (Raise (AttributeError
              match OAuth10a.date_created r with
              | Some _ => "'OAuth10a' object has no attribute 'previous_twitter_account_info'"
              | None => "'NoneType' object has no attribute 'strftime'"
              end), rolled_back w)
  /\ handle_integrity_error E e IdInt s w
     = (Ok None, with_row w i (overwritten_record E r s))
  /\ (OAuth10a.email r <> Some owner ->
      forall x, In x (stored_oauth10a (snd (handle_integrity_error E e IdInt s w))) ->
                OAuth10a.email x <> OAuth10a.email r).
Proof.
  intros Hm1 Hm2 Hvalid Hfirst Hint Howner Hother.
  destruct (first_Some _ _ _ _ Hfirst) as [Hi [Hp _]]. cbv beta in Hp.
  assert (Hid : OAuth10a.twitter_id r = OAuth10a.twitter_id s)
    by (apply String.eqb_eq; exact Hp).
  split.
  { apply (ReconcileFacts.handle_archive E e IdStr s w i r Hm1 Hm2 Hfirst).
    unfold id_ne. rewrite Hid, Hint. reflexivity. }
  assert (Hrun : handle_integrity_error E e IdInt s w
                 = (Ok None, with_row w i (overwritten_record E r s))).
  { unfold handle_integrity_error. unfold bind at 1, Eff.rollback. rewrite Hm1, Hm2.
    unfold bind at 1, update_existing_record, bind at 1, Eff.query. cbn [pending committed].
    unfold stored_oauth10a in Hfirst. rewrite Hfirst.
    unfold id_ne. rewrite Hid, Hint, String.eqb_refl. cbn [negb].
    unfold bind, ret, Eff.stage, Eff.commit. cbn [pending committed].
    rewrite (reassign_keeps_valid (committed w) i r _ owner Hvalid Hi);
      [reflexivity | exact Howner | | exact Hother].
    cbn. congruence. }
  split; [exact Hrun |].
  intros Hne x Hx. rewrite Hrun in Hx. cbn [snd] in Hx.
  rewrite ReconcileFacts.stored_with_row in Hx.
  assert (Hlt : (i < length (stored_oauth10a w))%nat) by (apply lookup_lt_Some in Hi; exact Hi).
  rewrite insert_take_drop in Hx by exact Hlt.
  assert (Hsplit : stored_oauth10a w
                   = take i (stored_oauth10a w) ++ r :: drop (S i) (stored_oauth10a w)).
  { symmetry. apply take_drop_middle. exact Hi. }
  destruct (violation_None _ Hvalid) as [H10a _].
  unfold Store.oauth10a_violation in H10a. fold (stored_oauth10a w) in H10a.
  destruct (Store.has_null OAuth10a.email (stored_oauth10a w)) eqn:Hn; [discriminate |].
  destruct (Store.has_dup (Store.non_null OAuth10a.email (stored_oauth10a w))) eqn:Hd;
    [discriminate |].
  destruct (OAuth10a.email r) as [er |] eqn:Her.
  2:{ exfalso. apply (proj1 (has_null_false _ _) Hn r); [| exact Her].
      rewrite Hsplit. apply in_or_app. right. left. reflexivity. }
  rewrite Hsplit, non_null_app in Hd.
  change (Store.non_null OAuth10a.email (r :: drop (S i) (stored_oauth10a w)))
    with (match OAuth10a.email r with
          | Some y => y :: Store.non_null OAuth10a.email (drop (S i) (stored_oauth10a w))
          | None => Store.non_null OAuth10a.email (drop (S i) (stored_oauth10a w))
          end) in Hd.
  rewrite Her in Hd.
  assert (Hmid : ~ (In er (Store.non_null OAuth10a.email (take i (stored_oauth10a w)))
                    \/ In er (Store.non_null OAuth10a.email (drop (S i) (stored_oauth10a w))))).
  { intros Hin. rewrite (has_dup_middle _ _ er Hin) in Hd. discriminate. }
  intros Hex. apply in_app_or in Hx. destruct Hx as [Hx | [<- | Hx]].
  - apply Hmid. left. apply (non_null_In _ _ x); assumption.
  - cbn in Hex. congruence.
  - apply Hmid. right. apply (non_null_In _ _ x); assumption.
Qed.

Lemma provider_id_row_by_id_type_witness :
  handle_integrity_error (env_with always_ok 1000) twitter_id_violation IdStr incoming_u_B
                         (fresh ∅ (Tables [cred_v_B] [] []))
  = (Raise (AttributeError
              "'OAuth10a' object has no attribute 'previous_twitter_account_info'"),
     rolled_back (fresh ∅ (Tables [cred_v_B] [] [])))
  /\ handle_integrity_error (env_with always_ok 1000) twitter_id_violation IdInt incoming_u_B
                            (fresh ∅ (Tables [cred_v_B] [] []))
     = (Ok None,
        with_row (fresh ∅ (Tables [cred_v_B] [] [])) 0
          (overwritten_record (env_with always_ok 1000) cred_v_B incoming_u_B))
  /\ (OAuth10a.email cred_v_B <> Some "u@example.org" ->
      forall x, In x (stored_oauth10a
                        (snd (handle_integrity_error (env_with always_ok 1000)
                                twitter_id_violation IdInt incoming_u_B
                                (fresh ∅ (Tables [cred_v_B] [] [])))))
                -> OAuth10a.email x <> OAuth10a.email cred_v_B).
Proof.
  apply (provider_id_row_by_id_type (env_with always_ok 1000) twitter_id_violation
           incoming_u_B (fresh ∅ (Tables [cred_v_B] [] [])) 0%nat cred_v_B "u@example.org");
    try reflexivity.
  intros j x Hj Hx. destruct j as [| j]; [congruence |]. discriminate Hx.
Defined.

End ResolverFacts.

(** ** The callbacks past their guards *)

Module CallbackEdges.
Import oauth10a oauth20pkce Scenario StoreFacts.

Lemma truthy_value_nonempty o s : o = Some s -> s <> "" -> Py.truthy_value o = Some s.
Proof.
  intros -> Hs. unfold Py.truthy_value.
  destruct (String.eqb_spec s ""); [contradiction | reflexivity].
Qed.

Lemma denial_run E current_user args w d :
  args !! "denied" = Some d -> d <> "" ->
  oauth10acallback E current_user args w
  = (Ok (render_error "OAuth request was denied"), forgetting w d).
Proof.
  intros Hd Hne. unfold oauth10acallback. rewrite (truthy_value_nonempty _ _ Hd Hne).
  unfold bind, Eff.session_get, forgetting. cbv beta iota.
  destruct (session w !! d) eqn:Hs; cbv beta iota; unfold Eff.session_del, ret.
  - reflexivity.
  - rewrite delete_id by exact Hs. destruct w; reflexivity.
Qed.

(** A denied 1.0a callback drops from the session the entry whose key is
    the value of the [denied] parameter, whatever that key is, and changes
    nothing else: no call, no row, no flash, even when a token and a
    verifier come with it. *)
Theorem denial_forgets_named_entry E current_user args w d :
  args !! "denied" = Some d -> d <> "" ->
  oauth10acallback E current_user args w
  = (Ok (render_error "OAuth request was denied"), forgetting w d)
  /\ session (forgetting w d) !! d = None
  /\ (forall k, k <> d -> session (forgetting w d) !! k = session w !! k).
Proof.
  intros Hd Hne. split; [apply denial_run; assumption |].
  unfold forgetting. cbn [session]. split.
  - apply lookup_delete_eq.
  - intros k Hk. apply lookup_delete_ne. congruence.
Qed.

Lemma denial_forgets_named_entry_witness :
  oauth10acallback (env_with always_ok 0) (Some "u@example.org")
                   {["denied" := "oauth_token_secret"]} (fresh request_secret no_tables)
  = (Ok (render_error "OAuth request was denied"),
     forgetting (fresh request_secret no_tables) "oauth_token_secret")
  /\ session (forgetting (fresh request_secret no_tables) "oauth_token_secret")
       !! "oauth_token_secret" = None
  /\ (forall k, k <> "oauth_token_secret" ->
        session (forgetting (fresh request_secret no_tables) "oauth_token_secret") !! k
        = session (fresh request_secret no_tables) !! k).
Proof.
  apply (denial_forgets_named_entry (env_with always_ok 0) (Some "u@example.org")
           {["denied" := "oauth_token_secret"]} (fresh request_secret no_tables)
           "oauth_token_secret").
  - reflexivity.
  - discriminate.
Defined.

(** The callback past its three guards, up to the answer to the
    access-token request. *)
Ltac enter_exchange Hg :=
  let Hd := fresh "Hd" in
  let Ht := fresh "Ht" in
  let Htne := fresh "Htne" in
  let Hv := fresh "Hv" in
  let Hvne := fresh "Hvne" in
  let Hs := fresh "Hs" in
  let Hsne := fresh "Hsne" in
  destruct Hg as (Hd & Ht & Htne & Hv & Hvne & Hs & Hsne);
  unfold oauth10acallback;
  rewrite (OAuth10aFacts.truthy_value_None _ Hd),
          (truthy_value_nonempty _ _ Ht Htne), (truthy_value_nonempty _ _ Hv Hvne);
  unfold bind at 1, Eff.session_get at 1; cbv beta iota;
  rewrite (truthy_value_nonempty _ _ Hs Hsne);
  unfold bind at 1, Eff.http_request at 1; cbv beta iota zeta.

(** When the provider refuses the access-token request (any status but
    200), the 1.0a callback renders "Error obtaining access token" after
    exactly one call, the one signed with the request token, the session
    secret and the verifier; and when the transport fails, the exception
    leaves the view. In both cases nothing is written or staged. *)
Theorem refused_exchange_stops_callback E current_user args w tok ver sec :
  passes_guards args w tok ver sec ->
  match remote E (length (http_log w)) (exchange_call E tok sec ver) with
  | inl e =>
      oauth10acallback E current_user args w
      = (Raise e, after_calls w [exchange_call E tok sec ver])
  | inr r =>
      status_code r <> 200 ->
      oauth10acallback E current_user args w
      = (Ok (render_error "Error obtaining access token"),
         after_calls w [exchange_call E tok sec ver])
  end.
Proof.
  intros Hg.
  destruct (remote E (length (http_log w)) (exchange_call E tok sec ver)) as [e | r] eqn:Hr;
    [| intros Hstatus; apply Z.eqb_neq in Hstatus];
    enter_exchange Hg;
    unfold exchange_call in Hr; rewrite Hr; [| rewrite Hstatus]; reflexivity.
Qed.

Lemma refused_exchange_stops_callback_witness :
  passes_guards complete_callback (fresh request_secret no_tables)
                "request-token" "verifier" "request-secret"
  /\ oauth10acallback (env_with Refusals.refuse_all 0) (Some "u@example.org")
                      complete_callback (fresh request_secret no_tables)
     = (Ok (render_error "Error obtaining access token"),
        after_calls (fresh request_secret no_tables)
          [exchange_call (env_with Refusals.refuse_all 0)
                         "request-token" "request-secret" "verifier"]).
Proof.
  assert (Hg : passes_guards complete_callback (fresh request_secret no_tables)
                 "request-token" "verifier" "request-secret")
    by (repeat split; try reflexivity; discriminate).
  split; [exact Hg |].
  refine (refused_exchange_stops_callback (env_with Refusals.refuse_all 0)
            (Some "u@example.org") complete_callback (fresh request_secret no_tables)
            "request-token" "verifier" "request-secret" Hg _).
  discriminate.
Defined.

(** An access-token reply with status 200 that lacks the token or its
    secret makes [oauth.Token] raise [ValueError]: the exception leaves the
    view after the one exchange call, and the verification call is never
    made. *)
Theorem exchange_without_token_raises E current_user args w tok ver sec r :
  passes_guards args w tok ver sec ->
  remote E (length (http_log w)) (exchange_call E tok sec ver) = inr r ->
  status_code r = 200 ->
  parse_qsl E (text r) !! "oauth_token" = None
  \/ parse_qsl E (text r) !! "oauth_token_secret" = None ->
  oauth10acallback E current_user args w
  = (Raise (ValueError "Key and secret must be set."),
     after_calls w [exchange_call E tok sec ver]).
Proof.
  intros Hg Hr Hstatus Hmissing.
  enter_exchange Hg.
  unfold exchange_call in Hr. rewrite Hr, Hstatus. cbn [Z.eqb Pos.eqb negb].
  unfold bind at 1, Token at 1.
  destruct Hmissing as [-> | ->];
    [| destruct (parse_qsl E (text r) !! "oauth_token")]; reflexivity.
Qed.

Lemma exchange_without_token_raises_witness :
  oauth10acallback (env_with always_ok 0) (Some "u@example.org")
                   complete_callback (fresh request_secret no_tables)
  = (Raise (ValueError "Key and secret must be set."),
     after_calls (fresh request_secret no_tables)
       [exchange_call (env_with always_ok 0) "request-token" "request-secret" "verifier"]).
Proof.
  apply (exchange_without_token_raises (env_with always_ok 0) (Some "u@example.org")
           complete_callback (fresh request_secret no_tables)
           "request-token" "verifier" "request-secret" ok_reply).
  - repeat split; try reflexivity; discriminate.
  - reflexivity.
  - reflexivity.
  - left. reflexivity.
Defined.

(** When the provider refuses the verification request, the callback
    renders "Error fetching user data" after exactly two calls, the second
    signed with the token pair just issued and without a verifier; the
    issued pair is dropped: nothing is written or staged. *)
Theorem refused_verification_stores_nothing E current_user args w tok ver sec rt rs r2 :
  passes_guards args w tok ver sec ->
  provider_issues E w tok ver sec rt rs ->
  remote E (S (length (http_log w))) (verify_call E rt rs) = inr r2 ->
  status_code r2 <> 200 ->
  oauth10acallback E current_user args w
  = (Ok (render_error "Error fetching user data"),
     after_calls w [exchange_call E tok sec ver; verify_call E rt rs]).
Proof.
  intros Hg (r & Hr & Hstatus & Hrt & Hrs) Hr2 Hstatus2.
  enter_exchange Hg.
  unfold exchange_call in Hr. rewrite Hr, Hstatus. cbn [Z.eqb Pos.eqb negb].
  unfold bind at 1, Token at 1. rewrite Hrt, Hrs. unfold ret at 1. cbn [fst snd].
  unfold bind at 1, Eff.http_request at 1. cbv beta iota zeta.
  cbn [http_log session committed pending flashes yielded drawn].
  rewrite length_app. cbn [length]. rewrite Nat.add_1_r.
  unfold verify_call in Hr2. rewrite Hr2.
  apply Z.eqb_neq in Hstatus2. rewrite Hstatus2. cbn [negb].
  unfold ret, after_calls, exchange_call, verify_call. rewrite <- app_assoc. reflexivity.
Qed.

Lemma refused_verification_stores_nothing_witness :
  oauth10acallback (Refusals.with_remote provider10a_env (Refusals.refuse_after_first provider10a))
                   (Some "u@example.org") complete_callback
                   (fresh request_secret (Tables [] [] [user_u]))
  = (Ok (render_error "Error fetching user data"),
     after_calls (fresh request_secret (Tables [] [] [user_u]))
       [exchange_call provider10a_env "request-token" "request-secret" "verifier";
        verify_call provider10a_env "real-token" "real-secret"]).
Proof.
  apply (refused_verification_stores_nothing
           (Refusals.with_remote provider10a_env (Refusals.refuse_after_first provider10a))
           (Some "u@example.org") complete_callback
           (fresh request_secret (Tables [] [] [user_u]))
           "request-token" "verifier" "request-secret" "real-token" "real-secret"
           Refusals.unauthorized).
  - repeat split; try reflexivity; discriminate.
  - eexists. repeat split; reflexivity.
  - reflexivity.
  - discriminate.
Defined.

(** *** Conflicts on the provider id in the 1.0a table *)

Lemma oauth10a_valid rows :
  Store.oauth10a_violation rows = None ->
  Store.has_null OAuth10a.email rows = false
  /\ Store.has_dup (Store.non_null OAuth10a.email rows) = false
  /\ Store.has_dup (map OAuth10a.twitter_id rows) = false.
Proof.
  unfold Store.oauth10a_violation.
  destruct (Store.has_null OAuth10a.email rows); [discriminate |].
  destruct (Store.has_dup (Store.non_null OAuth10a.email rows)); [discriminate |].
  destruct (Store.has_dup (map OAuth10a.twitter_id rows)); [discriminate |].
  auto.
Qed.





(** *** The PKCE callback *)

(** A PKCE callback that fails one of the three guards (an [error]
    parameter, a state that differs from the stored one, no stored
    verifier) is answered by a redirect, and its only effect is one flashed
    message: no call is made, no row written or staged, and the session is
    kept. When such a callback has no [error] parameter and its state
    equals the stored one (both may be absent), the guard that stops it is
    the verifier check: it redirects home with "Invalid code verifier". *)
Theorem failed_guard_only_flashes E current_user args w :
  Py.truthy (args !! "error") = true
  \/ args !! "state" <> session w !! "state"
  \/ Py.truthy (session w !! "code_verifier") = false ->
  exists endpoint message,
    oauth20pkcecallback E current_user args w
    = (Ok (Redirect endpoint), flashed w message "danger")
    /\ (Py.truthy (args !! "error") = false ->
        args !! "state" = session w !! "state" ->
        endpoint = "unauth.unauthhome" /\ message = "Invalid code verifier").
Proof.
  intros Hfail. unfold oauth20pkcecallback.
  destruct (Py.truthy (args !! "error")) eqn:Herr.
  - exists "unauth.unauthhome", "Authorization failed".
    split; [reflexivity | discriminate].
  - unfold bind at 1, Eff.session_get at 1. cbv beta iota.
    destruct (Py.ne (args !! "state") (session w !! "state")) eqn:Hne.
    + exists "unauth.unauthabout", "Invalid state parameter".
      split; [reflexivity |].
      intros _ Heq. apply PkceFacts.ne_true_iff in Hne. contradiction.
    + destruct Hfail as [Hfail | [Hfail | Hfail]]; [discriminate | |].
      * apply PkceFacts.ne_true_iff in Hfail. congruence.
      * unfold bind at 1, Eff.session_get at 1. cbv beta iota.
        rewrite (OAuth10aFacts.truthy_value_None _ Hfail).
        exists "unauth.unauthhome", "Invalid code verifier".
        split; [reflexivity | auto].
Qed.

Lemma failed_guard_only_flashes_witness :
  exists endpoint message,
    oauth20pkcecallback provider_env (Some "u@example.org") ∅ (fresh ∅ no_tables)
    = (Ok (Redirect endpoint), flashed (fresh ∅ no_tables) message "danger")
    /\ (Py.truthy ((∅ : gmap string string) !! "error") = false ->
        (∅ : gmap string string) !! "state" = session (fresh ∅ no_tables) !! "state" ->
        endpoint = "unauth.unauthhome" /\ message = "Invalid code verifier").
Proof.
  apply (failed_guard_only_flashes provider_env (Some "u@example.org") ∅ (fresh ∅ no_tables)).
  right. right. reflexivity.
Defined.

(** The PKCE callback past its three guards, up to the answer to the
    token request. *)
Ltac enter_token_request Hg :=
  let Herr := fresh "Herr" in
  let Hstate := fresh "Hstate" in
  let Hcv := fresh "Hcv" in
  let Hcvne := fresh "Hcvne" in
  destruct Hg as (Herr & Hstate & Hcv & Hcvne);
  unfold oauth20pkcecallback; rewrite Herr;
  unfold bind at 1, Eff.session_get at 1; cbv beta iota;
  rewrite <- Hstate, PkceFacts.ne_refl;
  unfold bind at 1, Eff.session_get at 1; cbv beta iota;
  rewrite (truthy_value_nonempty _ _ Hcv Hcvne);
  unfold bind at 1, Eff.http_request at 1; cbv beta iota zeta.

(** When the token endpoint refuses the request (any status but 200), the
    PKCE callback redirects home after exactly one call, the token request
    with the code of the query string and the verifier of the session, and
    flashes the body of the reply as it came; when the transport fails,
    the exception leaves the view. Nothing is written or staged. *)
Theorem refused_token_request_flashes_body E current_user args w cv :
  passes_pkce_guards args w cv ->
  match remote E (length (http_log w)) (token_call E (args !! "code") cv) with
  | inl e =>
      oauth20pkcecallback E current_user args w
      = (Raise e, after_calls w [token_call E (args !! "code") cv])
  | inr r =>
      status_code r <> 200 ->
      oauth20pkcecallback E current_user args w
      = (Ok (Redirect "unauth.unauthhome"),
         flashed (after_calls w [token_call E (args !! "code") cv])
                 ("Authorization failed: " +:+ text r) "danger")
  end.
Proof.
  intros Hg.
  destruct (remote E (length (http_log w)) (token_call E (args !! "code") cv))
    as [e | r] eqn:Hr;
    [| intros Hstatus; apply Z.eqb_neq in Hstatus];
    enter_token_request Hg; rewrite Hr; [| rewrite Hstatus]; reflexivity.
Qed.

Lemma refused_token_request_flashes_body_witness :
  oauth20pkcecallback (Refusals.with_remote provider_env Refusals.refuse_all)
                      (Some "u@example.org") code_with_state
                      (fresh matching_state no_tables)
  = (Ok (Redirect "unauth.unauthhome"),
     flashed (after_calls (fresh matching_state no_tables)
                [token_call provider_env (Some "authorization-code") "stored-verifier"])
             "Authorization failed: denied" "danger").
Proof.
  refine (refused_token_request_flashes_body
            (Refusals.with_remote provider_env Refusals.refuse_all)
            (Some "u@example.org") code_with_state (fresh matching_state no_tables)
            "stored-verifier" _ _).
  - repeat split; try reflexivity; discriminate.
  - discriminate.
Defined.

(** A token reply with status 200 whose body is not a JSON object with an
    [access_token] member makes the view raise ([JSONDecodeError],
    [TypeError] or [KeyError]) after the one token request: the identity
    request is never made and nothing is flashed, written or staged. *)
Theorem unusable_token_reply_raises E current_user args w cv r :
  passes_pkce_guards args w cv ->
  remote E (length (http_log w)) (token_call E (args !! "code") cv) = inr r ->
  status_code r = 200 ->
  match json_loads E (text r) with
  | None =>
      exists m, oauth20pkcecallback E current_user args w
                = (Raise (JSONDecodeError m), after_calls w [token_call E (args !! "code") cv])
  | Some (JObj token_data) =>
      token_data !! "access_token" = None ->
      oauth20pkcecallback E current_user args w
      = (Raise (KeyError "access_token"), after_calls w [token_call E (args !! "code") cv])
  | Some _ =>
      exists m, oauth20pkcecallback E current_user args w
                = (Raise (TypeError m), after_calls w [token_call E (args !! "code") cv])
  end.
Proof.
  intros Hg Hr Hstatus.
  destruct (json_loads E (text r)) as [[| n | s | items | token_data] |] eqn:Hj;
    [| | | | intros Hmissing |];
    enter_token_request Hg; rewrite Hr, Hstatus; cbn [Z.eqb Pos.eqb negb];
    unfold bind at 1, Eff.reply_json at 1; rewrite Hj; unfold ret at 1;
    try (unfold bind at 1, Json.subscript at 1; try rewrite Hmissing);
    try (eexists; reflexivity); reflexivity.
Qed.

Lemma unusable_token_reply_raises_witness :
  oauth20pkcecallback (env_with always_ok 0) (Some "u@example.org") code_with_state
                      (fresh matching_state no_tables)
  = (Raise (KeyError "access_token"),
     after_calls (fresh matching_state no_tables)
       [token_call (env_with always_ok 0) (Some "authorization-code") "stored-verifier"]).
Proof.
  refine (unusable_token_reply_raises (env_with always_ok 0) (Some "u@example.org")
            code_with_state (fresh matching_state no_tables) "stored-verifier" ok_reply
            _ _ _ _).
  - repeat split; try reflexivity; discriminate.
  - reflexivity.
  - reflexivity.
  - reflexivity.
Defined.

(** When the identity endpoint refuses the second request, the callback
    redirects home with "Failed to retrieve user information" after
    exactly two calls, the second carrying the access token just issued as
    Bearer credential; the issued token is dropped: nothing is written or
    staged. *)
Theorem refused_identity_request_stores_nothing E current_user args w cv
        token_data access_token r2 :
  passes_pkce_guards args w cv ->
  token_issued E args w cv token_data access_token ->
  remote E (S (length (http_log w))) (identity_call access_token) = inr r2 ->
  status_code r2 <> 200 ->
  oauth20pkcecallback E current_user args w
  = (Ok (Redirect "unauth.unauthhome"),
     flashed (after_calls w [token_call E (args !! "code") cv; identity_call access_token])
             "Failed to retrieve user information" "danger").
Proof.
  intros Hg (r & Hr & Hstatus & Hj & Hat) Hr2 Hstatus2.
  enter_token_request Hg. rewrite Hr, Hstatus. cbn [Z.eqb Pos.eqb negb].
  unfold bind at 1, Eff.reply_json at 1. rewrite Hj. unfold ret at 1.
  unfold bind at 1, Json.subscript at 1. rewrite Hat. unfold ret at 1.
  unfold bind at 1, Json.as_text at 1, ret at 1.
  unfold bind at 1, Eff.http_request at 1. cbv beta iota zeta.
  cbn [http_log session committed pending flashes yielded drawn].
  rewrite length_app. cbn [length]. rewrite Nat.add_1_r.
  rewrite Hr2. apply Z.eqb_neq in Hstatus2. rewrite Hstatus2. cbn [negb].
  unfold bind, Eff.flash, ret, flashed, after_calls.
  cbn [http_log session committed pending flashes yielded drawn].
  rewrite <- app_assoc. reflexivity.
Qed.

Lemma refused_identity_request_stores_nothing_witness :
  oauth20pkcecallback (Refusals.with_remote provider_env (Refusals.refuse_after_first provider))
                      (Some "u@example.org") code_with_state
                      (fresh matching_state no_tables)
  = (Ok (Redirect "unauth.unauthhome"),
     flashed (after_calls (fresh matching_state no_tables)
                [token_call provider_env (Some "authorization-code") "stored-verifier";
                 identity_call "access-1"])
             "Failed to retrieve user information" "danger").
Proof.
  apply (refused_identity_request_stores_nothing
           (Refusals.with_remote provider_env (Refusals.refuse_after_first provider))
           (Some "u@example.org") code_with_state (fresh matching_state no_tables)
           "stored-verifier"
           (<["refresh_token" := JStr "refresh-1"]> {["access_token" := JStr "access-1"]})
           "access-1" Refusals.unauthorized).
  - repeat split; try reflexivity; discriminate.
  - eexists. repeat split; reflexivity.
  - reflexivity.
  - discriminate.
Defined.

(** *** The PKCE upsert when the provider id is free *)

Lemma has_dup_insert l1 l2 x :
  Store.has_dup (l1 ++ l2) = false ->
  ~ In x l1 -> ~ In x l2 ->
  Store.has_dup (l1 ++ x :: l2) = false.
Proof.
  induction l1 as [| a l1 IH]; cbn [app Store.has_dup]; intros H Hx1 Hx2.
  - rewrite H, Bool.orb_false_r. apply Bool.not_true_is_false.
    intros Hin. apply existsb_eqb_In in Hin. contradiction.
  - apply Bool.orb_false_iff in H. destruct H as [Ha H].
    rewrite (IH H) by (intros Hin; apply Hx1; right; exact Hin) || exact Hx2.
    rewrite Bool.orb_false_r.
    rewrite existsb_app in *. cbn [existsb].
    apply Bool.orb_false_iff in Ha. destruct Ha as [Ha1 Ha2].
    rewrite Ha1, Ha2, Bool.orb_false_r. cbn [orb].
    apply String.eqb_neq. intros ->. apply Hx1. left. reflexivity.
Qed.

Lemma pkce_append_valid t r' e tid :
  Store.violation t = None ->
  Store.first (fun r => Store.col_eq (OAuth20PKCE.email r) (Some e)) (pkce_rows t) = None ->
  (forall x, In x (pkce_rows t) -> OAuth20PKCE.twitter_id x <> Some tid) ->
  OAuth20PKCE.email r' = Some e ->
  OAuth20PKCE.twitter_id r' = Some tid ->
  OAuth20PKCE.code_verifier r' <> None ->
  Store.violation (set_pkce_rows t (pkce_rows t ++ [r'])) = None.
Proof.
  intros Hvalid Hfirst Hfree Hemail Hid Hcv.
  destruct (violation_None _ Hvalid) as [H10a [Hpkce Huser]].
  destruct (pkce_violation_None _ Hpkce) as [Hn1 [Hn2 [Hd1 Hd2]]].
  unfold Store.violation, set_pkce_rows. cbn [oauth10a_rows pkce_rows user_rows].
  rewrite H10a. unfold Store.pkce_violation.
  rewrite !has_null_app, Hn1, Hn2. unfold Store.has_null at 1 2. cbn [existsb].
  rewrite Hemail. destruct (OAuth20PKCE.code_verifier r') eqn:Hv; [| congruence].
  cbn [orb].
  rewrite !non_null_app.
  change (Store.non_null OAuth20PKCE.email [r'])
    with (match OAuth20PKCE.email r' with Some y => [y] | None => [] end).
  change (Store.non_null OAuth20PKCE.twitter_id [r'])
    with (match OAuth20PKCE.twitter_id r' with Some y => [y] | None => [] end).
  rewrite Hemail, Hid, !has_dup_snoc, Hd1, Hd2.
  assert (Hfresh : existsb (String.eqb e) (Store.non_null OAuth20PKCE.email (pkce_rows t))
                   = false).
  { apply Bool.not_true_is_false. intros Hin. apply existsb_eqb_In, In_non_null in Hin.
    destruct Hin as [r [Hr He]].
    pose proof (first_None _ _ Hfirst r Hr) as Hp. cbv beta in Hp.
    apply PkceFacts.col_eq_false in Hp. contradiction. }
  assert (Hunheld : existsb (String.eqb tid)
                            (Store.non_null OAuth20PKCE.twitter_id (pkce_rows t)) = false).
  { apply Bool.not_true_is_false. intros Hin. apply existsb_eqb_In, In_non_null in Hin.
    destruct Hin as [r [Hr Ht]]. exact (Hfree r Hr Ht). }
  rewrite Hfresh, Hunheld. cbn [orb]. exact Huser.
Qed.

Lemma pkce_refresh_valid t i existing r' tid :
  Store.violation t = None ->
  pkce_rows t !! i = Some existing ->
  OAuth20PKCE.email r' = OAuth20PKCE.email existing ->
  OAuth20PKCE.code_verifier r' <> None ->
  OAuth20PKCE.twitter_id r' = Some tid ->
  (forall j x, j <> i -> pkce_rows t !! j = Some x -> OAuth20PKCE.twitter_id x <> Some tid) ->
  Store.violation (set_pkce_rows t (<[i := r']> (pkce_rows t))) = None.
Proof.
  intros Hvalid Hi Hemail Hcv Hid Hfree.
  destruct (violation_None _ Hvalid) as [H10a [Hpkce Huser]].
  destruct (pkce_violation_None _ Hpkce) as [Hn1 [Hn2 [Hd1 Hd2]]].
  unfold Store.violation, set_pkce_rows. cbn [oauth10a_rows pkce_rows user_rows].
  rewrite H10a. unfold Store.pkce_violation.
  assert (Hlt : (i < length (pkce_rows t))%nat) by (apply lookup_lt_Some in Hi; exact Hi).
  assert (Hmap : map OAuth20PKCE.email (<[i := r']> (pkce_rows t))
                 = map OAuth20PKCE.email (pkce_rows t)).
  { apply (map_insert_same _ _ i existing r' Hi Hemail). }
  rewrite (has_null_map OAuth20PKCE.email), Hmap, <- has_null_map, Hn1.
  rewrite (non_null_map OAuth20PKCE.email), Hmap, <- non_null_map, Hd1.
  rewrite insert_take_drop by exact Hlt.
  assert (Hsplit : pkce_rows t = take i (pkce_rows t) ++ existing :: drop (S i) (pkce_rows t)).
  { symmetry. apply take_drop_middle. exact Hi. }
  assert (Hnull : Store.has_null OAuth20PKCE.code_verifier
                    (take i (pkce_rows t) ++ r' :: drop (S i) (pkce_rows t)) = false).
  { apply has_null_false. intros r Hr.
    apply in_app_or in Hr. destruct Hr as [Hr | [<- | Hr]]; [| exact Hcv |].
    - apply (proj1 (has_null_false _ _) Hn2). rewrite Hsplit.
      apply in_or_app. left. exact Hr.
    - apply (proj1 (has_null_false _ _) Hn2). rewrite Hsplit.
      apply in_or_app. right. right. exact Hr. }
  rewrite Hnull.
  assert (Hbefore : ~ In tid (Store.non_null OAuth20PKCE.twitter_id (take i (pkce_rows t)))).
  { intros Hin. apply In_non_null in Hin. destruct Hin as [x [Hx Hex]].
    apply list_elem_of_In, list_elem_of_lookup in Hx. destruct Hx as [j Hj].
    apply lookup_take_Some in Hj. destruct Hj as [Hj Hji].
    apply (Hfree j x); [lia | exact Hj | exact Hex]. }
  assert (Hafter : ~ In tid (Store.non_null OAuth20PKCE.twitter_id
                               (drop (S i) (pkce_rows t)))).
  { intros Hin. apply In_non_null in Hin. destruct Hin as [x [Hx Hex]].
    apply list_elem_of_In, list_elem_of_lookup in Hx. destruct Hx as [j Hj].
    rewrite lookup_drop in Hj.
    apply (Hfree (S i + j)%nat x); [lia | exact Hj | exact Hex]. }
  assert (Hdup : Store.has_dup (Store.non_null OAuth20PKCE.twitter_id
                    (take i (pkce_rows t) ++ r' :: drop (S i) (pkce_rows t))) = false).
  { rewrite non_null_app.
    change (Store.non_null OAuth20PKCE.twitter_id (r' :: drop (S i) (pkce_rows t)))
      with (match OAuth20PKCE.twitter_id r' with
            | Some y => y :: Store.non_null OAuth20PKCE.twitter_id (drop (S i) (pkce_rows t))
            | None => Store.non_null OAuth20PKCE.twitter_id (drop (S i) (pkce_rows t))
            end).
    rewrite Hid.
    rewrite Hsplit, non_null_app in Hd2.
    change (Store.non_null OAuth20PKCE.twitter_id (existing :: drop (S i) (pkce_rows t)))
      with (match OAuth20PKCE.twitter_id existing with
            | Some y => y :: Store.non_null OAuth20PKCE.twitter_id (drop (S i) (pkce_rows t))
            | None => Store.non_null OAuth20PKCE.twitter_id (drop (S i) (pkce_rows t))
            end) in Hd2.
    destruct (OAuth20PKCE.twitter_id existing) as [old |].
    - apply (ResolverFacts.has_dup_replace _ _ tid old); assumption.
    - apply has_dup_insert; assumption. }
  rewrite Hdup. exact Huser.
Qed.

(** With the three guards passed and both provider calls answered, the
    view reaches its upsert. *)
Lemma reaches_reconcile E current_user args w cv token_data access_token
      user_data data username tid :
  passes_pkce_guards args w cv ->
  token_issued E args w cv token_data access_token ->
  identity_given E w access_token user_data data username tid ->
  oauth20pkcecallback E current_user args w
  = reconcile E current_user (args !! "state") cv access_token username
              (JObj token_data) (JObj data) (JObj user_data)
              (after_calls w [token_call E (args !! "code") cv; identity_call access_token]).
Proof.
  intros Hg (r & Hr & Hstatus & Hj & Hat) (r2 & Hr2 & Hstatus2 & Hj2 & Hdata & Hname & Hid).
  enter_token_request Hg. rewrite Hr, Hstatus. cbn [Z.eqb Pos.eqb negb].
  unfold bind at 1, Eff.reply_json at 1. rewrite Hj. unfold ret at 1.
  unfold bind at 1, Json.subscript at 1. rewrite Hat. unfold ret at 1.
  unfold bind at 1, Json.as_text at 1, ret at 1.
  unfold bind at 1, Eff.http_request at 1. cbv beta iota zeta.
  cbn [http_log session committed pending flashes yielded drawn].
  rewrite length_app. cbn [length]. rewrite Nat.add_1_r.
  rewrite Hr2, Hstatus2. cbn [Z.eqb Pos.eqb negb].
  unfold bind at 1, Eff.reply_json at 1. rewrite Hj2. unfold ret at 1.
  unfold bind at 1, Json.subscript at 1. rewrite Hdata. unfold ret at 1.
  unfold bind at 1, Json.subscript at 1. rewrite Hname. unfold ret at 1.
  unfold bind at 1, Json.as_text at 1, ret at 1.
  unfold after_calls. rewrite <- app_assoc. reflexivity.
Qed.

Lemma refresh_token_read token_data old new w :
  refresh_token_after token_data old new ->
  get_refresh_token (JObj token_data) old w = (Ok new, w).
Proof.
  unfold refresh_token_after, get_refresh_token.
  destruct (token_data !! "refresh_token") as [[| n | s | items | members] |];
    intros H; try contradiction; subst new; reflexivity.
Qed.

(** The first PKCE credential of an owner, for a provider account that no
    stored credential carries: the view appends one row made of the
    owner's e-mail, the account id and name of the identity reply, the
    access and refresh tokens of the token reply, and the state and
    verifier of this exchange; it commits, flashes the success message and
    renders the account data. Every other row is kept. *)
Theorem first_pkce_credential_stored E e args w cv token_data access_token
        user_data data username tid rt :
  passes_pkce_guards args w cv ->
  token_issued E args w cv token_data access_token ->
  identity_given E w access_token user_data data username tid ->
  refresh_token_after token_data None rt ->
  pending w = None ->
  Store.violation (committed w) = None ->
  Store.first (fun r => Store.col_eq (OAuth20PKCE.email r) (Some e))
              (pkce_rows (committed w)) = None ->
  (forall x, In x (pkce_rows (committed w)) -> OAuth20PKCE.twitter_id x <> Some tid) ->
  oauth20pkcecallback E (Some e) args w
  = (Ok (success_page (Some e) (JObj user_data)),
     World (http_log w ++ [token_call E (args !! "code") cv; identity_call access_token])
           (session w)
           (set_pkce_rows (committed w)
              (pkce_rows (committed w) ++
               [OAuth20PKCE.Build (Some e) (Some tid) (Some username) (Some (clock E))
                  (Some access_token) rt (args !! "state") (Some cv) (Some (clock E))]))
           None (flashes w ++ [("Authorization successful", "success")])
           (yielded w) (drawn w)).
Proof.
  intros Hg Htoken Hidentity Hrt Hclean Hvalid Hfirst Hfree.
  rewrite (reaches_reconcile E (Some e) args w cv token_data access_token
             user_data data username tid Hg Htoken Hidentity).
  destruct Hidentity as (r2 & _ & _ & _ & _ & _ & Hid).
  unfold reconcile. unfold bind at 1, Eff.query at 1.
  unfold after_calls at 1. cbn [pending]. rewrite Hclean. cbv beta iota.
  unfold after_calls at 1. cbn [committed]. rewrite Hfirst.
  unfold bind at 1. rewrite (refresh_token_read _ _ _ _ Hrt).
  unfold bind at 1, Json.subscript at 1. rewrite Hid. unfold ret at 1.
  unfold bind at 1, Json.as_text at 1, ret at 1.
  unfold oauth10a.except_integrity, try_except.
  unfold bind at 1, Eff.stage at 1. cbv beta iota.
  unfold bind at 1, Eff.commit at 1. cbv beta iota.
  unfold after_calls. cbn [http_log session committed pending flashes yielded drawn].
  rewrite (pkce_append_valid (committed w) _ e tid Hvalid Hfirst Hfree);
    [| reflexivity | reflexivity | discriminate].
  reflexivity.
Qed.

(** The PKCE credential of an owner who already has one is refreshed in
    place: the row keeps its position, its e-mail and its creation date,
    and takes the account, the access token, the state and the verifier of
    this exchange. Its refresh token is replaced only when the token reply
    has a [refresh_token] member: a reply without one keeps the stored
    refresh token, a reply with [null] clears it. *)
Theorem pkce_credential_refreshed_in_place E e args w cv token_data access_token
        user_data data username tid i existing rt :
  passes_pkce_guards args w cv ->
  token_issued E args w cv token_data access_token ->
  identity_given E w access_token user_data data username tid ->
  refresh_token_after token_data (OAuth20PKCE.refresh_token existing) rt ->
  pending w = None ->
  Store.violation (committed w) = None ->
  Store.first (fun r => Store.col_eq (OAuth20PKCE.email r) (Some e))
              (pkce_rows (committed w)) = Some (i, existing) ->
  (forall j x, j <> i -> pkce_rows (committed w) !! j = Some x ->
               OAuth20PKCE.twitter_id x <> Some tid) ->
  oauth20pkcecallback E (Some e) args w
  = (Ok (success_page (Some e) (JObj user_data)),
     World (http_log w ++ [token_call E (args !! "code") cv; identity_call access_token])
           (session w)
           (set_pkce_rows (committed w)
              (<[i := OAuth20PKCE.Build (Some e) (Some tid) (Some username)
                        (OAuth20PKCE.date_created existing) (Some access_token) rt
                        (args !! "state") (Some cv) (Some (clock E))]>
                 (pkce_rows (committed w))))
           None (flashes w ++ [("Authorization successful", "success")])
           (yielded w) (drawn w)).
Proof.
  intros Hg Htoken Hidentity Hrt Hclean Hvalid Hfirst Hfree.
  rewrite (reaches_reconcile E (Some e) args w cv token_data access_token
             user_data data username tid Hg Htoken Hidentity).
  destruct Hidentity as (r2 & _ & _ & _ & _ & _ & Hid).
  destruct (first_Some _ _ _ _ Hfirst) as [Hi [Hp _]]. cbv beta in Hp.
  apply PkceFacts.col_eq_true in Hp. destruct Hp as [Hemail _].
  unfold reconcile. unfold bind at 1, Eff.query at 1.
  unfold after_calls at 1. cbn [pending]. rewrite Hclean. cbv beta iota.
  unfold after_calls at 1. cbn [committed]. rewrite Hfirst.
  unfold bind at 1. rewrite (refresh_token_read _ _ _ _ Hrt).
  unfold bind at 1, Json.subscript at 1. rewrite Hid. unfold ret at 1.
  unfold bind at 1, Json.as_text at 1, ret at 1.
  unfold bind at 1, Eff.stage at 1. cbv beta iota.
  unfold bind at 1, Eff.commit at 1. cbv beta iota.
  unfold after_calls. cbn [http_log session committed pending flashes yielded drawn].
  rewrite (pkce_refresh_valid (committed w) i existing _ tid Hvalid Hi);
    [| reflexivity | discriminate | reflexivity | exact Hfree].
  unfold bind, Eff.flash, ret.
  cbn [http_log session committed pending flashes yielded drawn].
  rewrite Hemail. reflexivity.
Qed.

Lemma first_pkce_credential_stored_witness :
  oauth20pkcecallback provider_env (Some "u@example.org") code_with_state
                      (fresh matching_state no_tables)
  = (Ok (success_page (Some "u@example.org")
           (JObj {["data" := JObj (<["id" := JStr "2002"]>
                                     {["username" := JStr "other_handle"]})]})),
     World [token_call provider_env (Some "authorization-code") "stored-verifier";
            identity_call "access-1"]
           matching_state
           (Tables [] [OAuth20PKCE.Build (Some "u@example.org") (Some "2002")
                         (Some "other_handle") (Some 1000) (Some "access-1")
                         (Some "refresh-1") (Some "returned-state")
                         (Some "stored-verifier") (Some 1000)] [])
           None [("Authorization successful", "success")] [] 0).
Proof.
  apply (first_pkce_credential_stored provider_env "u@example.org" code_with_state
           (fresh matching_state no_tables) "stored-verifier"
           (<["refresh_token" := JStr "refresh-1"]> {["access_token" := JStr "access-1"]})
           "access-1"
           {["data" := JObj (<["id" := JStr "2002"]> {["username" := JStr "other_handle"]})]}
           (<["id" := JStr "2002"]> {["username" := JStr "other_handle"]})
           "other_handle" "2002" (Some "refresh-1")).
  - repeat split; try reflexivity; discriminate.
  - eexists. repeat split; reflexivity.
  - eexists. repeat split; reflexivity.
  - reflexivity.
  - reflexivity.
  - reflexivity.
  - reflexivity.
  - intros x [].
Defined.

Lemma pkce_credential_refreshed_in_place_witness :
  oauth20pkcecallback Refusals.provider_without_refresh (Some "u@example.org") code_with_state
                      (fresh matching_state (Tables [] [Refusals.pkce_u_offline] []))
  = (Ok (success_page (Some "u@example.org")
           (JObj {["data" := JObj (<["id" := JStr "2002"]>
                                     {["username" := JStr "other_handle"]})]})),
     World [token_call Refusals.provider_without_refresh (Some "authorization-code")
                       "stored-verifier";
            identity_call "access-2"]
           matching_state
           (Tables [] [OAuth20PKCE.Build (Some "u@example.org") (Some "2002")
                         (Some "other_handle") (Some 20) (Some "access-2")
                         (Some "refresh-u") (Some "returned-state")
                         (Some "stored-verifier") (Some 1000)] [])
           None [("Authorization successful", "success")] [] 0).
Proof.
  apply (pkce_credential_refreshed_in_place Refusals.provider_without_refresh
           "u@example.org" code_with_state
           (fresh matching_state (Tables [] [Refusals.pkce_u_offline] []))
           "stored-verifier" {["access_token" := JStr "access-2"]} "access-2"
           {["data" := JObj (<["id" := JStr "2002"]> {["username" := JStr "other_handle"]})]}
           (<["id" := JStr "2002"]> {["username" := JStr "other_handle"]})
           "other_handle" "2002" 0%nat Refusals.pkce_u_offline (Some "refresh-u")).
  - repeat split; try reflexivity; discriminate.
  - eexists. repeat split; reflexivity.
  - eexists. repeat split; reflexivity.
  - reflexivity.
  - reflexivity.
  - reflexivity.
  - reflexivity.
  - intros [| j] x Hj Hx; [congruence | discriminate Hx].
Defined.

(** *** From the begin operation to the token request *)

Lemma appends_keeps {A} (c : M A) :
  (forall w, http_log (snd (c w)) = http_log w) -> appends c.
Proof. intros H w. exists []. rewrite H, app_nil_r. reflexivity. Qed.

Lemma appends_ret {A} (a : A) : appends (ret a).
Proof. apply appends_keeps. reflexivity. Qed.

Lemma appends_raise {A} e : appends (@raise A e).
Proof. apply appends_keeps. reflexivity. Qed.

Lemma appends_bind {A B} (c : M A) (k : A -> M B) :
  appends c -> (forall a, appends (k a)) -> appends (bind c k).
Proof.
  intros Hc Hk w. unfold bind. destruct (Hc w) as [l1 H1].
  destruct (c w) as [[a | e] w1]; cbn [snd] in *.
  - destruct (Hk a w1) as [l2 H2]. exists (l1 ++ l2).
    rewrite H2, H1, app_assoc. reflexivity.
  - exists l1. exact H1.
Qed.

Lemma appends_try_except {A} (body : M A) handler :
  appends body -> (forall e, appends (handler e)) -> appends (try_except body handler).
Proof.
  intros Hc Hk w. unfold try_except. destruct (Hc w) as [l1 H1].
  destruct (body w) as [[a | e] w1]; cbn [snd] in *.
  - exists l1. exact H1.
  - destruct (Hk e w1) as [l2 H2]. exists (l1 ++ l2).
    rewrite H2, H1, app_assoc. reflexivity.
Qed.

Lemma appends_http_request E c : appends (Eff.http_request E c).
Proof.
  intros w. exists [c]. unfold Eff.http_request.
  destruct (remote E (length (http_log w)) c); reflexivity.
Qed.

Lemma appends_reply_json E r : appends (Eff.reply_json E r).
Proof.
  apply appends_keeps. intros w. unfold Eff.reply_json.
  destruct (json_loads E (text r)); reflexivity.
Qed.

Lemma appends_query : appends Eff.query.
Proof.
  apply appends_keeps. intros w. unfold Eff.query.
  destruct (pending w) as [t |]; [destruct (Store.violation t) |]; reflexivity.
Qed.

Lemma appends_commit : appends Eff.commit.
Proof.
  apply appends_keeps. intros w. unfold Eff.commit.
  destruct (pending w) as [t |]; [destruct (Store.violation t) |]; reflexivity.
Qed.

Lemma appends_subscript j k : appends (Json.subscript j k).
Proof.
  apply appends_keeps. intros w. unfold Json.subscript.
  destruct j as [| n | s | items | members]; try reflexivity.
  destruct (members !! k); reflexivity.
Qed.

Lemma appends_as_text j : appends (Json.as_text j).
Proof. apply appends_keeps. intros w. destruct j; reflexivity. Qed.

Lemma appends_get_refresh_token token_data default :
  appends (get_refresh_token token_data default).
Proof.
  apply appends_keeps. intros w. unfold get_refresh_token.
  destruct token_data as [| n | s | items | members]; try reflexivity.
  destruct (members !! "refresh_token") as [[| n | s | items | ms] |]; reflexivity.
Qed.

(** One step of a proof that a view only appends to the call log. *)
Ltac appends_step :=
  lazymatch goal with
  | |- appends (bind _ _) => apply appends_bind; [| intros ?]
  | |- appends (try_except _ _) => apply appends_try_except; [| intros ?]
  | |- appends (ret _) => apply appends_ret
  | |- appends (raise _) => apply appends_raise
  | |- appends (Eff.http_request _ _) => apply appends_http_request
  | |- appends (Eff.reply_json _ _) => apply appends_reply_json
  | |- appends Eff.query => apply appends_query
  | |- appends Eff.commit => apply appends_commit
  | |- appends (Json.subscript _ _) => apply appends_subscript
  | |- appends (Json.as_text _) => apply appends_as_text
  | |- appends (get_refresh_token _ _) => apply appends_get_refresh_token
  | |- appends (Eff.flash _ _) => apply appends_keeps; reflexivity
  | |- appends (Eff.stage _) => apply appends_keeps; reflexivity
  | |- appends Eff.rollback => apply appends_keeps; reflexivity
  | |- appends (match ?x with _ => _ end) => destruct x
  end.

Lemma appends_reconcile E email state cv access_token username token_data data user_data :
  appends (reconcile E email state cv access_token username token_data data user_data).
Proof.
  unfold reconcile, oauth10a.except_integrity.
  apply appends_bind; [apply appends_query | intros t].
  destruct (Store.first _ (pkce_rows t)) as [[i existing] |]; repeat appends_step.
Qed.

(** The first call of a computation that starts with a request. *)
Lemma starts_with_request {A} E c (k : http_reply -> M A) w :
  (forall r, appends (k r)) ->
  exists later, http_log (snd (bind (Eff.http_request E c) k w)) = http_log w ++ c :: later.
Proof.
  intros Hk. unfold bind, Eff.http_request.
  destruct (remote E (length (http_log w)) c) as [e | r].
  - exists []. reflexivity.
  - destruct (Hk r (World (http_log w ++ [c]) (session w) (committed w) (pending w)
                          (flashes w) (yielded w) (drawn w))) as [later H].
    exists later. rewrite H. cbn [http_log]. rewrite <- app_assoc. reflexivity.
Qed.

(** A run of the begin operation, and the session it leaves. *)
Lemma index_run E w :
  exists verifier state,
    oauth20pkce_index E w
    = (Ok (RenderTemplate "oauth20pkceindex.html"
             [("authorization_url",
               JStr (Pkce.authorization_url E state (Pkce.code_challenge verifier)))]),
       World (http_log w)
             (<["state" := state]> (<["code_verifier" := verifier]> (session w)))
             (committed w) (pending w) (flashes w) (yielded w) (256 + drawn w))
    /\ verifier <> "".
Proof.
  destruct (PkceFacts.choices_unreserved E 128 w) as [cs [Hrun [Hlen Hall]]].
  destruct (PkceFacts.token_hex_runs E 128 (after_draws w 128)) as [state Hstate].
  exists (Py.join_chars cs), state. split.
  - unfold oauth20pkce_index, Pkce.code_verifier.
    unfold bind at 1. unfold bind at 1. rewrite Hrun. unfold ret at 1.
    unfold bind at 1. rewrite Hstate.
    unfold bind, Eff.session_set, ret, after_draws.
    cbn [http_log session committed pending flashes yielded drawn].
    reflexivity.
  - intros Hempty.
    assert (Hl : String.length (Py.join_chars cs) = 128%nat)
      by (unfold Py.join_chars; rewrite PkceFacts.length_string_of_list; exact Hlen).
    rewrite Hempty in Hl. discriminate Hl.
Qed.

(** The verifier that a PKCE callback redeems is the one that the begin
    operation generated: after [oauth20pkce_index], a callback that
    returns the state of the session and no [error] makes, as its first
    call, the token request that carries the verifier whose challenge the
    begin operation put into the authorization URL together with that
    state. *)
Theorem generated_verifier_is_redeemed E w current_user args :
  Py.truthy (args !! "error") = false ->
  args !! "state" = session (snd (oauth20pkce_index E w)) !! "state" ->
  exists verifier state later,
    fst (oauth20pkce_index E w)
    = Ok (RenderTemplate "oauth20pkceindex.html"
            [("authorization_url",
              JStr (Pkce.authorization_url E state (Pkce.code_challenge verifier)))])
    /\ args !! "state" = Some state
    /\ http_log (snd (oauth20pkcecallback E current_user args (snd (oauth20pkce_index E w))))
       = http_log w ++ token_call E (args !! "code") verifier :: later.
Proof.
  intros Herr Hstate.
  destruct (index_run E w) as (verifier & state & Hrun & Hne).
  rewrite Hrun in *. cbn [fst snd] in *. cbn [session] in Hstate.
  rewrite lookup_insert_eq in Hstate.
  exists verifier, state.
  enough (Hlog : exists later,
             http_log (snd (oauth20pkcecallback E current_user args
                              (World (http_log w)
                                 (<["state" := state]>
                                    (<["code_verifier" := verifier]> (session w)))
                                 (committed w) (pending w) (flashes w) (yielded w)
                                 (256 + drawn w))))
             = http_log w ++ token_call E (args !! "code") verifier :: later).
  { destruct Hlog as [later Hlog]. exists later. auto. }
  unfold oauth20pkcecallback. rewrite Herr.
  unfold bind at 1, Eff.session_get at 1. cbv beta iota. cbn [session].
  rewrite lookup_insert_eq, Hstate, PkceFacts.ne_refl.
  unfold bind at 1, Eff.session_get at 1. cbv beta iota. cbn [session].
  rewrite lookup_insert_ne by discriminate. rewrite lookup_insert_eq.
  rewrite (truthy_value_nonempty _ _ eq_refl Hne).
  match goal with
  | |- exists later, http_log (snd (bind (Eff.http_request E ?c) ?k ?w1)) = _ =>
      destruct (starts_with_request E c k w1) as [later Hlater]
  end.
  - intros r. destruct (negb (status_code r =? 200)); repeat appends_step.
    apply appends_reconcile.
  - exists later. exact Hlater.
Qed.

Lemma generated_verifier_is_redeemed_witness :
  exists verifier state later,
    fst (oauth20pkce_index provider_env (fresh ∅ no_tables))
    = Ok (RenderTemplate "oauth20pkceindex.html"
            [("authorization_url",
              JStr (Pkce.authorization_url provider_env state
                      (Pkce.code_challenge verifier)))])
    /\ returning_state provider_env (fresh ∅ no_tables) !! "state" = Some state
    /\ http_log (snd (oauth20pkcecallback provider_env (Some "u@example.org")
                        (returning_state provider_env (fresh ∅ no_tables))
                        (snd (oauth20pkce_index provider_env (fresh ∅ no_tables)))))
       = http_log (fresh ∅ no_tables)
         ++ token_call provider_env
              (returning_state provider_env (fresh ∅ no_tables) !! "code") verifier
            :: later.
Proof.
  apply (generated_verifier_is_redeemed provider_env (fresh ∅ no_tables)
           (Some "u@example.org") (returning_state provider_env (fresh ∅ no_tables))).
  - vm_compute. reflexivity.
  - vm_compute. reflexivity.
Defined.

(** *** The state token *)

Lemma hex_position d :
  (d < 16)%nat -> exists c, String.get d "0123456789abcdef" = Some c /\ hex_digit c = true.
Proof.
  intros Hd. do 16 (destruct d as [| d]; [eexists; split; reflexivity |]). lia.
Qed.

Lemma token_hex_digits E n :
  forall w, exists s,
    Eff.token_hex E n w = (Ok s, after_draws w n)
    /\ String.length s = (2 * n)%nat
    /\ Forall (fun c => hex_digit c = true) (list_ascii_of_string s).
Proof.
  induction n as [| n IH]; intros w.
  - exists "". cbn. destruct w; repeat split; constructor.
  - cbn [Eff.token_hex]. unfold bind at 1, Eff.randbelow at 1. cbv beta iota.
    change (World (http_log w) (session w) (committed w) (pending w) (flashes w)
                  (yielded w) (S (drawn w))) with (after_draws w 1).
    unfold bind at 1.
    destruct (IH (after_draws w 1)) as (s & -> & Hlen & Hall).
    assert (Hb : (entropy E (drawn w) mod 256 < 256)%nat)
      by (apply Nat.mod_upper_bound; discriminate).
    destruct (hex_position (entropy E (drawn w) mod 256 / 16)) as (hi & Hhi & Hhex_hi).
    { apply Nat.Div0.div_lt_upper_bound. exact Hb. }
    destruct (hex_position ((entropy E (drawn w) mod 256) mod 16)) as (lo & Hlo & Hhex_lo).
    { apply Nat.mod_upper_bound. discriminate. }
    cbv zeta. rewrite Hhi, Hlo.
    eexists. unfold ret. rewrite PkceFacts.after_draws_add.
    replace (n + 1)%nat with (S n) by lia.
    split; [reflexivity |]. split.
    + cbn [String.length]. lia.
    + cbn [list_ascii_of_string]. repeat constructor; assumption.
Qed.

(** The state that [oauth20pkce_index] leaves in the session, and sends in
    the authorization URL, is a string of exactly 256 lower-case
    hexadecimal digits: the 128 random bytes of [secrets.token_hex(128)]. *)
Theorem begin_state_is_256_hex_digits E w :
  exists verifier state,
    fst (oauth20pkce_index E w)
    = Ok (RenderTemplate "oauth20pkceindex.html"
            [("authorization_url",
              JStr (Pkce.authorization_url E state (Pkce.code_challenge verifier)))])
    /\ session (snd (oauth20pkce_index E w)) !! "state" = Some state
    /\ String.length state = 256%nat
    /\ Forall (fun c => hex_digit c = true) (list_ascii_of_string state).
Proof.
  destruct (PkceFacts.choices_unreserved E 128 w) as [cs [Hrun _]].
  destruct (token_hex_digits E 128 (after_draws w 128)) as (state & Hstate & Hlen & Hall).
  exists (Py.join_chars cs), state.
  assert (Hindex : oauth20pkce_index E w
                   = (Ok (RenderTemplate "oauth20pkceindex.html"
                            [("authorization_url",
                              JStr (Pkce.authorization_url E state
                                      (Pkce.code_challenge (Py.join_chars cs))))]),
                      World (http_log w)
                        (<["state" := state]>
                           (<["code_verifier" := Py.join_chars cs]> (session w)))
                        (committed w) (pending w) (flashes w) (yielded w)
                        (256 + drawn w))).
  { unfold oauth20pkce_index, Pkce.code_verifier.
    unfold bind at 1. unfold bind at 1. rewrite Hrun. unfold ret at 1.
    unfold bind at 1. rewrite Hstate.
    unfold bind, Eff.session_set, ret, after_draws.
    cbn [http_log session committed pending flashes yielded drawn].
    reflexivity. }
  rewrite Hindex. cbn [fst snd session].
  split; [reflexivity |]. split; [apply lookup_insert_eq |].
  split; [exact Hlen | exact Hall].
Qed.

(** *** Callbacks without a logged-in user *)

Lemma col_eq_None a : Store.col_eq a None = false.
Proof. destruct a; reflexivity. Qed.

Lemma first_never {A} (p : A -> bool) rows :
  (forall r, p r = false) -> Store.first p rows = None.
Proof.
  intros Hp. unfold Store.first. generalize 0%nat.
  induction rows as [| r rows IH]; intros base; cbn [Store.first_from]; [reflexivity |].
  rewrite Hp. apply IH.
Qed.

Lemma oauth10a_anonymous_violation t r' :
  OAuth10a.email r' = None ->
  Store.violation (set_oauth10a_rows t (oauth10a_rows t ++ [r']))
  = Some "NOT NULL constraint failed: OAuth10a_3Legged.email".
Proof.
  intros Hemail.
  unfold Store.violation, set_oauth10a_rows. cbn [oauth10a_rows pkce_rows user_rows].
  unfold Store.oauth10a_violation.
  rewrite has_null_app. unfold Store.has_null at 2. cbn [existsb]. rewrite Hemail.
  rewrite Bool.orb_true_r. reflexivity.
Qed.

(** A complete 1.0a callback without a logged-in user stages a credential
    without e-mail; the lookup of the user row flushes it, and the
    [IntegrityError] of the NOT NULL constraint leaves the view, outside
    the guarded commit: no "Database error" page, no rollback, nothing
    committed, after both provider calls were made. The stored tables are
    taken to satisfy their constraints, so that no stored row has a NULL
    e-mail for the lookup by e-mail to find. *)
Theorem anonymous_callback_raises E args w tok ver sec rt rs sn tid :
  passes_guards args w tok ver sec ->
  provider_issues E w tok ver sec rt rs ->
  provider_verifies E w rt rs sn tid ->
  pending w = None ->
  Store.violation (committed w) = None ->
  oauth10acallback E None args w
  = (Raise (IntegrityError "NOT NULL constraint failed: OAuth10a_3Legged.email"),
     World (http_log w ++ [exchange_call E tok sec ver; verify_call E rt rs])
           (session w) (committed w)
           (Some (set_oauth10a_rows (committed w)
                    (oauth10a_rows (committed w) ++
                     [OAuth10a.Build None tid sn (Some (clock E)) (Some (clock E))
                        ver rt rs None])))
           (flashes w) (yielded w) (drawn w)).
Proof.
  intros Hg (r & Hr & Hstatus & Hrt & Hrs) (r2 & members & Hr2 & Hstatus2 & Hj & Hsn & Hid)
         Hclean _.
  enter_exchange Hg.
  unfold exchange_call in Hr. rewrite Hr, Hstatus. cbn [Z.eqb Pos.eqb negb].
  unfold bind at 1, Token at 1. rewrite Hrt, Hrs. unfold ret at 1. cbn [fst snd].
  unfold bind at 1, Eff.http_request at 1. cbv beta iota zeta.
  cbn [http_log session committed pending flashes yielded drawn].
  rewrite length_app. cbn [length]. rewrite Nat.add_1_r.
  unfold verify_call in Hr2. rewrite Hr2, Hstatus2. cbn [Z.eqb Pos.eqb negb].
  unfold bind at 1, Eff.reply_json at 1. rewrite Hj. unfold ret at 1.
  unfold bind at 1, Json.get at 1. rewrite Hsn. unfold ret at 1.
  unfold bind at 1, Json.as_text at 1, ret at 1.
  unfold bind at 1, Json.get at 1. rewrite Hid. unfold ret at 1.
  unfold bind at 1, Json.as_text at 1, ret at 1.
  unfold bind at 1, upsert_oauth10a at 1, bind at 1, Eff.query at 1.
  cbn [http_log session committed pending flashes yielded drawn].
  rewrite Hclean. cbv beta iota.
  rewrite <- app_assoc. cbn [app].
  rewrite (first_never _ (oauth10a_rows (committed w)))
    by (intros x; apply col_eq_None).
  unfold Eff.stage at 1. cbv beta iota.
  unfold bind at 1, upsert_user at 1, bind at 1, Eff.query at 1.
  cbn [http_log session committed pending flashes yielded drawn].
  rewrite oauth10a_anonymous_violation by reflexivity.
  reflexivity.
Qed.

Lemma anonymous_callback_raises_witness :
  oauth10acallback provider10a_env None complete_callback
                   (fresh request_secret (Tables [] [] [user_u]))
  = (Raise (IntegrityError "NOT NULL constraint failed: OAuth10a_3Legged.email"),
     World [exchange_call provider10a_env "request-token" "request-secret" "verifier";
            verify_call provider10a_env "real-token" "real-secret"]
           request_secret (Tables [] [] [user_u])
           (Some (Tables [OAuth10a.Build None "1001" "old_handle" (Some 1000) (Some 1000)
                            "verifier" "real-token" "real-secret" None] [] [user_u]))
           [] [] 0).
Proof.
  apply (anonymous_callback_raises provider10a_env complete_callback
           (fresh request_secret (Tables [] [] [user_u]))
           "request-token" "verifier" "request-secret" "real-token" "real-secret"
           "old_handle" "1001").
  - repeat split; try reflexivity; discriminate.
  - eexists. repeat split; reflexivity.
  - eexists. eexists. repeat split; reflexivity.
  - reflexivity.
  - reflexivity.
Defined.

(** A complete PKCE callback without a logged-in user cannot store its
    credential: the insert of a row without e-mail is rejected by the
    commit, rolled back, and answered by a redirect home with the generic
    error flash. The tokens that the provider issued are dropped, and the
    committed tables are those before the call. *)
Theorem anonymous_pkce_callback_rolled_back E args w cv token_data access_token
        user_data data username tid rt :
  passes_pkce_guards args w cv ->
  token_issued E args w cv token_data access_token ->
  identity_given E w access_token user_data data username tid ->
  refresh_token_after token_data None rt ->
  pending w = None ->
  Store.violation (committed w) = None ->
  oauth20pkcecallback E None args w
  = (Ok (Redirect "unauth.unauthhome"),
     flashed (after_calls w [token_call E (args !! "code") cv; identity_call access_token])
             "An error occurred. Please try again." "error").
Proof.
  intros Hg Htoken Hidentity Hrt Hclean Hvalid.
  rewrite (reaches_reconcile E None args w cv token_data access_token
             user_data data username tid Hg Htoken Hidentity).
  destruct Hidentity as (r2 & _ & _ & _ & _ & _ & Hid).
  unfold reconcile. unfold bind at 1, Eff.query at 1.
  unfold after_calls at 1. cbn [pending]. rewrite Hclean. cbv beta iota.
  unfold after_calls at 1. cbn [committed].
  rewrite (first_never _ (pkce_rows (committed w))) by (intros x; apply col_eq_None).
  unfold bind at 1. rewrite (refresh_token_read _ _ _ _ Hrt).
  unfold bind at 1, Json.subscript at 1. rewrite Hid. unfold ret at 1.
  unfold bind at 1, Json.as_text at 1, ret at 1.
  unfold oauth10a.except_integrity, try_except.
  unfold bind at 1, Eff.stage at 1. cbv beta iota.
  unfold bind at 1, Eff.commit at 1. cbv beta iota.
  unfold after_calls. cbn [http_log session committed pending flashes yielded drawn].
  rewrite (PkceFacts.anonymous_insert_violation (committed w) _ Hvalid) by reflexivity.
  unfold bind, Eff.rollback, Eff.flash, ret, flashed.
  change (Py.contains "UNIQUE constraint failed: OAuth20_PKCE.twitter_id"
                      "NOT NULL constraint failed: OAuth20_PKCE.email")
    with false.
  cbv beta iota. cbn [http_log session committed pending flashes yielded drawn].
  destruct Hclean. reflexivity.
Qed.

Lemma anonymous_pkce_callback_rolled_back_witness :
  oauth20pkcecallback provider_env None code_with_state (fresh matching_state no_tables)
  = (Ok (Redirect "unauth.unauthhome"),
     flashed (after_calls (fresh matching_state no_tables)
                [token_call provider_env (Some "authorization-code") "stored-verifier";
                 identity_call "access-1"])
             "An error occurred. Please try again." "error").
Proof.
  apply (anonymous_pkce_callback_rolled_back provider_env code_with_state
           (fresh matching_state no_tables) "stored-verifier"
           (<["refresh_token" := JStr "refresh-1"]> {["access_token" := JStr "access-1"]})
           "access-1"
           {["data" := JObj (<["id" := JStr "2002"]> {["username" := JStr "other_handle"]})]}
           (<["id" := JStr "2002"]> {["username" := JStr "other_handle"]})
           "other_handle" "2002" (Some "refresh-1")).
  - repeat split; try reflexivity; discriminate.
  - eexists. repeat split; reflexivity.
  - eexists. repeat split; reflexivity.
  - reflexivity.
  - reflexivity.
  - reflexivity.
Defined.

End CallbackEdges.

(** ** The begin operation of the 1.0a flow *)

Module IndexFacts.
Import oauth10a oauth10a_index Scenario StoreFacts.

Section Begin.
Variable E : env.
Variables REQUEST_TOKEN_URL AUTHORIZE_URL app_callback_url : string.
Variable generate_password_hash : string -> M string.

(** The password hash draws entropy for its salt and does nothing else. *)
Hypothesis hash_draws :
  forall password w, exists h n, generate_password_hash password w = (Ok h, after_draws w n).

(** A refused request for a request token (any status but 200) ends the
    begin operation with [TwitterAPIError]: after the one call nothing is
    put into the session or into [oauth_store], and the route serves the
    error page with the provider's status code as its own HTTP status and
    the text ["<code>: <message of the code>"]. *)
Theorem refused_request_token_is_served oauth_store w r :
  remote E (length (http_log w)) (request_token_call E REQUEST_TOKEN_URL app_callback_url)
  = inr r ->
  status_code r <> 200 ->
  exists error,
    oauth10aindex E REQUEST_TOKEN_URL AUTHORIZE_URL app_callback_url generate_password_hash
                  oauth_store w
    = (Ok (ApiError error, oauth_store),
       after_calls w [request_token_call E REQUEST_TOKEN_URL app_callback_url])
    /\ served (ApiError error)
       = (render_error (Py.str_of_Z (status_code r) +:+ ": "
                        +:+ TwitterAPIError.get_error_message (Some (status_code r))),
          Some (status_code r)).
Proof.
  intros Hr Hstatus. eexists. split.
  - unfold oauth10aindex. unfold bind at 1, Eff.http_request at 1. cbv beta iota zeta.
    rewrite Hr. apply Z.eqb_neq in Hstatus. rewrite Hstatus. reflexivity.
  - reflexivity.
Qed.

(** A reply with status 200 that lacks the token or its secret makes the
    begin operation raise [KeyError]; the handler of [UnicodeDecodeError]
    around the two reads does not catch it, and nothing is stored. *)
Theorem request_token_without_pair_raises oauth_store w r :
  remote E (length (http_log w)) (request_token_call E REQUEST_TOKEN_URL app_callback_url)
  = inr r ->
  status_code r = 200 ->
  parse_qsl E (text r) !! "oauth_token" = None
  \/ parse_qsl E (text r) !! "oauth_token_secret" = None ->
  exists k,
    oauth10aindex E REQUEST_TOKEN_URL AUTHORIZE_URL app_callback_url generate_password_hash
                  oauth_store w
    = (Raise (KeyError k),
       after_calls w [request_token_call E REQUEST_TOKEN_URL app_callback_url]).
Proof.
  intros Hr Hstatus Hmissing.
  unfold oauth10aindex. unfold bind at 1, Eff.http_request at 1. cbv beta iota zeta.
  rewrite Hr, Hstatus. cbn [Z.eqb Pos.eqb negb].
  unfold bind at 1, member at 1.
  destruct (parse_qsl E (text r) !! "oauth_token") as [tok |] eqn:Htok.
  - destruct Hmissing as [Hmissing | Hmissing]; [discriminate |].
    unfold ret at 1. unfold bind at 1, member at 1. rewrite Hmissing.
    eexists. reflexivity.
  - eexists. reflexivity.
Qed.

(** *** The callback only appends to the log of calls *)

Lemma appends_Token key secret : appends (Token key secret).
Proof.
  apply CallbackEdges.appends_keeps. intros w0.
  destruct key, secret; reflexivity.
Qed.

Lemma appends_get j k default : appends (Json.get j k default).
Proof. apply CallbackEdges.appends_keeps. intros w0. destruct j; reflexivity. Qed.

Lemma appends_choice seq : appends (Eff.choice E seq).
Proof.
  apply CallbackEdges.appends_keeps. intros w0. unfold Eff.choice.
  destruct seq as [| c rest]; [reflexivity |].
  unfold bind, Eff.randbelow.
  destruct (String.get _ (String c rest)); reflexivity.
Qed.

Lemma appends_choices n : appends (Pkce.choices E n).
Proof.
  induction n as [| n IH]; cbn [Pkce.choices].
  - apply CallbackEdges.appends_ret.
  - apply CallbackEdges.appends_bind; [apply appends_choice | intros c].
    apply CallbackEdges.appends_bind; [exact IH | intros rest].
    apply CallbackEdges.appends_ret.
Qed.

Lemma appends_token_hex n : appends (Eff.token_hex E n).
Proof.
  induction n as [| n IH]; cbn [Eff.token_hex].
  - apply CallbackEdges.appends_ret.
  - apply CallbackEdges.appends_bind;
      [apply CallbackEdges.appends_keeps; reflexivity | intros b].
    apply CallbackEdges.appends_bind; [exact IH | intros rest].
    apply CallbackEdges.appends_ret.
Qed.

Lemma appends_upsert_oauth10a email user_id screen_name token secret verifier :
  appends (upsert_oauth10a E email user_id screen_name token secret verifier).
Proof.
  unfold upsert_oauth10a.
  apply CallbackEdges.appends_bind; [apply CallbackEdges.appends_query | intros t].
  destruct (Store.first _ (oauth10a_rows t)) as [[i existing] |];
    apply CallbackEdges.appends_keeps; reflexivity.
Qed.

Lemma appends_upsert_user email user_id screen_name :
  appends (upsert_user E email user_id screen_name).
Proof.
  unfold upsert_user.
  apply CallbackEdges.appends_bind; [apply CallbackEdges.appends_query | intros t].
  destruct (Store.first _ (user_rows t)) as [[i existing] |];
    apply CallbackEdges.appends_keeps; reflexivity.
Qed.

(** The part of the callback that follows the answer to the access-token
    request. *)
Lemma appends_after_exchange current_user oauth_verifier resp :
  appends
    (if negb (status_code resp =? 200)
     then ret (render_error "Error obtaining access token")
     else
       let access_token_data := parse_qsl E (text resp) in
       do token <- Token (access_token_data !! "oauth_token")
                         (access_token_data !! "oauth_token_secret");
       let real_oauth_token := fst token in
       let real_oauth_token_secret := snd token in
       do resp <- Eff.http_request E
            (HttpCall "GET" "https://api.twitter.com/1.1/account/verify_credentials.json"
               (OAuth1 (API_AKA_CONSUMER_KEY (cfg E)) (API_AKA_CONSUMER_KEY_SECRET (cfg E))
                       (Some real_oauth_token) (Some real_oauth_token_secret) None) []);
       if negb (status_code resp =? 200)
       then ret (render_error "Error fetching user data")
       else
         do response_data <- Eff.reply_json E resp;
         do screen_name_json <- Json.get response_data "screen_name" (JStr "Unknown");
         do screen_name <- Json.as_text screen_name_json;
         do user_id_json <- Json.get response_data "id_str" (JStr "Unknown");
         do user_id <- Json.as_text user_id_json;
         run upsert_oauth10a E current_user user_id screen_name
               real_oauth_token real_oauth_token_secret oauth_verifier;
         run upsert_user E current_user user_id screen_name;
         do failure <-
           except_integrity
             (run Eff.commit; ret None)
             (fun _ =>
                run Eff.rollback;
                ret (Some (render_error "Database error")));
         match failure with
         | Some page => ret page
         | None =>
             do code_verifier <- Pkce.code_verifier E;
             let code_challenge := Pkce.code_challenge code_verifier in
             do state <- Eff.token_hex E 128;
             run Eff.session_set "code_verifier" code_verifier;
             run Eff.session_set "state" state;
             let authorization_url := Pkce.authorization_url E state code_challenge in
             do name <- Json.get response_data "name" (JStr "Unknown");
             do friends_count <- Json.get response_data "friends_count" (JStr "Unavailable");
             do statuses_count <- Json.get response_data "statuses_count" (JStr "Unavailable");
             do followers_count <- Json.get response_data "followers_count" (JStr "Unavailable");
             ret (RenderTemplate "oauth10acallback.html"
                    [("screen_name", JStr screen_name); ("user_id", JStr user_id);
                     ("name", name); ("friends_count", friends_count);
                     ("statuses_count", statuses_count);
                     ("followers_count", followers_count);
                     ("email", match current_user with Some e => JStr e | None => JNull end);
                     ("authorization_url", JStr authorization_url)])
         end).
Proof.
  destruct (negb (status_code resp =? 200)); [apply CallbackEdges.appends_ret |].
  cbv zeta.
  apply CallbackEdges.appends_bind; [apply appends_Token | intros token].
  apply CallbackEdges.appends_bind; [apply CallbackEdges.appends_http_request | intros resp2].
  destruct (negb (status_code resp2 =? 200)); [apply CallbackEdges.appends_ret |].
  apply CallbackEdges.appends_bind; [apply CallbackEdges.appends_reply_json | intros j].
  apply CallbackEdges.appends_bind; [apply appends_get | intros j1].
  apply CallbackEdges.appends_bind; [apply CallbackEdges.appends_as_text | intros sn].
  apply CallbackEdges.appends_bind; [apply appends_get | intros j2].
  apply CallbackEdges.appends_bind; [apply CallbackEdges.appends_as_text | intros uid].
  apply CallbackEdges.appends_bind; [apply appends_upsert_oauth10a | intros _].
  apply CallbackEdges.appends_bind; [apply appends_upsert_user | intros _].
  apply CallbackEdges.appends_bind.
  - unfold except_integrity. apply CallbackEdges.appends_try_except.
    + apply CallbackEdges.appends_bind; [apply CallbackEdges.appends_commit | intros _].
      apply CallbackEdges.appends_ret.
    + intros e. destruct e; try apply CallbackEdges.appends_raise.
      apply CallbackEdges.appends_bind;
        [apply CallbackEdges.appends_keeps; reflexivity | intros _].
      apply CallbackEdges.appends_ret.
  - intros [page |]; [apply CallbackEdges.appends_ret |].
    apply CallbackEdges.appends_bind.
    { unfold Pkce.code_verifier.
      apply CallbackEdges.appends_bind; [apply appends_choices | intros cs].
      apply CallbackEdges.appends_ret. }
    intros code_verifier.
    apply CallbackEdges.appends_bind; [apply appends_token_hex | intros state].
    apply CallbackEdges.appends_bind;
      [apply CallbackEdges.appends_keeps; reflexivity | intros _].
    apply CallbackEdges.appends_bind;
      [apply CallbackEdges.appends_keeps; reflexivity | intros _].
    do 4 (apply CallbackEdges.appends_bind; [apply appends_get | intros ?]).
    apply CallbackEdges.appends_ret.
Qed.

(** Begin and callback compose through the session only. After a begin
    operation that obtained a request token, the raw secret is in the
    session and its hash in [oauth_store] under the token; a callback with
    a verifier then makes, as its first call, the access-token request
    signed with that secret and with whatever request token its query
    string names: the token is compared neither with the issued one nor
    with [oauth_store]. *)
Theorem issued_secret_signs_exchange oauth_store w r issued secret current_user args tok ver :
  remote E (length (http_log w)) (request_token_call E REQUEST_TOKEN_URL app_callback_url)
  = inr r ->
  status_code r = 200 ->
  parse_qsl E (text r) !! "oauth_token" = Some issued ->
  parse_qsl E (text r) !! "oauth_token_secret" = Some secret ->
  secret <> "" ->
  Py.truthy (args !! "denied") = false ->
  args !! "oauth_token" = Some tok -> tok <> "" ->
  args !! "oauth_verifier" = Some ver -> ver <> "" ->
  exists h w1 later,
    oauth10aindex E REQUEST_TOKEN_URL AUTHORIZE_URL app_callback_url
                  generate_password_hash oauth_store w
    = (Ok (Page (RenderTemplate "oauth10aindex.html"
                   [("authorize_url", JStr AUTHORIZE_URL);
                    ("oauth_token", JStr issued);
                    ("request_token_url", JStr REQUEST_TOKEN_URL);
                    ("app_callback_uri", JStr app_callback_url)]),
           <[issued := h]> oauth_store), w1)
    /\ fst (generate_password_hash secret
              (after_calls w [request_token_call E REQUEST_TOKEN_URL app_callback_url]))
       = Ok h
    /\ session w1 = <["oauth_token_secret" := secret]> (session w)
    /\ committed w1 = committed w
    /\ http_log (snd (oauth10acallback E current_user args w1))
       = http_log w ++ request_token_call E REQUEST_TOKEN_URL app_callback_url
                       :: exchange_call E tok secret ver :: later.
Proof.
  intros Hr Hstatus Hissued Hsecret Hne Hd Ht Htne Hv Hvne.
  destruct (hash_draws secret
              (after_calls w [request_token_call E REQUEST_TOKEN_URL app_callback_url]))
    as (h & n & Hhash).
  exists h.
  eexists (World (http_log w ++ [request_token_call E REQUEST_TOKEN_URL app_callback_url])
                 (<["oauth_token_secret" := secret]> (session w))
                 (committed w) (pending w) (flashes w) (yielded w) (n + drawn w)).
  assert (Hindex : oauth10aindex E REQUEST_TOKEN_URL AUTHORIZE_URL app_callback_url
                                 generate_password_hash oauth_store w
                   = (Ok (Page (RenderTemplate "oauth10aindex.html"
                                  [("authorize_url", JStr AUTHORIZE_URL);
                                   ("oauth_token", JStr issued);
                                   ("request_token_url", JStr REQUEST_TOKEN_URL);
                                   ("app_callback_uri", JStr app_callback_url)]),
                          <[issued := h]> oauth_store),
                      World (http_log w
                             ++ [request_token_call E REQUEST_TOKEN_URL app_callback_url])
                            (<["oauth_token_secret" := secret]> (session w))
                            (committed w) (pending w) (flashes w) (yielded w)
                            (n + drawn w))).
  { unfold oauth10aindex. unfold bind at 1, Eff.http_request at 1. cbv beta iota zeta.
    rewrite Hr, Hstatus. cbn [Z.eqb Pos.eqb negb].
    unfold bind at 1, member at 1. rewrite Hissued. unfold ret at 1.
    unfold bind at 1, member at 1. rewrite Hsecret. unfold ret at 1.
    unfold bind at 1. unfold after_calls in Hhash. rewrite Hhash.
    unfold bind, Eff.session_set, ret, after_draws.
    cbn [http_log session committed pending flashes yielded drawn]. reflexivity. }
  enough (Hlog : exists later,
             http_log (snd (oauth10acallback E current_user args
                              (World (http_log w
                                      ++ [request_token_call E REQUEST_TOKEN_URL
                                            app_callback_url])
                                 (<["oauth_token_secret" := secret]> (session w))
                                 (committed w) (pending w) (flashes w) (yielded w)
                                 (n + drawn w))))
             = http_log w ++ request_token_call E REQUEST_TOKEN_URL app_callback_url
                             :: exchange_call E tok secret ver :: later).
  { destruct Hlog as [later Hlog]. exists later.
    split; [exact Hindex |]. split; [rewrite Hhash; reflexivity |].
    split; [reflexivity |]. split; [reflexivity | exact Hlog]. }
  unfold oauth10acallback.
  rewrite (OAuth10aFacts.truthy_value_None _ Hd),
          (CallbackEdges.truthy_value_nonempty _ _ Ht Htne),
          (CallbackEdges.truthy_value_nonempty _ _ Hv Hvne).
  unfold bind at 1, Eff.session_get at 1. cbv beta iota. cbn [session].
  rewrite lookup_insert_eq.
  rewrite (CallbackEdges.truthy_value_nonempty _ _ eq_refl Hne).
  cbv zeta.
  match goal with
  | |- exists later, http_log (snd (bind (Eff.http_request E ?c) ?k ?w1)) = _ =>
      destruct (CallbackEdges.starts_with_request E c k w1) as [later Hlater]
  end.
  - intros resp. apply appends_after_exchange.
  - exists later. rewrite Hlater. cbn [http_log]. rewrite <- app_assoc. reflexivity.
Qed.

End Begin.

Lemma refused_request_token_is_served_witness :
  exists error,
    oauth10aindex (env_with Refusals.refuse_all 0) "https://api.twitter.com/oauth/request_token"
                  "https://api.twitter.com/oauth/authorize"
                  "https://example.org/oauth10acallback" stub_password_hash ∅
                  (fresh ∅ no_tables)
    = (Ok (ApiError error, ∅),
       after_calls (fresh ∅ no_tables)
         [request_token_call (env_with Refusals.refuse_all 0)
            "https://api.twitter.com/oauth/request_token"
            "https://example.org/oauth10acallback"])
    /\ served (ApiError error)
       = (render_error (Py.str_of_Z (status_code Refusals.unauthorized) +:+ ": "
                        +:+ TwitterAPIError.get_error_message
                              (Some (status_code Refusals.unauthorized))),
          Some (status_code Refusals.unauthorized)).
Proof.
  apply (refused_request_token_is_served (env_with Refusals.refuse_all 0)
           "https://api.twitter.com/oauth/request_token"
           "https://api.twitter.com/oauth/authorize"
           "https://example.org/oauth10acallback" stub_password_hash ∅
           (fresh ∅ no_tables) Refusals.unauthorized).
  - reflexivity.
  - discriminate.
Defined.

Lemma stub_password_hash_draws :
  forall password w, exists h n, stub_password_hash password w = (Ok h, after_draws w n).
Proof. intros password w. eexists. eexists. reflexivity. Qed.

Lemma request_token_without_pair_raises_witness :
  exists k,
    oauth10aindex (env_with always_ok 0) "https://api.twitter.com/oauth/request_token"
                  "https://api.twitter.com/oauth/authorize"
                  "https://example.org/oauth10acallback" stub_password_hash ∅
                  (fresh ∅ no_tables)
    = (Raise (KeyError k),
       after_calls (fresh ∅ no_tables)
         [request_token_call (env_with always_ok 0)
            "https://api.twitter.com/oauth/request_token"
            "https://example.org/oauth10acallback"]).
Proof.
  apply (request_token_without_pair_raises (env_with always_ok 0)
           "https://api.twitter.com/oauth/request_token"
           "https://api.twitter.com/oauth/authorize"
           "https://example.org/oauth10acallback" stub_password_hash ∅
           (fresh ∅ no_tables) ok_reply).
  - reflexivity.
  - reflexivity.
  - left. reflexivity.
Defined.

Lemma issued_secret_signs_exchange_witness :
  exists h w1 later,
    oauth10aindex Refusals.issuing_env "https://api.twitter.com/oauth/request_token"
                  "https://api.twitter.com/oauth/authorize"
                  "https://example.org/oauth10acallback" stub_password_hash ∅
                  (fresh ∅ no_tables)
    = (Ok (Page (RenderTemplate "oauth10aindex.html"
                   [("authorize_url", JStr "https://api.twitter.com/oauth/authorize");
                    ("oauth_token", JStr "request-token");
                    ("request_token_url", JStr "https://api.twitter.com/oauth/request_token");
                    ("app_callback_uri", JStr "https://example.org/oauth10acallback")]),
           <["request-token" := h]> ∅), w1)
    /\ fst (stub_password_hash "request-secret"
              (after_calls (fresh ∅ no_tables)
                 [request_token_call Refusals.issuing_env
                    "https://api.twitter.com/oauth/request_token"
                    "https://example.org/oauth10acallback"]))
       = Ok h
    /\ session w1 = <["oauth_token_secret" := "request-secret"]> (session (fresh ∅ no_tables))
    /\ committed w1 = committed (fresh ∅ no_tables)
    /\ http_log (snd (oauth10acallback Refusals.issuing_env (Some "u@example.org")
                        complete_callback w1))
       = http_log (fresh ∅ no_tables)
         ++ request_token_call Refusals.issuing_env
              "https://api.twitter.com/oauth/request_token"
              "https://example.org/oauth10acallback"
            :: exchange_call Refusals.issuing_env "request-token" "request-secret" "verifier"
            :: later.
Proof.
  apply (issued_secret_signs_exchange Refusals.issuing_env
           "https://api.twitter.com/oauth/request_token"
           "https://api.twitter.com/oauth/authorize"
           "https://example.org/oauth10acallback" stub_password_hash
           stub_password_hash_draws ∅ (fresh ∅ no_tables)
           (HttpReply 200 "OK" "oauth_token=request-token&oauth_token_secret=request-secret")
           "request-token" "request-secret" (Some "u@example.org") complete_callback
           "request-token" "verifier").
  - reflexivity.
  - reflexivity.
  - reflexivity.
  - reflexivity.
  - discriminate.
  - reflexivity.
  - reflexivity.
  - discriminate.
  - reflexivity.
  - discriminate.
Defined.

End IndexFacts.

(** ** The 1.0a callback when the provider account is free *)

Module StoreUpdates.
Import oauth10a Scenario StoreFacts.

(** Replacing row [i] keeps a column free of NULL when the new row has a
    value in it. *)
Lemma has_null_replace {A} (col : A -> option string) rows i r r' :
  rows !! i = Some r ->
  Store.has_null col rows = false ->
  col r' <> None ->
  Store.has_null col (<[i := r']> rows) = false.
Proof.
  intros Hi Hn Hcol.
  assert (Hlt : (i < length rows)%nat) by (apply lookup_lt_Some in Hi; exact Hi).
  assert (Hsplit : rows = take i rows ++ r :: drop (S i) rows)
    by (symmetry; apply take_drop_middle; exact Hi).
  rewrite insert_take_drop by exact Hlt.
  apply has_null_false. intros x Hx.
  apply in_app_or in Hx. destruct Hx as [Hx | [<- | Hx]]; [| exact Hcol |].
  - apply (proj1 (has_null_false _ _) Hn). rewrite Hsplit. apply in_or_app. left. exact Hx.
  - apply (proj1 (has_null_false _ _) Hn). rewrite Hsplit.
    apply in_or_app. right. right. exact Hx.
Qed.

(** Replacing row [i] keeps a column free of duplicates when no other row
    holds the value of the new row. *)
Lemma has_dup_replace_row {A} (col : A -> option string) rows i r r' x :
  rows !! i = Some r ->
  col r' = Some x ->
  Store.has_dup (Store.non_null col rows) = false ->
  (forall j y, j <> i -> rows !! j = Some y -> col y <> Some x) ->
  Store.has_dup (Store.non_null col (<[i := r']> rows)) = false.
Proof.
  intros Hi Hcol Hd Hfree.
  assert (Hlt : (i < length rows)%nat) by (apply lookup_lt_Some in Hi; exact Hi).
  assert (Hsplit : rows = take i rows ++ r :: drop (S i) rows)
    by (symmetry; apply take_drop_middle; exact Hi).
  assert (Hbefore : ~ In x (Store.non_null col (take i rows))).
  { intros Hin. apply In_non_null in Hin. destruct Hin as [y [Hy Hey]].
    apply list_elem_of_In, list_elem_of_lookup in Hy. destruct Hy as [j Hj].
    apply lookup_take_Some in Hj. destruct Hj as [Hj Hji].
    apply (Hfree j y); [lia | exact Hj | exact Hey]. }
  assert (Hafter : ~ In x (Store.non_null col (drop (S i) rows))).
  { intros Hin. apply In_non_null in Hin. destruct Hin as [y [Hy Hey]].
    apply list_elem_of_In, list_elem_of_lookup in Hy. destruct Hy as [j Hj].
    rewrite lookup_drop in Hj.
    apply (Hfree (S i + j)%nat y); [lia | exact Hj | exact Hey]. }
  rewrite insert_take_drop by exact Hlt.
  rewrite non_null_app.
  change (Store.non_null col (r' :: drop (S i) rows))
    with (match col r' with
          | Some y => y :: Store.non_null col (drop (S i) rows)
          | None => Store.non_null col (drop (S i) rows)
          end).
  rewrite Hcol.
  rewrite Hsplit, non_null_app in Hd.
  change (Store.non_null col (r :: drop (S i) rows))
    with (match col r with
          | Some y => y :: Store.non_null col (drop (S i) rows)
          | None => Store.non_null col (drop (S i) rows)
          end) in Hd.
  destruct (col r) as [old |].
  - apply (ResolverFacts.has_dup_replace _ _ x old); assumption.
  - apply CallbackEdges.has_dup_insert; assumption.
Qed.

Lemma user_valid rows :
  Store.user_violation rows = None ->
  Store.has_null User.email rows = false
  /\ Store.has_null User.account_name rows = false
  /\ Store.has_null User.password rows = false
  /\ Store.has_dup (Store.non_null User.email rows) = false
  /\ Store.has_dup (Store.non_null User.twitter_id rows) = false
  /\ Store.has_dup (Store.non_null User.account_name rows) = false.
Proof.
  unfold Store.user_violation.
  destruct (Store.has_null User.email rows); [discriminate |].
  destruct (Store.has_null User.account_name rows); [discriminate |].
  destruct (Store.has_null User.password rows); [discriminate |].
  destruct (Store.has_dup (Store.non_null User.email rows)); [discriminate |].
  destruct (Store.has_dup (Store.non_null User.twitter_id rows)); [discriminate |].
  destruct (Store.has_dup (Store.non_null User.account_name rows)); [discriminate |].
  auto 10.
Qed.

(** A first credential for owner [e] with a provider id that no stored
    credential carries satisfies the constraints of the 1.0a table. *)
Lemma oauth10a_append_valid t r' e :
  Store.violation t = None ->
  Store.first (fun r => Store.col_eq (OAuth10a.email r) (Some e)) (oauth10a_rows t) = None ->
  (forall x, In x (oauth10a_rows t) -> OAuth10a.twitter_id x <> OAuth10a.twitter_id r') ->
  OAuth10a.email r' = Some e ->
  Store.violation (set_oauth10a_rows t (oauth10a_rows t ++ [r'])) = None.
Proof.
  intros Hvalid Hfirst Hfree Hemail.
  pose proof Hvalid as Hv.
  destruct (violation_None _ Hvalid) as [H10a [Hpkce Huser]].
  destruct (CallbackEdges.oauth10a_valid _ H10a) as [Hn [Hd1 Hd2]].
  unfold Store.violation, set_oauth10a_rows. cbn [oauth10a_rows pkce_rows user_rows].
  rewrite Hpkce, Huser.
  enough (Hnew : Store.oauth10a_violation (oauth10a_rows t ++ [r']) = None)
    by (rewrite Hnew; reflexivity).
  unfold Store.oauth10a_violation.
  rewrite has_null_app, Hn. unfold Store.has_null at 1. cbn [existsb].
  rewrite Hemail. cbn [orb].
  rewrite non_null_app.
  change (Store.non_null OAuth10a.email [r'])
    with (match OAuth10a.email r' with Some y => [y] | None => [] end).
  rewrite Hemail, has_dup_snoc, Hd1.
  assert (Hfresh : existsb (String.eqb e) (Store.non_null OAuth10a.email (oauth10a_rows t))
                   = false).
  { apply Bool.not_true_is_false. intros Hin. apply existsb_eqb_In, In_non_null in Hin.
    destruct Hin as [r [Hr He]].
    pose proof (first_None _ _ Hfirst r Hr) as Hp. cbv beta in Hp.
    apply PkceFacts.col_eq_false in Hp. contradiction. }
  rewrite Hfresh. cbn [orb].
  rewrite map_app. cbn [map]. rewrite has_dup_snoc, Hd2. cbn [orb].
  assert (Hunheld : existsb (String.eqb (OAuth10a.twitter_id r'))
                            (map OAuth10a.twitter_id (oauth10a_rows t)) = false).
  { apply Bool.not_true_is_false. intros Hin. apply existsb_eqb_In in Hin.
    apply in_map_iff in Hin. destruct Hin as [x [Hx Hin]].
    exact (Hfree x Hin Hx). }
  rewrite Hunheld. reflexivity.
Qed.

(** Linking a user row to a provider account that no other user row names
    satisfies the constraints of the user table. *)
Lemma user_update_valid t i u u' tid sn :
  Store.violation t = None ->
  user_rows t !! i = Some u ->
  User.email u' = User.email u ->
  User.password u' = User.password u ->
  User.twitter_id u' = Some tid ->
  User.account_name u' = Some sn ->
  (forall j x, j <> i -> user_rows t !! j = Some x -> User.twitter_id x <> Some tid) ->
  (forall j x, j <> i -> user_rows t !! j = Some x -> User.account_name x <> Some sn) ->
  Store.violation (set_user_rows t (<[i := u']> (user_rows t))) = None.
Proof.
  intros Hvalid Hi Hemail Hpassword Hid Hname Hfree_id Hfree_name.
  destruct (violation_None _ Hvalid) as [H10a [Hpkce Huser]].
  destruct (user_valid _ Huser) as (Hn1 & Hn2 & Hn3 & Hd1 & Hd2 & Hd3).
  unfold Store.violation, set_user_rows. cbn [oauth10a_rows pkce_rows user_rows].
  rewrite H10a, Hpkce. unfold Store.user_violation.
  assert (Hmap1 : map User.email (<[i := u']> (user_rows t)) = map User.email (user_rows t))
    by (apply (map_insert_same _ _ i u u' Hi Hemail)).
  assert (Hmap2 : map User.password (<[i := u']> (user_rows t))
                  = map User.password (user_rows t))
    by (apply (map_insert_same _ _ i u u' Hi Hpassword)).
  rewrite (has_null_map User.email), Hmap1, <- has_null_map, Hn1.
  rewrite (has_null_replace User.account_name _ i u u' Hi Hn2) by congruence.
  rewrite (has_null_map User.password), Hmap2, <- has_null_map, Hn3.
  rewrite (non_null_map User.email), Hmap1, <- non_null_map, Hd1.
  rewrite (has_dup_replace_row User.twitter_id _ i u u' tid Hi Hid Hd2 Hfree_id).
  rewrite (has_dup_replace_row User.account_name _ i u u' sn Hi Hname Hd3 Hfree_name).
  reflexivity.
Qed.

(** The first 1.0a credential of a registered user, for a provider
    account that no stored credential and no other user row names: the
    callback appends one credential row made of the user's e-mail, the id
    and screen name of the verification reply, the issued token pair and
    the verifier; writes that id and screen name into the user's own row;
    commits; and only then generates the PKCE verifier and state, which it
    leaves in the session and puts into the authorization URL of the
    rendered page. *)
Theorem first_credential_stored E e args w tok ver sec rt rs sn tid iu u :
  passes_guards args w tok ver sec ->
  provider_issues E w tok ver sec rt rs ->
  provider_verifies E w rt rs sn tid ->
  pending w = None ->
  Store.violation (committed w) = None ->
  Store.first (fun r => Store.col_eq (OAuth10a.email r) (Some e)) (stored_oauth10a w) = None ->
  (forall x, In x (stored_oauth10a w) -> OAuth10a.twitter_id x <> tid) ->
  Store.first (fun x => Store.col_eq (User.email x) (Some e)) (user_rows (committed w))
  = Some (iu, u) ->
  (forall j x, j <> iu -> user_rows (committed w) !! j = Some x ->
               User.twitter_id x <> Some tid) ->
  (forall j x, j <> iu -> user_rows (committed w) !! j = Some x ->
               User.account_name x <> Some sn) ->
  exists members verifier state,
    oauth10acallback E (Some e) args w
    = (Ok (RenderTemplate "oauth10acallback.html"
             [("screen_name", JStr sn); ("user_id", JStr tid);
              ("name", member_or members "name" (JStr "Unknown"));
              ("friends_count", member_or members "friends_count" (JStr "Unavailable"));
              ("statuses_count", member_or members "statuses_count" (JStr "Unavailable"));
              ("followers_count", member_or members "followers_count" (JStr "Unavailable"));
              ("email", JStr e);
              ("authorization_url",
               JStr (Pkce.authorization_url E state (Pkce.code_challenge verifier)))]),
       World (http_log w ++ [exchange_call E tok sec ver; verify_call E rt rs])
             (<["state" := state]> (<["code_verifier" := verifier]> (session w)))
             (Tables (stored_oauth10a w ++
                      [OAuth10a.Build (Some e) tid sn (Some (clock E)) (Some (clock E))
                         ver rt rs None])
                     (pkce_rows (committed w))
                     (<[iu := User.Build (User.email u) (Some tid) (Some sn)
                                (User.password u) (User.date_created u)]>
                        (user_rows (committed w))))
             None (flashes w) (yielded w) (256 + drawn w)).
Proof.
  intros Hg (r & Hr & Hstatus & Hrt & Hrs) (r2 & members & Hr2 & Hstatus2 & Hj & Hsn & Hid)
         Hclean Hvalid Hfirst Hfree Huser Hfree_id Hfree_name.
  unfold stored_oauth10a in *.
  destruct (first_Some _ _ _ _ Huser) as [Hiu _].
  set (new := OAuth10a.Build (Some e) tid sn (Some (clock E)) (Some (clock E)) ver rt rs None).
  set (t1 := set_oauth10a_rows (committed w) (oauth10a_rows (committed w) ++ [new])).
  set (u' := User.Build (User.email u) (Some tid) (Some sn) (User.password u)
                        (User.date_created u)).
  assert (Hvalid1 : Store.violation t1 = None).
  { apply (oauth10a_append_valid (committed w) new e Hvalid Hfirst); [| reflexivity].
    intros x Hx. cbn. apply Hfree. exact Hx. }
  assert (Hvalid2 : Store.violation (set_user_rows t1 (<[iu := u']> (user_rows t1))) = None).
  { apply (user_update_valid t1 iu u u' tid sn Hvalid1); try reflexivity; assumption. }
  set (w2 := World (http_log w ++ [exchange_call E tok sec ver; verify_call E rt rs])
                   (session w) (set_user_rows t1 (<[iu := u']> (user_rows t1))) None
                   (flashes w) (yielded w) (drawn w)).
  destruct (PkceFacts.choices_unreserved E 128 w2) as [cs [Hrun _]].
  destruct (PkceFacts.token_hex_runs E 128 (after_draws w2 128)) as [state Hstate].
  exists members, (Py.join_chars cs), state.
  destruct Hg as (Hd & Ht & Htne & Hv & Hvne & Hs & Hsne).
  unfold oauth10acallback.
  rewrite (OAuth10aFacts.truthy_value_None _ Hd),
          (CallbackEdges.truthy_value_nonempty _ _ Ht Htne),
          (CallbackEdges.truthy_value_nonempty _ _ Hv Hvne).
  unfold bind at 1, Eff.session_get at 1. cbv beta iota.
  rewrite (CallbackEdges.truthy_value_nonempty _ _ Hs Hsne).
  unfold bind at 1, Eff.http_request at 1. cbv beta iota zeta.
  unfold exchange_call in Hr. rewrite Hr, Hstatus. cbn [Z.eqb Pos.eqb negb].
  unfold bind at 1, Token at 1. rewrite Hrt, Hrs. unfold ret at 1. cbn [fst snd].
  unfold bind at 1, Eff.http_request at 1. cbv beta iota zeta.
  cbn [http_log session committed pending flashes yielded drawn].
  rewrite length_app. cbn [length]. rewrite Nat.add_1_r.
  unfold verify_call in Hr2. rewrite Hr2, Hstatus2. cbn [Z.eqb Pos.eqb negb].
  unfold bind at 1, Eff.reply_json at 1. rewrite Hj. unfold ret at 1.
  unfold bind at 1, Json.get at 1. rewrite Hsn. unfold ret at 1.
  unfold bind at 1, Json.as_text at 1, ret at 1.
  unfold bind at 1, Json.get at 1. rewrite Hid. unfold ret at 1.
  unfold bind at 1, Json.as_text at 1, ret at 1.
  unfold bind at 1, upsert_oauth10a at 1, bind at 1, Eff.query at 1.
  cbn [http_log session committed pending flashes yielded drawn].
  rewrite Hclean. cbv beta iota.
  rewrite <- app_assoc. cbn [app].
  rewrite Hfirst.
  unfold Eff.stage at 1. cbv beta iota.
  unfold bind at 1, upsert_user at 1, bind at 1, Eff.query at 1.
  cbn [http_log session committed pending flashes yielded drawn].
  fold new. fold t1. rewrite Hvalid1.
  change (user_rows t1) with (user_rows (committed w)) in *.
  rewrite Huser.
  unfold Eff.stage at 1. cbv beta iota.
  fold u'.
  unfold bind at 1, except_integrity at 1, try_except at 1, bind at 1, Eff.commit at 1.
  cbn [http_log session committed pending flashes yielded drawn].
  rewrite Hvalid2. unfold ret at 1.
  match goal with |- _ ?world = _ => change world with w2 end.
  unfold bind at 1, Pkce.code_verifier at 1, bind at 1. rewrite Hrun. unfold ret at 1.
  unfold bind at 1. rewrite Hstate.
  unfold bind, Eff.session_set, Json.get, ret, after_draws, member_or, w2, t1,
    set_user_rows, set_oauth10a_rows.
  cbn [http_log session committed pending flashes yielded drawn
       oauth10a_rows pkce_rows user_rows].
  reflexivity.
Qed.

Lemma first_credential_stored_witness :
  exists members verifier state,
    oauth10acallback provider10a_env (Some "u@example.org") complete_callback
                     (fresh request_secret (Tables [] [] [user_u]))
    = (Ok (RenderTemplate "oauth10acallback.html"
             [("screen_name", JStr "old_handle"); ("user_id", JStr "1001");
              ("name", member_or members "name" (JStr "Unknown"));
              ("friends_count", member_or members "friends_count" (JStr "Unavailable"));
              ("statuses_count", member_or members "statuses_count" (JStr "Unavailable"));
              ("followers_count", member_or members "followers_count" (JStr "Unavailable"));
              ("email", JStr "u@example.org");
              ("authorization_url",
               JStr (Pkce.authorization_url provider10a_env state
                       (Pkce.code_challenge verifier)))]),
       World (http_log (fresh request_secret (Tables [] [] [user_u]))
              ++ [exchange_call provider10a_env "request-token" "request-secret" "verifier";
                  verify_call provider10a_env "real-token" "real-secret"])
             (<["state" := state]>
                (<["code_verifier" := verifier]>
                   (session (fresh request_secret (Tables [] [] [user_u])))))
             (Tables (stored_oauth10a (fresh request_secret (Tables [] [] [user_u])) ++
                      [OAuth10a.Build (Some "u@example.org") "1001" "old_handle"
                         (Some (clock provider10a_env)) (Some (clock provider10a_env))
                         "verifier" "real-token" "real-secret" None])
                     (pkce_rows (committed (fresh request_secret (Tables [] [] [user_u]))))
                     (<[0%nat := User.Build (User.email user_u) (Some "1001")
                                   (Some "old_handle") (User.password user_u)
                                   (User.date_created user_u)]>
                        (user_rows (committed (fresh request_secret
                                                 (Tables [] [] [user_u]))))))
             None (flashes (fresh request_secret (Tables [] [] [user_u])))
             (yielded (fresh request_secret (Tables [] [] [user_u])))
             (256 + drawn (fresh request_secret (Tables [] [] [user_u])))).
Proof.
  apply (first_credential_stored provider10a_env "u@example.org" complete_callback
           (fresh request_secret (Tables [] [] [user_u]))
           "request-token" "verifier" "request-secret" "real-token" "real-secret"
           "old_handle" "1001" 0%nat user_u).
  - repeat split; try reflexivity; discriminate.
  - eexists. repeat split; reflexivity.
  - eexists. eexists. repeat split; reflexivity.
  - reflexivity.
  - reflexivity.
  - reflexivity.
  - intros x [].
  - reflexivity.
  - intros [| j] x Hj Hx; [congruence | discriminate Hx].
  - intros [| j] x Hj Hx; [congruence | discriminate Hx].
Defined.

(** A user table in which two rows name the same provider account
    violates one of its constraints. *)
Lemma user_twitter_id_conflict rows :
  Store.has_dup (Store.non_null User.twitter_id rows) = true ->
  exists m, Store.user_violation rows = Some m.
Proof.
  intros Hd. unfold Store.user_violation.
  destruct (Store.has_null User.email rows); [eauto |].
  destruct (Store.has_null User.account_name rows); [eauto |].
  destruct (Store.has_null User.password rows); [eauto |].
  destruct (Store.has_dup (Store.non_null User.email rows)); [eauto |].
  rewrite Hd. eauto.
Qed.

(** The "Database error" page is what a conflict in the user table gives.
    When another user row already names the provider account of the
    callback, the credential row passes the flush, the commit is rejected
    inside the guarded block, and the view rolls back and renders
    "Database error": nothing is committed or left staged, and no PKCE
    verifier or state is put into the session. *)
Theorem user_conflict_gives_database_error E e args w tok ver sec rt rs sn tid iu u j other :
  passes_guards args w tok ver sec ->
  provider_issues E w tok ver sec rt rs ->
  provider_verifies E w rt rs sn tid ->
  pending w = None ->
  Store.violation (committed w) = None ->
  Store.first (fun r => Store.col_eq (OAuth10a.email r) (Some e)) (stored_oauth10a w) = None ->
  (forall x, In x (stored_oauth10a w) -> OAuth10a.twitter_id x <> tid) ->
  Store.first (fun x => Store.col_eq (User.email x) (Some e)) (user_rows (committed w))
  = Some (iu, u) ->
  j <> iu ->
  user_rows (committed w) !! j = Some other ->
  User.twitter_id other = Some tid ->
  oauth10acallback E (Some e) args w
  = (Ok (render_error "Database error"),
     rolled_back (after_calls w [exchange_call E tok sec ver; verify_call E rt rs])).
Proof.
  intros Hg (r & Hr & Hstatus & Hrt & Hrs) (r2 & members & Hr2 & Hstatus2 & Hj & Hsn & Hid)
         Hclean Hvalid Hfirst Hfree Huser Hji Hother Hheld.
  unfold stored_oauth10a in *.
  destruct (first_Some _ _ _ _ Huser) as [Hiu _].
  set (new := OAuth10a.Build (Some e) tid sn (Some (clock E)) (Some (clock E)) ver rt rs None).
  set (t1 := set_oauth10a_rows (committed w) (oauth10a_rows (committed w) ++ [new])).
  set (u' := User.Build (User.email u) (Some tid) (Some sn) (User.password u)
                        (User.date_created u)).
  assert (Hvalid1 : Store.violation t1 = None).
  { apply (oauth10a_append_valid (committed w) new e Hvalid Hfirst); [| reflexivity].
    intros x Hx. cbn. apply Hfree. exact Hx. }
  assert (Hbad : exists m,
             Store.violation (set_user_rows t1 (<[iu := u']> (user_rows t1))) = Some m).
  { destruct (violation_None _ Hvalid1) as [H10a [Hpkce _]].
    unfold Store.violation, set_user_rows. cbn [oauth10a_rows pkce_rows user_rows].
    rewrite H10a, Hpkce.
    apply user_twitter_id_conflict.
    change (user_rows t1) with (user_rows (committed w)).
    assert (Hlt : (iu < length (user_rows (committed w)))%nat)
      by (apply lookup_lt_Some in Hiu; exact Hiu).
    rewrite insert_take_drop by exact Hlt.
    rewrite non_null_app.
    change (Store.non_null User.twitter_id (u' :: drop (S iu) (user_rows (committed w))))
      with (tid :: Store.non_null User.twitter_id (drop (S iu) (user_rows (committed w)))).
    apply has_dup_middle.
    destruct (Nat.lt_ge_cases j iu) as [Hlow | Hhigh].
    - left. apply (non_null_In _ _ other); [| exact Hheld].
      apply list_elem_of_In, list_elem_of_lookup. exists j.
      apply lookup_take_Some. split; [exact Hother | exact Hlow].
    - right. apply (non_null_In _ _ other); [| exact Hheld].
      apply list_elem_of_In, list_elem_of_lookup. exists (j - S iu)%nat.
      rewrite lookup_drop. replace (S iu + (j - S iu))%nat with j by lia. exact Hother. }
  destruct Hbad as [m Hbad].
  destruct Hg as (Hd & Ht & Htne & Hv & Hvne & Hs & Hsne).
  unfold oauth10acallback.
  rewrite (OAuth10aFacts.truthy_value_None _ Hd),
          (CallbackEdges.truthy_value_nonempty _ _ Ht Htne),
          (CallbackEdges.truthy_value_nonempty _ _ Hv Hvne).
  unfold bind at 1, Eff.session_get at 1. cbv beta iota.
  rewrite (CallbackEdges.truthy_value_nonempty _ _ Hs Hsne).
  unfold bind at 1, Eff.http_request at 1. cbv beta iota zeta.
  unfold exchange_call in Hr. rewrite Hr, Hstatus. cbn [Z.eqb Pos.eqb negb].
  unfold bind at 1, Token at 1. rewrite Hrt, Hrs. unfold ret at 1. cbn [fst snd].
  unfold bind at 1, Eff.http_request at 1. cbv beta iota zeta.
  cbn [http_log session committed pending flashes yielded drawn].
  rewrite length_app. cbn [length]. rewrite Nat.add_1_r.
  unfold verify_call in Hr2. rewrite Hr2, Hstatus2. cbn [Z.eqb Pos.eqb negb].
  unfold bind at 1, Eff.reply_json at 1. rewrite Hj. unfold ret at 1.
  unfold bind at 1, Json.get at 1. rewrite Hsn. unfold ret at 1.
  unfold bind at 1, Json.as_text at 1, ret at 1.
  unfold bind at 1, Json.get at 1. rewrite Hid. unfold ret at 1.
  unfold bind at 1, Json.as_text at 1, ret at 1.
  unfold bind at 1, upsert_oauth10a at 1, bind at 1, Eff.query at 1.
  cbn [http_log session committed pending flashes yielded drawn].
  rewrite Hclean. cbv beta iota.
  rewrite <- app_assoc. cbn [app].
  rewrite Hfirst.
  unfold Eff.stage at 1. cbv beta iota.
  unfold bind at 1, upsert_user at 1, bind at 1, Eff.query at 1.
  cbn [http_log session committed pending flashes yielded drawn].
  fold new. fold t1. rewrite Hvalid1.
  change (user_rows t1) with (user_rows (committed w)) in *.
  rewrite Huser.
  unfold Eff.stage at 1. cbv beta iota.
  fold u'.
  unfold bind at 1, except_integrity at 1, try_except at 1, bind at 1, Eff.commit at 1.
  cbn [http_log session committed pending flashes yielded drawn].
  rewrite Hbad.
  unfold bind, Eff.rollback, ret, rolled_back, after_calls.
  cbn [http_log session committed pending flashes yielded drawn].
  reflexivity.
Qed.

Lemma user_conflict_gives_database_error_witness :
  oauth10acallback provider10a_env (Some "u@example.org") complete_callback
                   (fresh request_secret
                      (Tables [] [] [Refusals.user_u_unlinked; Refusals.user_w_1001]))
  = (Ok (render_error "Database error"),
     rolled_back
       (after_calls
          (fresh request_secret
             (Tables [] [] [Refusals.user_u_unlinked; Refusals.user_w_1001]))
          [exchange_call provider10a_env "request-token" "request-secret" "verifier";
           verify_call provider10a_env "real-token" "real-secret"])).
Proof.
  apply (user_conflict_gives_database_error provider10a_env "u@example.org" complete_callback
           (fresh request_secret
              (Tables [] [] [Refusals.user_u_unlinked; Refusals.user_w_1001]))
           "request-token" "verifier" "request-secret" "real-token" "real-secret"
           "old_handle" "1001" 0%nat Refusals.user_u_unlinked 1%nat Refusals.user_w_1001).
  - repeat split; try reflexivity; discriminate.
  - eexists. repeat split; reflexivity.
  - eexists. eexists. repeat split; reflexivity.
  - reflexivity.
  - reflexivity.
  - reflexivity.
  - intros x [].
  - reflexivity.
  - discriminate.
  - reflexivity.
  - reflexivity.
Defined.

End StoreUpdates.

(** ** The resolver without a matching row *)

Module ResolverEdges.
Import oauth10a Scenario StoreFacts.

Lemma first_from_unmatched {A} (p : A -> bool) rows :
  (forall r, In r rows -> p r = false) ->
  forall base, Store.first_from base p rows = None.
Proof.
  induction rows as [| r rows IH]; intros Hp base; cbn [Store.first_from]; [reflexivity |].
  rewrite (Hp r) by (left; reflexivity).
  apply IH. intros x Hx. apply Hp. right. exact Hx.
Qed.

(** The resolver reports success without storing anything when no stored
    row matches its lookup: on the token-secret violation when no row has
    both the token and the secret of the incoming credential, and on the
    provider-id violation when no row has its provider id. It rolls back
    and returns [None], as it does after a successful update, and the
    incoming credential is in no table. *)
Theorem unmatched_credential_is_dropped E e ty s w :
  (Py.contains "UNIQUE constraint failed: oauth10a.oauth_token_secret" (str_exn e) = true
   /\ forall r, In r (stored_oauth10a w) -> same_token_pair s r = false)
  \/ (Py.contains "UNIQUE constraint failed: oauth10a.oauth_token_secret" (str_exn e) = false
      /\ Py.contains "UNIQUE constraint failed: oauth10a.twitter_id" (str_exn e) = true
      /\ forall r, In r (stored_oauth10a w) -> OAuth10a.twitter_id r <> OAuth10a.twitter_id s) ->
  handle_integrity_error E e ty s w = (Ok None, rolled_back w).
Proof.
  unfold stored_oauth10a.
  intros [[Hm Hnone] | [Hm1 [Hm2 Hnone]]]; unfold handle_integrity_error;
    unfold bind at 1, Eff.rollback.
  - rewrite Hm. unfold bind at 1, update_existing_entry, bind at 1, Eff.query.
    cbn [pending committed]. unfold Store.first.
    rewrite (first_from_unmatched _ _ Hnone). reflexivity.
  - rewrite Hm1, Hm2. unfold bind at 1, update_existing_record, bind at 1, Eff.query.
    cbn [pending committed]. unfold Store.first.
    rewrite first_from_unmatched; [reflexivity |].
    intros r Hr. apply String.eqb_neq. apply Hnone. exact Hr.
Qed.

Lemma unmatched_credential_is_dropped_witness :
  handle_integrity_error (env_with always_ok 1000) token_secret_violation IdStr incoming_u_B
                         (fresh ∅ (Tables [cred_u_A] [] []))
  = (Ok None, rolled_back (fresh ∅ (Tables [cred_u_A] [] []))).
Proof.
  apply (unmatched_credential_is_dropped (env_with always_ok 1000) token_secret_violation
           IdStr incoming_u_B (fresh ∅ (Tables [cred_u_A] [] []))).
  left. split; [reflexivity |].
  intros r [<- | []]. reflexivity.
Defined.

End ResolverEdges.

(** ** The state check of the PKCE callback *)

Module StateCheck.
Import oauth20pkce Scenario CallbackEdges.




End StateCheck.
